(** * TLF_Packager_CLI: the document-assembly and table-of-contents engine

    A shallow embedding of the engine that the three entry scripts share
    ([script/TLF_Packager.py], [script/pack_pdfs_with_toc.py] and
    [script/pack_rtfs_with_toc.py]): the merger, the title wrapper, the TOC
    paginator, the TOC page renderer and the assembly coordinator.

    Conventions of the embedding.
    - Python [str] is [string]; a character is one code point below 256.
    - Python numbers that the scripts mix with floats (font sizes, page
      geometry, text widths, cursor positions) are exact rationals [Q];
      page numbers, bookmark levels and line budgets are [Z].
    - A raised exception is the [Raise] outcome of the [result] monad.
    - PyMuPDF ([fitz]) is not part of the repository.  Its text measurer is
      the class [TextMeasurer]; a document is the record [Doc], on which
      [insert_pdf], [set_toc], [insert_link], [insert_text] and [save] act
      as their names say and do not raise; [fitz.open] raises on a path
      that holds no document.
    - The office converter and [os.path] are the class [Host]. *)

From Stdlib Require Import ZArith QArith Qround String Ascii List Lia Lqa.
From Stdlib Require Import DecimalString DecimalPos Sorted Permutation.
From stdpp Require Import base list strings gmap.
Import ListNotations.

Open Scope Z_scope.

(** ** Python strings *)

Module PyStr.

(** [str.isspace] for one character: the Unicode white space below 256,
    that is TAB..CR, FS..US, SPACE, NEL and NBSP. *)
Definition isspace (c : ascii) : bool :=
  let n := N_of_ascii c in
  (((9 <=? n) && (n <=? 13)) || ((28 <=? n) && (n <=? 32))
   || (n =? 133) || (n =? 160))%N.

(** Truth value of a string: [if s:] holds for the non-empty ones. *)
Definition truthy (s : string) : bool :=
  match s with
  | EmptyString => false
  | String _ _ => true
  end.

(** [s.split()] reads [s] left to right; [word] is the word being read. *)
Fixpoint split_from (word s : string) : list string :=
  match s with
  | EmptyString => if truthy word then [word] else []
  | String c rest =>
      if isspace c
      then (if truthy word then word :: split_from "" rest
            else split_from "" rest)
      else split_from (word +:+ String c "") rest
  end.

Definition split (s : string) : list string := split_from "" s.

Fixpoint lstrip (s : string) : string :=
  match s with
  | EmptyString => ""
  | String c rest => if isspace c then lstrip rest else s
  end.

Definition rstrip (s : string) : string :=
  String.rev (lstrip (String.rev s)).

(** [s.strip()] *)
Definition strip (s : string) : string := rstrip (lstrip s).

(** ['.' * n]: a non-positive count gives the empty string. *)
Definition repeat_str (s : string) (n : Z) : string :=
  Nat.iter (Z.to_nat n) (fun acc => s +:+ acc) ""%string.

(** [str(n)] on an integer. *)
Definition str (n : Z) : string := NilZero.string_of_int (Z.to_int n).

(** [len(l)] *)
Definition len {A : Type} (l : list A) : Z := Z.of_nat (length l).

End PyStr.

(** ** Exceptions *)

Inductive exn : Type :=
| ZeroDivisionError   (* float floor division by zero *)
| FileDataError       (* [fitz.open] on a path that holds no readable document *)
| IndexError.         (* [doc[i]] with no page [i] *)

Inductive result (A : Type) : Type :=
| Ok (a : A)
| Raise (e : exn).
Arguments Ok {A} a.
Arguments Raise {A} e.

#[export] Instance result_ret : MRet result := fun A a => Ok a.
#[export] Instance result_bind : MBind result :=
  fun A B k r => match r with Ok a => k a | Raise e => Raise e end.

(** ** Python floats, as exact rationals *)

Definition Qlt_bool (a b : Q) : bool := negb (Qle_bool b a).

(** [int(a // b)] *)
Definition floordiv (a b : Q) : result Z :=
  if Qeq_bool b 0 then Raise ZeroDivisionError else Ok (Qfloor (a / b)).

(** ** Documents

    A bookmark row is [[lvl, title, page]] with [page] counted from 1, as
    [Document.get_toc] returns it and [Document.set_toc] takes it. *)

Definition Bookmark : Type := Z * string * Z.

Record Rect : Type := mkRect { x0 : Q; y0 : Q; x1 : Q; y1 : Q }.

(** A [LINK_GOTO] link: its hot area and the page, counted from 0, it
    jumps to. *)
Record Link : Type := mkLink { link_from : Rect; link_page : Z }.

(** One [page.insert_text((x, y), text, fontsize=...)] call. *)
Record TextOp : Type :=
  mkText { text_x : Q; text_y : Q; text : string; fontsize : Q }.

Record Page : Type := mkPage {
  page_width : Q;
  page_height : Q;
  page_text : list TextOp;
  page_links : list Link
}.

Record Doc : Type := mkDoc { doc_pages : list Page; doc_toc : list Bookmark }.

(** The files on disk, and the paths [Document.save] was called on, the
    latest one last. *)
Record World : Type := mkWorld { files : gmap string Doc; saves : list string }.

(** The PyMuPDF calls the scripts make. *)
Module Fitz.

(** [fitz.open()] *)
Definition new : Doc := mkDoc [] [].

(** [fitz.open(path)] *)
Definition open (w : World) (path : string) : result Doc :=
  match files w !! path with
  | Some doc => Ok doc
  | None => Raise FileDataError
  end.

(** [doc.insert_pdf(src)] appends the pages of [src]; the outline of
    [src] is not copied. *)
Definition insert_pdf (doc src : Doc) : Doc :=
  mkDoc (doc_pages doc ++ doc_pages src) (doc_toc doc).

Definition page_count (doc : Doc) : Z := PyStr.len (doc_pages doc).

Definition set_toc (doc : Doc) (toc : list Bookmark) : Doc :=
  mkDoc (doc_pages doc) toc.

Definition get_toc (doc : Doc) : list Bookmark := doc_toc doc.

(** [doc.save(path)] *)
Definition save (w : World) (doc : Doc) (path : string) : World :=
  mkWorld (<[path := doc]> (files w)) (saves w ++ [path]).

(** [os.remove(path)] inside [try]/[except], or after [os.path.exists]. *)
Definition remove (w : World) (path : string) : World :=
  mkWorld (delete path (files w)) (saves w).

(** [toc_doc.new_page(width=..., height=...)], before it is appended. *)
Definition new_page (width height : Q) : Page := mkPage width height [] [].

Definition insert_text (page : Page) (x y : Q) (s : string) (size : Q)
  : Page :=
  mkPage (page_width page) (page_height page)
         (page_text page ++ [mkText x y s size]) (page_links page).

Definition insert_link (page : Page) (l : Link) : Page :=
  mkPage (page_width page) (page_height page)
         (page_text page) (page_links page ++ [l]).

(** [fitz.paper_size("a4")] *)
Definition paper_size_a4 : Q * Q := (595, 842)%Q.

End Fitz.

(** ** The text measurer

    [fitz.get_text_length(text, fontsize=font_size)]: the rendered width of
    [text].  The engine only compares and subtracts the widths it returns. *)

Class TextMeasurer : Type := get_text_length : string -> Q -> Q.

(** A measurer to run the engine on: every character is half an em wide. *)
Definition half_em : TextMeasurer :=
  fun text font_size =>
    (inject_Z (Z.of_nat (String.length text)) * font_size * (1 # 2))%Q.

(** ** The host: path helpers of [os.path] and the RTF converter

    [convert_rtf_to_pdf(rtf_path, output_folder, title1, converter)] runs
    an office converter: it may write files, and gives the PDF's path or
    raises. *)

Class Host : Type := {
  basename : string -> string;
  dirname : string -> string;
  convert_rtf_to_pdf :
    gmap string Doc -> string -> string -> string -> string ->
    gmap string Doc * result string
}.

(** A TOC entry [(level, title, target_page)], [target_page] counted from
    0; a TOC page [[(entry, wrapped_lines), ...]]; a recorded link target
    [(page_index, rect, target_page)]. *)
Definition TocEntry : Type := Z * string * Z.
Definition TocPage : Type := list (TocEntry * list string).
Definition LinkTarget : Type := nat * Rect * Z.

(** ** The nested helpers of [add_toc_and_links]

    Their text is the same in the scripts, up to the wrapper that the
    paginator calls and the [include_toc_title] switch; the parts that
    differ are in the modules of the scripts below. *)

Module Engine.
Section Engine.
Context {fitz : TextMeasurer}.
Import PyStr.

(** [extract_toc_entries(doc)] *)
Definition extract_toc_entries (doc : Doc) : list TocEntry :=
  map (fun '(lvl, title, page_num) => (lvl, strip title, page_num - 1))
      (Fitz.get_toc doc).

Section Paginate.
Variable wrap_toc_title : string -> Q -> Q -> list string.
Variables font_size toc_text_max_width : Q.
Variable lines_per_page : Z.

(** The [for entry in toc_entries] loop of [paginate_wrapped_entries]:
    TLF_Packager.py lines 480-490, pack_pdfs_with_toc.py lines 94-104. *)
Fixpoint paginate_loop (toc_entries : list TocEntry)
         (paginated_entries : list TocPage)
         (current_page_entries : TocPage) (current_line_count : Z)
  : list TocPage * TocPage * Z :=
  match toc_entries with
  | [] => (paginated_entries, current_page_entries, current_line_count)
  | entry :: rest =>
      let '(level, title, target_page) := entry in
      let indent := 20 * (level - 1) in
      let entry_max_width := (toc_text_max_width - inject_Z indent)%Q in
      let wrapped_lines := wrap_toc_title title font_size entry_max_width in
      let line_count := len wrapped_lines in
      let '(paginated_entries, current_page_entries, current_line_count) :=
        if current_line_count + line_count >? lines_per_page
        then (paginated_entries ++ [current_page_entries], [], 0)
        else (paginated_entries, current_page_entries, current_line_count)
      in
      paginate_loop rest paginated_entries
                    (current_page_entries ++ [(entry, wrapped_lines)])
                    (current_line_count + line_count)
  end.

(** The loop, then the flush of the last page (lines 491-493). *)
Definition paginate_with_budget (toc_entries : list TocEntry)
  : list TocPage :=
  let '(paginated_entries, current_page_entries, _) :=
    paginate_loop toc_entries [] [] 0 in
  match current_page_entries with
  | [] => paginated_entries
  | _ :: _ => paginated_entries ++ [current_page_entries]
  end.
End Paginate.

Section Render.
Variables font_size page_number_x gap : Q.
Variable toc_page_count : Z.

Definition left_margin : Q := 50.
Definition top_margin : Q := 50.
Definition y_spacing : Q := font_size * 1.5.

(** One turn of the [for i, line in enumerate(wrapped_lines)] loop,
    before the cursor moves: TLF_Packager.py lines 521-536,
    pack_pdfs_with_toc.py lines 135-150.  [n] is [len(wrapped_lines)]. *)
Definition render_line (x page_number_width_local : Q)
           (page_number_str : string) (n i : Z) (line : string)
           (page : Page) (y : Q) : result Page :=
  let line_width := get_text_length line font_size in
  if i =? n - 1 then
    let page := Fitz.insert_text page x y line font_size in
    let dots_start_x := (x + line_width + 2)%Q in
    page ←
      (if Qlt_bool dots_start_x
            (page_number_x - page_number_width_local - gap)
       then
         let dots_width :=
           (page_number_x - page_number_width_local - gap
            - dots_start_x)%Q in
         let dot_char_width := get_text_length "." font_size in
         dot_count ← floordiv dots_width dot_char_width;
         let dots_str := repeat_str "." dot_count in
         Ok (Fitz.insert_text page dots_start_x y dots_str font_size)
       else Ok page);
    Ok (Fitz.insert_text page
          (page_number_x - page_number_width_local) y
          page_number_str font_size)
  else Ok (Fitz.insert_text page x y line font_size).

(** The [for i, line in enumerate(wrapped_lines)] loop:
    TLF_Packager.py lines 520-537, pack_pdfs_with_toc.py lines 134-151. *)
Fixpoint render_lines (x page_number_width_local : Q)
         (page_number_str : string) (n i : Z) (lines : list string)
         (page : Page) (y : Q) : result (Page * Q) :=
  match lines with
  | [] => Ok (page, y)
  | line :: rest =>
      page ← render_line x page_number_width_local page_number_str n i
                         line page y;
      render_lines x page_number_width_local page_number_str n (i + 1)
                   rest page (y + y_spacing)%Q
  end.

(** The [for (level, title, target_page), wrapped_lines in entries]
    loop: TLF_Packager.py lines 514-539, pack_pdfs_with_toc.py lines
    128-153. *)
Fixpoint render_entries (page_index : nat) (entries : TocPage)
         (page : Page) (y : Q) (link_targets : list LinkTarget)
  : result (Page * Q * list LinkTarget) :=
  match entries with
  | [] => Ok (page, y, link_targets)
  | ((level, title, target_page), wrapped_lines) :: rest =>
      let indent := 20 * (level - 1) in
      let x := (left_margin + inject_Z indent)%Q in
      let page_number_str := str (target_page + toc_page_count + 1) in
      let page_number_width_local :=
        get_text_length page_number_str font_size in
      let first_line_y := y in
      '(page, y) ←
        render_lines x page_number_width_local page_number_str
                     (len wrapped_lines) 0 wrapped_lines page y;
      let rect := mkRect x (first_line_y - font_size) page_number_x y in
      render_entries page_index rest page y
                     (link_targets ++ [(page_index, rect, target_page)])
  end.
End Render.

(** [add_toc_hyperlinks(doc, link_targets, toc_page_count)] *)
Fixpoint add_toc_hyperlinks (doc : Doc) (link_targets : list LinkTarget)
         (toc_page_count : Z) : result Doc :=
  match link_targets with
  | [] => Ok doc
  | (toc_page_index, rect, target_page) :: rest =>
      match doc_pages doc !! toc_page_index with
      | None => Raise IndexError
      | Some page =>
          let page :=
            Fitz.insert_link page (mkLink rect (target_page + toc_page_count)) in
          add_toc_hyperlinks
            (mkDoc (<[toc_page_index := page]> (doc_pages doc)) (doc_toc doc))
            rest toc_page_count
      end
  end.

(** [shift_bookmark_pages(bookmarks, offset)]; the [len(...) >= 3] test
    is on the three cells of the row. *)
Definition shift_bookmark_pages (bookmarks : list Bookmark) (offset : Z)
  : list Bookmark :=
  map (fun '(lvl, title, page) => (lvl, title, page + offset))
      (List.filter (fun _ => 3 <=? 3) bookmarks).

(** [add_existing_bookmarks(doc, bookmarks, offset)] *)
Definition add_existing_bookmarks (doc : Doc) (bookmarks : list Bookmark)
           (offset : Z) : Doc :=
  Fitz.set_toc doc (shift_bookmark_pages bookmarks offset).

End Engine.
End Engine.

(** ** [script/TLF_Packager.py] *)

Module TLF_Packager.
Section Script.
Context {fitz : TextMeasurer} {host : Host}.
Import PyStr.

(** A row of the reviewed worksheet: [entry['type']], [entry['file']],
    [entry['title1']], [entry['bookmark']] and [entry.get('converter')]. *)
Record Entry : Type := mkEntry {
  e_type : string;
  e_file : string;
  e_title1 : string;
  e_bookmark : string;
  e_converter : option string
}.

(** Lines 433-438 of the loop below: the PDF of an entry, converted
    first when the entry is an RTF. *)
Definition locate_pdf (entry : Entry) (w : World) : World * result string :=
  if String.eqb (e_type entry) "RTF" then
    let converter := default "LIBREOFFICE"%string (e_converter entry) in
    let '(fs, pdf_path) :=
      convert_rtf_to_pdf (files w) (e_file entry) (dirname (e_file entry))
                         (e_title1 entry) converter in
    (mkWorld fs (saves w), pdf_path)
  else (w, Ok (e_file entry)).

(** The [for idx, entry in enumerate(entries, 1)] loop of
    [merge_pdfs_with_bookmarks], lines 432-444. *)
Fixpoint merge_loop (entries : list Entry) (w : World) (merged : Doc)
         (toc : list Bookmark) (page_count : Z) (to_delete : list string)
  : World * result (Doc * list Bookmark * list string) :=
  match entries with
  | [] => (w, Ok (merged, toc, to_delete))
  | entry :: rest =>
      let '(w, located) := locate_pdf entry w in
      match located with
      | Raise e => (w, Raise e)
      | Ok pdf_path =>
          let to_delete :=
            if String.eqb (e_type entry) "RTF"
            then to_delete ++ [pdf_path] else to_delete in
          match Fitz.open w pdf_path with
          | Raise e => (w, Raise e)
          | Ok doc =>
              let bookmark :=
                strip (if truthy (e_bookmark entry) then e_bookmark entry
                       else basename (e_file entry)) in
              merge_loop rest w (Fitz.insert_pdf merged doc)
                         (toc ++ [(1, bookmark, page_count + 1)])
                         (page_count + Fitz.page_count doc) to_delete
          end
      end
  end.

(** [merge_pdfs_with_bookmarks(entries, output_path, delete_intermediate)],
    lines 425-453. *)
Definition merge_pdfs_with_bookmarks (entries : list Entry)
           (output_path : string) (delete_intermediate : bool) (w : World)
  : World * result unit :=
  match merge_loop entries w Fitz.new [] 0 [] with
  | (w, Raise e) => (w, Raise e)
  | (w, Ok (merged, toc, to_delete)) =>
      let merged := Fitz.set_toc merged toc in
      let w := Fitz.save w merged output_path in
      let w := if delete_intermediate
               then fold_left Fitz.remove to_delete w else w in
      (w, Ok tt)
  end.

(** The [for word in words] loop of [wrap_toc_title], lines 459-466. *)
Fixpoint wrap_loop (font_size max_width : Q) (words : list string)
         (lines : list string) (current_line : string)
  : list string * string :=
  match words with
  | [] => (lines, current_line)
  | word :: words' =>
      let test_line :=
        current_line +:+ (if truthy current_line then " " else "") +:+ word in
      if Qle_bool (get_text_length test_line font_size) max_width
      then wrap_loop font_size max_width words' lines test_line
      else
        let lines := if truthy current_line
                     then lines ++ [current_line] else lines in
        wrap_loop font_size max_width words' lines word
  end.

(** [wrap_toc_title(title, font_size, max_width)], lines 455-469.
    [title or ""] is [title] itself on a string. *)
Definition wrap_toc_title (title : string) (font_size max_width : Q)
  : list string :=
  let words := split title in
  let '(lines, current_line) := wrap_loop font_size max_width words [] "" in
  let lines := if truthy current_line
               then lines ++ [current_line] else lines in
  List.filter (fun line => truthy (strip line)) lines.

(** [paginate_wrapped_entries], lines 475-493: the two lines of the
    banner are taken off the budget unconditionally (line 478). *)
Definition paginate_wrapped_entries (toc_entries : list TocEntry)
           (font_size toc_text_max_width page_height : Q)
  : result (list TocPage) :=
  let y_spacing := (font_size * 1.5)%Q in
  lines_per_page ← floordiv (page_height - 100)%Q y_spacing;
  let lines_per_page := lines_per_page - 2 in
  Ok (Engine.paginate_with_budget wrap_toc_title font_size
        toc_text_max_width lines_per_page toc_entries).

(** The [for page_index, entries in enumerate(paginated_entries)] loop
    of [generate_toc_pages], lines 500-539. *)
Fixpoint generate_loop (font_size page_width page_height : Q)
         (toc_page_count : Z) (page_number_x gap : Q)
         (page_index : nat) (paginated_entries : list TocPage)
         (toc_doc : Doc) (link_targets : list LinkTarget)
  : result (Doc * list LinkTarget) :=
  match paginated_entries with
  | [] => Ok (toc_doc, link_targets)
  | entries :: rest =>
      let page := Fitz.new_page page_width page_height in
      let y := Engine.top_margin in
      let '(page, y) :=
        if (page_index =? 0)%nat then
          let toc_title := "Table of Contents"%string in
          let title_width := get_text_length toc_title (font_size + 2)%Q in
          (Fitz.insert_text page (page_width / 2 - title_width / 2)%Q y
                            toc_title (font_size + 2)%Q,
           (y + font_size * 2)%Q)
        else (page, y) in
      '(page, y, link_targets) ←
        Engine.render_entries font_size page_number_x gap toc_page_count
                              page_index entries page y link_targets;
      generate_loop font_size page_width page_height toc_page_count
                    page_number_x gap (S page_index) rest
                    (mkDoc (doc_pages toc_doc ++ [page]) (doc_toc toc_doc))
                    link_targets
  end.

(** [generate_toc_pages], lines 495-540. *)
Definition generate_toc_pages (paginated_entries : list TocPage)
           (font_size page_width page_height : Q) (toc_page_count : Z)
           (toc_text_max_width page_number_x page_number_width gap
            right_margin : Q)
  : result (Doc * list LinkTarget) :=
  generate_loop font_size page_width page_height toc_page_count
                page_number_x gap 0%nat paginated_entries Fitz.new [].

(** The document that [add_toc_and_links] builds from the merged body
    [base], lines 543-577: what it then saves, and the number of TOC
    pages. *)
Definition build_final (base : Doc) (font_size : Q) : result (Doc * Z) :=
  let original_toc := Engine.extract_toc_entries base in
  let original_bookmarks := Fitz.get_toc base in
  let '(width, height) := Fitz.paper_size_a4 in
  let left_margin := 50%Q in
  let right_margin := 60%Q in
  let max_page_number := 99999 in
  let page_number_width :=
    get_text_length (str max_page_number) font_size in
  let page_number_x := (width - right_margin)%Q in
  let gap := 8%Q in
  let toc_text_max_width :=
    (page_number_x - left_margin - page_number_width - gap)%Q in
  paginated ←
    paginate_wrapped_entries original_toc font_size toc_text_max_width
                             height;
  '(toc_doc, link_targets) ←
    generate_toc_pages paginated font_size width height (len paginated)
                       toc_text_max_width page_number_x page_number_width
                       gap right_margin;
  let toc_page_count := len paginated in
  let final := Fitz.new in
  let final := Fitz.insert_pdf final toc_doc in
  let final := Fitz.insert_pdf final base in
  final ← Engine.add_toc_hyperlinks final link_targets toc_page_count;
  let final :=
    Engine.add_existing_bookmarks final original_bookmarks toc_page_count in
  Ok (final, toc_page_count).

(** [add_toc_and_links(bookmarked_pdf, final_pdf, font_size)], lines
    471-587. *)
Definition add_toc_and_links (bookmarked_pdf final_pdf : string)
           (font_size : Q) (w : World) : World * result unit :=
  match Fitz.open w bookmarked_pdf with
  | Raise e => (w, Raise e)
  | Ok base =>
      match build_final base font_size with
      | Raise e => (w, Raise e)
      | Ok (final, _) =>
          let w := Fitz.save w final final_pdf in
          let w := Fitz.remove w bookmarked_pdf in
          (w, Ok tt)
      end
  end.

End Script.
End TLF_Packager.

(** ** [script/pack_pdfs_with_toc.py] *)

Module pack_pdfs_with_toc.
Section Script.
Context {fitz : TextMeasurer}.
Import PyStr.

(** [entry['pdf']] and [entry['title']]. *)
Record Entry : Type := mkEntry { e_pdf : string; e_title : string }.

(** The [for entry in entries] loop of [merge_pdfs_with_bookmarks],
    lines 56-61. *)
Fixpoint merge_loop (entries : list Entry) (w : World) (merged : Doc)
         (toc : list Bookmark) : result (Doc * list Bookmark) :=
  match entries with
  | [] => Ok (merged, toc)
  | entry :: rest =>
      sub ← Fitz.open w (e_pdf entry);
      let start := len (doc_pages merged) in
      let merged := Fitz.insert_pdf merged sub in
      merge_loop rest w merged (toc ++ [(1, e_title entry, start + 1)])
  end.

(** [merge_pdfs_with_bookmarks(entries, output_path)], lines 53-64. *)
Definition merge_pdfs_with_bookmarks (entries : list Entry)
           (output_path : string) (w : World) : World * result unit :=
  match merge_loop entries w Fitz.new [] with
  | Raise e => (w, Raise e)
  | Ok (merged, toc) =>
      let merged := Fitz.set_toc merged toc in
      (Fitz.save w merged output_path, Ok tt)
  end.

(** The [for word in words] loop of [wrap_toc_title], lines 70-79. *)
Fixpoint wrap_loop (font_size max_width : Q) (words : list string)
         (lines : list string) (current_line : string)
  : list string * string :=
  match words with
  | [] => (lines, current_line)
  | word :: words' =>
      if String.eqb current_line ""
      then wrap_loop font_size max_width words' lines word
      else
        let test_line := current_line +:+ " " +:+ word in
        if Qle_bool (get_text_length test_line font_size) max_width
           || (length (split current_line) =? 1)%nat
        then wrap_loop font_size max_width words' lines test_line
        else wrap_loop font_size max_width words'
                       (lines ++ [current_line]) word
  end.

(** [wrap_toc_title(title, font_size, max_width)], lines 66-82. *)
Definition wrap_toc_title (title : string) (font_size max_width : Q)
  : list string :=
  let words := split title in
  let '(lines, current_line) := wrap_loop font_size max_width words [] "" in
  let lines := if truthy current_line
               then lines ++ [current_line] else lines in
  List.filter (fun line => truthy (strip line)) lines.

(** [paginate_wrapped_entries], lines 88-107. *)
Definition paginate_wrapped_entries (toc_entries : list TocEntry)
           (font_size toc_text_max_width page_height : Q)
           (include_toc_title : bool) : result (list TocPage) :=
  let y_spacing := (font_size * 1.5)%Q in
  lines_per_page ← floordiv (page_height - 100)%Q y_spacing;
  let lines_per_page :=
    if include_toc_title then lines_per_page - 2 else lines_per_page in
  Ok (Engine.paginate_with_budget wrap_toc_title font_size
        toc_text_max_width lines_per_page toc_entries).

(** The [for page_index, entries in enumerate(paginated_entries)] loop
    of [generate_toc_pages], lines 114-153. *)
Fixpoint generate_loop (font_size page_width page_height : Q)
         (toc_page_count : Z) (page_number_x gap : Q)
         (include_toc_title : bool)
         (page_index : nat) (paginated_entries : list TocPage)
         (toc_doc : Doc) (link_targets : list LinkTarget)
  : result (Doc * list LinkTarget) :=
  match paginated_entries with
  | [] => Ok (toc_doc, link_targets)
  | entries :: rest =>
      let page := Fitz.new_page page_width page_height in
      let y := Engine.top_margin in
      let '(page, y) :=
        if include_toc_title && (page_index =? 0)%nat then
          let toc_title := "Table of Contents"%string in
          let title_width := get_text_length toc_title (font_size + 2)%Q in
          (Fitz.insert_text page (page_width / 2 - title_width / 2)%Q y
                            toc_title (font_size + 2)%Q,
           (y + font_size * 2)%Q)
        else (page, y) in
      '(page, y, link_targets) ←
        Engine.render_entries font_size page_number_x gap toc_page_count
                              page_index entries page y link_targets;
      generate_loop font_size page_width page_height toc_page_count
                    page_number_x gap include_toc_title (S page_index) rest
                    (mkDoc (doc_pages toc_doc ++ [page]) (doc_toc toc_doc))
                    link_targets
  end.

(** [generate_toc_pages], lines 109-154. *)
Definition generate_toc_pages (paginated_entries : list TocPage)
           (font_size page_width page_height : Q) (toc_page_count : Z)
           (toc_text_max_width page_number_x page_number_width gap
            right_margin : Q) (include_toc_title : bool)
  : result (Doc * list LinkTarget) :=
  generate_loop font_size page_width page_height toc_page_count
                page_number_x gap include_toc_title 0%nat
                paginated_entries Fitz.new [].

(** The document that [add_toc_and_links] builds from the merged body
    [base], lines 157-197, and the number of TOC pages. *)
Definition build_final (base : Doc) (font_size : Q)
           (include_toc_title : bool) : result (Doc * Z) :=
  let original_toc := Engine.extract_toc_entries base in
  let original_bookmarks := Fitz.get_toc base in
  let '(width, height) := Fitz.paper_size_a4 in
  let left_margin := 50%Q in
  let right_margin := 60%Q in
  let max_page_number := 99999 in
  let page_number_sample := str max_page_number in
  let page_number_width := get_text_length page_number_sample font_size in
  let page_number_x := (width - right_margin)%Q in
  let gap := 8%Q in
  let toc_text_max_width :=
    (page_number_x - left_margin - page_number_width - gap)%Q in
  paginated ←
    paginate_wrapped_entries original_toc font_size toc_text_max_width
                             height include_toc_title;
  '(toc_doc, link_targets) ←
    generate_toc_pages paginated font_size width height (len paginated)
                       toc_text_max_width page_number_x page_number_width
                       gap right_margin include_toc_title;
  let toc_page_count := len paginated in
  let final := Fitz.new in
  let final := Fitz.insert_pdf final toc_doc in
  let final := Fitz.insert_pdf final base in
  final ← Engine.add_toc_hyperlinks final link_targets toc_page_count;
  let final :=
    Engine.add_existing_bookmarks final original_bookmarks toc_page_count in
  Ok (final, toc_page_count).

(** [add_toc_and_links(bookmarked_pdf, final_pdf, font_size,
    include_toc_title)], lines 84-209. *)
Definition add_toc_and_links (bookmarked_pdf final_pdf : string)
           (font_size : Q) (include_toc_title : bool) (w : World)
  : World * result unit :=
  match Fitz.open w bookmarked_pdf with
  | Raise e => (w, Raise e)
  | Ok base =>
      match build_final base font_size include_toc_title with
      | Raise e => (w, Raise e)
      | Ok (final, _) =>
          let w := Fitz.save w final final_pdf in
          let w := if bool_decide (is_Some (files w !! bookmarked_pdf))
                      && negb (String.eqb bookmarked_pdf final_pdf)
                   then Fitz.remove w bookmarked_pdf else w in
          (w, Ok tt)
      end
  end.

End Script.
End pack_pdfs_with_toc.

(** ** [script/pack_rtfs_with_toc.py]: the merger and the wrapper *)

Module pack_rtfs_with_toc.
Section Script.
Context {fitz : TextMeasurer}.
Import PyStr.

(** [entry['pdf']] and [entry['title']]. *)
Record Entry : Type := mkEntry { e_pdf : string; e_title : string }.

(** The [for entry in entries] loop of [merge_pdfs_with_bookmarks],
    lines 73-78. *)
Fixpoint merge_loop (entries : list Entry) (w : World) (merged : Doc)
         (toc : list Bookmark) : result (Doc * list Bookmark) :=
  match entries with
  | [] => Ok (merged, toc)
  | entry :: rest =>
      sub ← Fitz.open w (e_pdf entry);
      let start := len (doc_pages merged) in
      let merged := Fitz.insert_pdf merged sub in
      merge_loop rest w merged (toc ++ [(1, e_title entry, start + 1)])
  end.

(** [merge_pdfs_with_bookmarks(entries, output_path)], lines 70-81. *)
Definition merge_pdfs_with_bookmarks (entries : list Entry)
           (output_path : string) (w : World) : World * result unit :=
  match merge_loop entries w Fitz.new [] with
  | Raise e => (w, Raise e)
  | Ok (merged, toc) =>
      let merged := Fitz.set_toc merged toc in
      (Fitz.save w merged output_path, Ok tt)
  end.

(** The [for word in words] loop of [wrap_toc_title], lines 87-96. *)
Fixpoint wrap_loop (font_size max_width : Q) (words : list string)
         (lines : list string) (current_line : string)
  : list string * string :=
  match words with
  | [] => (lines, current_line)
  | word :: words' =>
      if String.eqb current_line ""
      then wrap_loop font_size max_width words' lines word
      else
        let test_line := current_line +:+ " " +:+ word in
        if Qle_bool (get_text_length test_line font_size) max_width
           || (length (split current_line) =? 1)%nat
        then wrap_loop font_size max_width words' lines test_line
        else wrap_loop font_size max_width words'
                       (lines ++ [current_line]) word
  end.

(** [wrap_toc_title(title, font_size, max_width)], lines 83-99. *)
Definition wrap_toc_title (title : string) (font_size max_width : Q)
  : list string :=
  let words := split title in
  let '(lines, current_line) := wrap_loop font_size max_width words [] "" in
  let lines := if truthy current_line
               then lines ++ [current_line] else lines in
  List.filter (fun line => truthy (strip line)) lines.

End Script.
End pack_rtfs_with_toc.

(** ** The sort key of the pack scripts, and the last steps of [main]

    [parse_sort_key(title)] has the same text in pack_pdfs_with_toc.py
    (lines 21-23) and in pack_rtfs_with_toc.py (lines 66-68). *)

(** [\d] on a character below 256: one of the ten decimal digits. *)
Definition is_digit (c : ascii) : bool :=
  let n := N_of_ascii c in ((48 <=? n) && (n <=? 57))%N.

(** What [\d+(\.\d+)*] takes once it is in a run of digits: the digits,
    and, greedily, every dot that a digit follows, with the digits after
    it. *)
Fixpoint number_prefix (s : string) : string :=
  match s with
  | EmptyString => ""
  | String c rest =>
      if is_digit c then String c (number_prefix rest)
      else if Ascii.eqb c "." then
        match rest with
        | String d rest' =>
            if is_digit d then String c (String d (number_prefix rest'))
            else ""
        | EmptyString => ""
        end
      else ""
  end.

(** [re.search] of the pattern [\d+(\.\d+)*], in a group, in [title]:
    group 1 of the leftmost match, which starts at the first digit of the
    title; [None] without a digit. *)
Fixpoint search_number (title : string) : option string :=
  match title with
  | EmptyString => None
  | String c rest =>
      if is_digit c then Some (number_prefix title) else search_number rest
  end.

(** [s.split('.')]; [piece] is the piece being read. *)
Fixpoint split_dots (piece s : string) : list string :=
  match s with
  | EmptyString => [piece]
  | String c rest =>
      if Ascii.eqb c "." then piece :: split_dots "" rest
      else split_dots (piece +:+ String c "") rest
  end.

(** [int(x)] on a run of decimal digits, read from the left; the limit
    that recent interpreters put on the number of digits is not
    modelled. *)
Fixpoint int_from (acc : Z) (x : string) : Z :=
  match x with
  | EmptyString => acc
  | String c rest => int_from (10 * acc + (Z.of_N (N_of_ascii c) - 48)) rest
  end.

Definition int (x : string) : Z := int_from 0 x.

(** [parse_sort_key(title)] *)
Definition parse_sort_key (title : string) : list Z :=
  match search_number title with
  | Some group1 => map int (split_dots "" group1)
  | None => [9999]
  end.

(** [a < b] on two keys, as Python compares lists: by the first place
    where they differ, a proper prefix being the smaller. *)
Fixpoint key_lt (a b : list Z) : bool :=
  match a, b with
  | _, [] => false
  | [], _ :: _ => true
  | x :: a', y :: b' =>
      if x <? y then true else if y <? x then false else key_lt a' b'
  end.

(** [sorted(entries, key=...)] is stable: an entry goes behind the
    entries before it whose key is not greater. *)
Fixpoint insert_by {A : Type} (key : A -> list Z) (x : A) (l : list A)
  : list A :=
  match l with
  | [] => [x]
  | y :: l' =>
      if key_lt (key x) (key y) then x :: l
      else y :: insert_by key x l'
  end.

Definition sorted {A : Type} (key : A -> list Z) (l : list A) : list A :=
  fold_left (fun acc x => insert_by key x acc) l [].

(** [main] of pack_pdfs_with_toc.py from line 221 on, once the entries of
    the folder are read: they are sorted, merged into [merged_pdf] (the
    joined path of line 222) and packed into [output_pdf]. *)
Definition pack_pdfs_main {fitz : TextMeasurer}
           (entries : list pack_pdfs_with_toc.Entry)
           (merged_pdf output_pdf : string) (include_toc_title : bool)
           (w : World) : World * result unit :=
  let entries :=
    sorted (fun x => parse_sort_key (pack_pdfs_with_toc.e_title x)) entries in
  match pack_pdfs_with_toc.merge_pdfs_with_bookmarks entries merged_pdf w with
  | (w, Raise e) => (w, Raise e)
  | (w, Ok _) =>
      pack_pdfs_with_toc.add_toc_and_links merged_pdf output_pdf 8
                                           include_toc_title w
  end.

(** [main] of TLF_Packager.py from line 641 on, once the entries are read
    back from the worksheet: they are merged, in the order of the
    worksheet, into [bookmarked] and packed into [final] (the joined paths
    of lines 641 and 642). *)
Definition TLF_main {fitz : TextMeasurer} {host : Host}
           (entries : list TLF_Packager.Entry) (bookmarked final : string)
           (delete_intermediate_pdfs : bool) (w : World)
  : World * result unit :=
  match TLF_Packager.merge_pdfs_with_bookmarks entries bookmarked
                                               delete_intermediate_pdfs w with
  | (w, Raise e) => (w, Raise e)
  | (w, Ok _) => TLF_Packager.add_toc_and_links bookmarked final 8 w
  end.

(** ** Inputs to run the engine on *)

(** Seven entries of one line each. *)
Definition seven_entries : list TocEntry :=
  [(1, "a", 0); (1, "b", 1); (1, "c", 2); (1, "d", 3); (1, "e", 4);
   (1, "f", 5); (1, "g", 6)]%string.

(** One entry of six words: at a width of 5, TLF_Packager.py wraps it
    to six lines, the pack scripts to three. *)
Definition six_line_entry : TocEntry := (1, "a b c d e f"%string, 0).

(** A document of [n] blank A4 pages. *)
Definition blank_doc (n : nat) : Doc :=
  mkDoc (repeat (mkPage 595 842 [] []) n) [].

(** Three fragments of 2, 5 and 1 pages on disk. *)
Definition three_files : World :=
  mkWorld (<["a.pdf"%string := blank_doc 2]>
           (<["b.pdf"%string := blank_doc 5]>
            (<["c.pdf"%string := blank_doc 1]> ∅))) [].

(** A host with a flat directory, whose converter writes a one-page PDF
    next to the RTF. *)
Definition flat_host : Host := {|
  basename := fun path => path;
  dirname := fun _ => ""%string;
  convert_rtf_to_pdf := fun fs rtf_path _ _ _ =>
    (<[rtf_path +:+ ".pdf" := blank_doc 1]> fs, Ok (rtf_path +:+ ".pdf"))
|}.

Definition three_entries : list TLF_Packager.Entry :=
  [TLF_Packager.mkEntry "PDF" "a.pdf" "" "Table 1" None;
   TLF_Packager.mkEntry "PDF" "b.pdf" "" "Listing 2" None;
   TLF_Packager.mkEntry "PDF" "c.pdf" "" "Figure 1" None]%string.

Definition three_pdf_entries : list pack_pdfs_with_toc.Entry :=
  [pack_pdfs_with_toc.mkEntry "a.pdf" "Table 1";
   pack_pdfs_with_toc.mkEntry "b.pdf" "Listing 2";
   pack_pdfs_with_toc.mkEntry "c.pdf" "Figure 1"]%string.

(** The same, with a second fragment that is not on disk. *)
Definition broken_entries : list TLF_Packager.Entry :=
  [TLF_Packager.mkEntry "PDF" "a.pdf" "" "Table 1" None;
   TLF_Packager.mkEntry "PDF" "missing.pdf" "" "Listing 2" None;
   TLF_Packager.mkEntry "PDF" "c.pdf" "" "Figure 1" None]%string.

Definition broken_rtf_entries : list pack_rtfs_with_toc.Entry :=
  [pack_rtfs_with_toc.mkEntry "a.pdf" "Table 1";
   pack_rtfs_with_toc.mkEntry "missing.pdf" "Listing 2";
   pack_rtfs_with_toc.mkEntry "c.pdf" "Figure 1"]%string.

(** A TOC of one page with one entry of one line. *)
Definition one_entry_toc : list TocPage :=
  [[((1, "a", 0), ["a"])]]%string.

(** A TOC of two pages: an entry of two lines and one of level 2 on the
    first, one entry on the second. *)
Definition two_page_toc : list TocPage :=
  [[((1, "a b", 0), ["a"; "b"]); ((2, "c", 2), ["c"])];
   [((1, "d", 5), ["d"])]]%string.

(** A merged body of three pages whose only bookmark has an empty title. *)
Definition untitled_body : Doc :=
  mkDoc (doc_pages (blank_doc 3)) [(1, ""%string, 1)].

(** The body of the three fragments, as the merger saves it. *)
Definition three_body : Doc :=
  mkDoc (doc_pages (blank_doc 8))
        [(1, "Table 1", 1); (1, "Listing 2", 3); (1, "Figure 1", 8)]%string.

(** A disk that holds the body of the three fragments, under the name
    body.pdf, and nothing else. *)
Definition body_on_disk : World :=
  mkWorld (<["body.pdf"%string := three_body]> ∅) [].

(** A merged body of one page whose only bookmark has a title of sixty
    words of sixty letters: on A4 at font size 8 no two of them fit one
    TOC line, so the title wraps to sixty lines. *)
Definition sixty_word_body : Doc :=
  mkDoc (doc_pages (blank_doc 1))
        [(1, Nat.iter 60 (fun acc => PyStr.repeat_str "w" 60 +:+ " " +:+ acc)
                      ""%string, 1)].

(** ** Vocabulary of the statements *)

(** The page of a bookmark row, counted from 0. *)
Definition bookmark_page0 (b : Bookmark) : Z := snd b - 1.

(** The bookmarks of fragments with the given titles and page counts, the
    first starting [start] pages into the body: all of level 1, each at
    the page count of the fragments before it. *)
Fixpoint bookmarks_from (start : Z) (fragments : list (string * Z))
  : list Bookmark :=
  match fragments with
  | [] => []
  | (title, pages) :: rest =>
      (1, title, start + 1) :: bookmarks_from (start + pages) rest
  end.

(** The bookmark title that TLF_Packager.py gives an entry (line 441). *)
Definition TLF_bookmark {host : Host} (entry : TLF_Packager.Entry) : string :=
  PyStr.strip (if PyStr.truthy (TLF_Packager.e_bookmark entry)
               then TLF_Packager.e_bookmark entry
               else basename (TLF_Packager.e_file entry)).

(** The run of the merge loop of TLF_Packager.py opens the documents
    [docs], one per entry. *)
Fixpoint TLF_readable {host : Host} (entries : list TLF_Packager.Entry)
         (w : World) (docs : list Doc) : Prop :=
  match entries, docs with
  | [], [] => True
  | entry :: entries, doc :: docs =>
      match TLF_Packager.locate_pdf entry w with
      | (w', Ok pdf_path) =>
          Fitz.open w' pdf_path = Ok doc /\ TLF_readable entries w' docs
      | (_, Raise _) => False
      end
  | _, _ => False
  end.

(** The run of the merge loop of TLF_Packager.py reaches a fragment
    that [fitz.open] cannot open. *)
Fixpoint TLF_open_fails {host : Host} (entries : list TLF_Packager.Entry)
         (w : World) : Prop :=
  match entries with
  | [] => False
  | entry :: entries =>
      match TLF_Packager.locate_pdf entry w with
      | (w', Ok pdf_path) =>
          match Fitz.open w' pdf_path with
          | Raise _ => True
          | Ok _ => TLF_open_fails entries w'
          end
      | (_, Raise _) => False
      end
  end.

(** A word: not empty, no white space in it. *)
Fixpoint nospace (s : string) : bool :=
  match s with
  | EmptyString => true
  | String c rest => negb (PyStr.isspace c) && nospace rest
  end.

Definition is_word (s : string) : Prop :=
  PyStr.truthy s = true /\ nospace s = true.

(** The number of words of a line. *)
Definition word_count (line : string) : nat := length (PyStr.split line).

(** Every two neighbours of [words], joined by one space, fit [max_width]. *)
Fixpoint neighbours_fit {fitz : TextMeasurer} (font_size max_width : Q)
         (words : list string) : Prop :=
  match words with
  | w1 :: ((w2 :: _) as rest) =>
      Qle_bool (get_text_length (w1 +:+ " " +:+ w2) font_size) max_width
      = true
      /\ neighbours_fit font_size max_width rest
  | _ => True
  end.

(** A line that fits the width budget. *)
Definition fits {fitz : TextMeasurer} (font_size max_width : Q)
           (line : string) : Prop :=
  (get_text_length line font_size <= max_width)%Q.

Definition one_word_or_fits {fitz : TextMeasurer} (font_size max_width : Q)
           (line : string) : Prop :=
  word_count line = 1%nat \/ fits font_size max_width line.

Definition two_words_or_fits {fitz : TextMeasurer} (font_size max_width : Q)
           (line : string) : Prop :=
  (word_count line <= 2)%nat \/ fits font_size max_width line.

(** The entry as the paginator places it: with the lines that [wrap]
    makes of its title, at the width its level leaves. *)
Definition placed (wrap : string -> Q -> Q -> list string)
           (font_size toc_text_max_width : Q) (entry : TocEntry)
  : TocEntry * list string :=
  let '(level, title, _) := entry in
  (entry,
   wrap title font_size (toc_text_max_width - inject_Z (20 * (level - 1)))%Q).

(** The lines on a TOC page, and on all of them. *)
Definition page_lines (page : TocPage) : Z :=
  fold_right (fun entry acc => PyStr.len (snd entry) + acc) 0 page.

Definition total_lines (pages : list TocPage) : Z :=
  fold_right (fun page acc => page_lines page + acc) 0 pages.

(** A page filled under the line budget [budget]: its lines are within the
    budget, unless it holds a single entry or none. *)
Definition within_budget (budget : Z) (page : TocPage) : Prop :=
  page_lines page <= budget \/ (length page <= 1)%nat.

(** [page] was closed under [budget]: the first entry of [next] did not
    fit on it any more. *)
Definition closed_by (budget : Z) (page next : TocPage) : Prop :=
  match next with
  | [] => False
  | entry :: _ => page_lines page + PyStr.len (snd entry) > budget
  end.

(** The pages were paginated with budget [budget i] on the page of index
    [i]. *)
Definition paged_under (budget : nat -> Z) (pages : list TocPage) : Prop :=
  forall (i : nat) (page : TocPage),
    pages !! i = Some page ->
    within_budget (budget i) page
    /\ forall next, pages !! S i = Some next -> closed_by (budget i) page next.

(** The state of the paginator between two turns of its loop, under the
    budget [lines_per_page]: the counter holds the lines of the page in
    progress, the pages closed so far and the page in progress were filled
    under the budget, and only the very first page in progress is empty. *)
Definition loop_inv (lines_per_page : Z) (paginated : list TocPage)
           (current : TocPage) (count : Z) : Prop :=
  count = page_lines current
  /\ paged_under (fun _ => lines_per_page) (paginated ++ [current])
  /\ (paginated <> [] -> current <> []).

(** The budget before the banner is counted:
    [int((page_height - 100) // (font_size * 1.5))]. *)
Definition full_budget (font_size page_height : Q) : Z :=
  Qfloor ((page_height - 100) / (font_size * 1.5)).

(** The pages of the fragments [docs] together. *)
Definition sum_pages (docs : list Doc) : Z :=
  fold_right (fun doc acc => Fitz.page_count doc + acc) 0 docs.

(** [merged] is the body of the fragments [docs] with the titles [titles]:
    one bookmark per fragment, in fragment order, of level 1, at the page
    count of the fragments before it; the page indices do not decrease;
    the body is the pages of the fragments, in order. *)
Definition is_merged_body (titles : list string) (docs : list Doc)
           (merged : Doc) : Prop :=
  length (doc_toc merged) = length docs
  /\ (forall (i : nat) (b : Bookmark),
         doc_toc merged !! i = Some b ->
         fst (fst b) = 1
         /\ titles !! i = Some (snd (fst b))
         /\ bookmark_page0 b = sum_pages (take i docs))
  /\ StronglySorted Z.le (map bookmark_page0 (doc_toc merged))
  /\ doc_pages merged = concat (map doc_pages docs)
  /\ Fitz.page_count merged = sum_pages docs.

(** The links that [add_toc_hyperlinks] makes of the link targets on the
    TOC page [page_index], when the TOC has [T] pages: each jumps to [T]
    plus the target page it recorded. *)
Definition links_of (T : Z) (page_index : nat)
           (link_targets : list LinkTarget) : list Link :=
  map (fun '(_, rect, target_page) => mkLink rect (T + target_page))
      (List.filter (fun '(i, _, _) => (i =? page_index)%nat) link_targets).

(** On the first TOC page the banner is drawn at the top margin and the
    first line of the first entry, [line], with the cursor at [cursor]; the
    link area of that entry starts one font size above [cursor]. *)
Definition first_entry_drawn_at (cursor font_size : Q) (line : string)
           (toc_doc : Doc) (link_targets : list LinkTarget) : Prop :=
  exists page more_pages banner op more_text lt more_targets,
    doc_pages toc_doc = page :: more_pages
    /\ page_text page = banner :: op :: more_text
    /\ text banner = "Table of Contents"%string
    /\ (text_y banner == Engine.top_margin)%Q
    /\ text op = line
    /\ (text_y op == cursor)%Q
    /\ link_targets = lt :: more_targets
    /\ (y0 (snd (fst lt)) == cursor - font_size)%Q.

(** The width left to the titles on a TOC line, as [add_toc_and_links]
    computes it on A4: from the left margin 50 to the page-number column,
    which ends 60 from the right edge, is as wide as "99999", and keeps a
    gap of 8. *)
Definition toc_width {fitz : TextMeasurer} (font_size : Q) : Q :=
  (595 - 60 - 50 - get_text_length (PyStr.str 99999) font_size - 8)%Q.

(** [final] is the body [base] behind [T] TOC pages, with every page
    reference rebased: the bookmarks of [base], each [T] pages further;
    on the TOC pages, the links of the recorded [link_targets] and no
    other, each to [T] plus the target page it recorded; the pages of
    [base] unchanged behind the TOC; and the link targets are the
    bookmark pages of [base], in order. *)
Definition rebased (T : Z) (base final : Doc)
           (link_targets : list LinkTarget) : Prop :=
  length (doc_toc final) = length (doc_toc base)
  /\ (forall (i : nat) (b : Bookmark),
         doc_toc base !! i = Some b ->
         exists b',
           doc_toc final !! i = Some b'
           /\ fst b' = fst b
           /\ bookmark_page0 b' = T + bookmark_page0 b)
  /\ (forall (i : nat) (page : Page),
         (i < Z.to_nat T)%nat ->
         doc_pages final !! i = Some page ->
         page_links page = links_of T i link_targets)
  /\ (forall (page_index : nat) (rect : Rect) (target_page : Z),
         In (page_index, rect, target_page) link_targets ->
         exists page,
           doc_pages final !! page_index = Some page
           /\ In (mkLink rect (T + target_page)) (page_links page))
  /\ (forall (i : nat) (page : Page),
         doc_pages base !! i = Some page ->
         doc_pages final !! (Z.to_nat T + i)%nat = Some page)
  /\ map snd link_targets = map bookmark_page0 (doc_toc base).

(** Some character of [s] is not white space. *)
Fixpoint has_nonspace (s : string) : bool :=
  match s with
  | EmptyString => false
  | String c rest => negb (PyStr.isspace c) || has_nonspace rest
  end.

(** The lines carry the words [words], all of them and in order, and no
    line is without a word. *)
Definition carries_words (words : list string) (lines : list string)
  : Prop :=
  concat (map PyStr.split lines) = words
  /\ Forall (fun line => (1 <= word_count line)%nat) lines.

(** The lines carry the words of the title. *)
Definition keeps_words (title : string) (lines : list string) : Prop :=
  carries_words (PyStr.split title) lines.

(** The state of a wrapper loop carries the words [read]: the flushed
    lines and the line in progress hold them, in order. *)
Definition carries (lines : list string) (current_line : string)
           (read : list string) : Prop :=
  concat (map PyStr.split lines) ++ PyStr.split current_line = read
  /\ Forall (fun line => (1 <= word_count line)%nat) lines
  /\ (PyStr.truthy current_line = true ->
      (1 <= word_count current_line)%nat).

(** The lines were filled greedily: no line could take the first word of
    the line after it. *)
Definition greedy {fitz : TextMeasurer} (font_size max_width : Q)
           (lines : list string) : Prop :=
  forall (i : nat) (line next : string),
    lines !! i = Some line -> lines !! S i = Some next ->
    exists word words,
      PyStr.split next = word :: words
      /\ Qle_bool (get_text_length (line +:+ " " +:+ word) font_size)
                  max_width = false.

(** What the paginator returns for [n_entries] entries under [budget]:
    no page after the first is empty; the first is empty only when the
    first entry, alone, is over the budget, and then that entry starts the
    second page; there is at most one page more than there are entries,
    and none exactly when there is no entry. *)
Definition only_first_page_empty (budget : Z) (n_entries : nat)
           (pages : list TocPage) : Prop :=
  (forall (i : nat) (page : TocPage), pages !! S i = Some page -> page <> [])
  /\ (pages !! 0%nat = Some [] ->
      exists entry rest more,
        pages = [] :: (entry :: rest) :: more
        /\ PyStr.len (snd entry) > budget)
  /\ (length pages <= n_entries + 1)%nat
  /\ (n_entries = 0%nat <-> pages = []).

(** ** The layout of the TOC pages *)

Section Layout.
Context {fitz : TextMeasurer}.
Variables font_size page_number_x gap : Q.
Variable toc_page_count : Z.

(** The column where the entries of [level] start. *)
Definition entry_x (level : Z) : Q :=
  (Engine.left_margin + inject_Z (20 * (level - 1)))%Q.

(** The page number shown for an entry that points at [target_page]. *)
Definition shown_number (target_page : Z) : string :=
  PyStr.str (target_page + toc_page_count + 1).

(** The dot leader between [line], drawn from [x] on, and the page number
    [number]: none when the line leaves no room before the gap in front of
    the number; otherwise one run of dots, from 2 after the line, on the
    base line [y], and, when a dot has a width, as many dots as fit into
    the room and not one less. *)
Definition leader_drawn (x y : Q) (line number : string)
           (leader : list TextOp) : Prop :=
  let start := (x + get_text_length line font_size + 2)%Q in
  let stop := (page_number_x - get_text_length number font_size - gap)%Q in
  let dot := get_text_length "." font_size in
  (leader = [] /\ (stop <= start)%Q)
  \/ (exists (dots : TextOp) (count : Z),
         leader = [dots]
         /\ (start < stop)%Q
         /\ text dots = PyStr.repeat_str "." count
         /\ text_x dots = start
         /\ text_y dots = y
         /\ fontsize dots = font_size
         /\ ((0 < dot)%Q ->
             0 <= count
             /\ (start + inject_Z count * dot <= stop)%Q
             /\ (stop < start + (inject_Z count + 1) * dot)%Q)).

(** The text of one entry, drawn with the cursor at [y]: nothing when it
    has no line; otherwise its lines in order, from [x] on, one line
    spacing apart, and on the base line of the last one the dot leader and
    the page number, which ends at [page_number_x]. *)
Definition entry_drawn (x : Q) (number : string) (lines : list string)
           (y : Q) (ops : list TextOp) : Prop :=
  match last lines with
  | None => ops = []
  | Some last_line =>
      exists (line_ops leader : list TextOp) (number_op : TextOp),
        ops = line_ops ++ leader ++ [number_op]
        /\ map text line_ops = lines
        /\ (forall (k : nat) (op : TextOp),
               line_ops !! k = Some op ->
               text_x op = x /\ fontsize op = font_size
               /\ (text_y op
                   == y + inject_Z (Z.of_nat k) * Engine.y_spacing font_size)%Q)
        /\ text number_op = number
        /\ text_x number_op
           = (page_number_x - get_text_length number font_size)%Q
        /\ fontsize number_op = font_size
        /\ (text_y number_op
            == y + (inject_Z (PyStr.len lines) - 1)
                   * Engine.y_spacing font_size)%Q
        /\ leader_drawn x (text_y number_op) last_line number leader
  end.

(** The text of the entries of a page, the first with the cursor at [y],
    each where the lines of the ones before it end. *)
Fixpoint entries_drawn (entries : TocPage) (y : Q) (ops : list TextOp)
  : Prop :=
  match entries with
  | [] => ops = []
  | (level, _, target_page, lines) :: rest =>
      exists here later : list TextOp,
        ops = here ++ later
        /\ entry_drawn (entry_x level) (shown_number target_page) lines y here
        /\ entries_drawn rest
             (y + inject_Z (PyStr.len lines) * Engine.y_spacing font_size)%Q
             later
  end.

(** The link targets of the entries of the page [page_index], the first
    with the cursor at [y]: one per entry, in order, with the target page
    of the entry; its area spans from the column of the entry to
    [page_number_x], and from one font size above the first base line of
    the entry to the base line after its last. *)
Fixpoint entries_linked (page_index : nat) (entries : TocPage) (y : Q)
         (link_targets : list LinkTarget) : Prop :=
  match entries, link_targets with
  | [], [] => True
  | (level, _, target_page, lines) :: rest, (i, rect, target) :: more =>
      i = page_index /\ target = target_page
      /\ x0 rect = entry_x level /\ x1 rect = page_number_x
      /\ (y0 rect == y - font_size)%Q
      /\ (y1 rect
          == y + inject_Z (PyStr.len lines) * Engine.y_spacing font_size)%Q
      /\ entries_linked page_index rest
           (y + inject_Z (PyStr.len lines) * Engine.y_spacing font_size)%Q
           more
  | _, _ => False
  end.

(** Where the cursor is when the first entry of a page is drawn: two font
    sizes below the top margin under the banner, at the top margin
    otherwise. *)
Definition first_cursor (banner : bool) (page_index : nat) : Q :=
  if banner && (page_index =? 0)%nat
  then (Engine.top_margin + font_size * 2)%Q else Engine.top_margin.

(** The banner, centred on a page of width [width], on the first page when
    [banner] is on. *)
Definition banner_ops (banner : bool) (page_index : nat) (width : Q)
  : list TextOp :=
  if banner && (page_index =? 0)%nat
  then [mkText (width / 2
                - get_text_length "Table of Contents" (font_size + 2) / 2)
               Engine.top_margin "Table of Contents" (font_size + 2)]
  else [].

(** The TOC pages [pages], from the page [page_index] on, show the entries
    of [paginated], page by page, under the banner where there is one, and
    carry no link yet. *)
Fixpoint pages_show (banner : bool) (width height : Q) (page_index : nat)
         (paginated : list TocPage) (pages : list Page) : Prop :=
  match paginated, pages with
  | [], [] => True
  | entries :: rest, page :: more =>
      (exists ops : list TextOp,
          page = mkPage width height
                        (banner_ops banner page_index width ++ ops) []
          /\ entries_drawn entries (first_cursor banner page_index) ops)
      /\ pages_show banner width height (S page_index) rest more
  | _, _ => False
  end.

(** The link targets recorded for the pages of [paginated], from the page
    [page_index] on. *)
Fixpoint pages_linked (banner : bool) (page_index : nat)
         (paginated : list TocPage) (link_targets : list LinkTarget) : Prop :=
  match paginated with
  | [] => link_targets = []
  | entries :: rest =>
      exists here later : list LinkTarget,
        link_targets = here ++ later
        /\ entries_linked page_index entries
                          (first_cursor banner page_index) here
        /\ pages_linked banner (S page_index) rest later
  end.

End Layout.

(** Two link targets that follow each other on the same page: the area of
    the second starts one font size above the end of the first. *)
Definition overlapping (font_size : Q) (link_targets : list LinkTarget)
  : Prop :=
  forall (j : nat) (lt lt' : LinkTarget),
    link_targets !! j = Some lt ->
    link_targets !! S j = Some lt' ->
    fst (fst lt') = fst (fst lt) ->
    (y0 (snd (fst lt')) == y1 (snd (fst lt)) - font_size)%Q.

(** A string without a decimal digit. *)
Fixpoint has_digit (s : string) : bool :=
  match s with
  | EmptyString => false
  | String c rest => is_digit c || has_digit rest
  end.

(** The numbers [ns] as a title shows them: in decimal, with dots
    between. *)
Definition dotted (ns : list Z) : string :=
  String.concat "." (map PyStr.str ns).

(** What follows a number in a title does not go on with it: it does not
    start with a digit, nor with a dot that a digit follows. *)
Definition number_ends (suffix : string) : bool :=
  match suffix with
  | EmptyString => true
  | String c rest =>
      negb (is_digit c)
      && (negb (Ascii.eqb c ".")
          || match rest with
             | String d _ => negb (is_digit d)
             | EmptyString => true
             end)
  end.

(** All characters of [s] are digits. *)
Fixpoint all_digits (s : string) : bool :=
  match s with
  | EmptyString => true
  | String c rest => is_digit c && all_digits rest
  end.

(** [a <= b] on two keys: [b] is not smaller. *)
Definition key_le (a b : list Z) : Prop := key_lt b a = false.

(** [final] delivers the fragments [docs], titled [titles], behind [T]
    TOC pages: the pages of the fragments follow the TOC, in order and
    unchanged; the outline has one bookmark per fragment, of level 1, with
    its title, on the first page of the fragment; every fragment has a
    link on a TOC page that jumps to its first page, and no link of a TOC
    page jumps anywhere else. *)
Definition delivered (T : Z) (titles : list string) (docs : list Doc)
           (final : Doc) : Prop :=
  0 <= T
  /\ (forall (i : nat) (page : Page),
         concat (map doc_pages docs) !! i = Some page ->
         doc_pages final !! (Z.to_nat T + i)%nat = Some page)
  /\ length (doc_toc final) = length docs
  /\ (forall (i : nat) (b : Bookmark),
         doc_toc final !! i = Some b ->
         fst (fst b) = 1
         /\ titles !! i = Some (snd (fst b))
         /\ bookmark_page0 b = T + sum_pages (take i docs))
  /\ (forall i : nat,
         (i < length docs)%nat ->
         exists (j : nat) (page : Page) (rect : Rect),
           (j < Z.to_nat T)%nat
           /\ doc_pages final !! j = Some page
           /\ In (mkLink rect (T + sum_pages (take i docs)))
                 (page_links page))
  /\ (forall (j : nat) (page : Page) (l : Link),
         (j < Z.to_nat T)%nat ->
         doc_pages final !! j = Some page ->
         In l (page_links page) ->
         exists i : nat,
           (i < length docs)%nat
           /\ link_page l = T + sum_pages (take i docs)).

(** The order in which the entries of pack_pdfs_with_toc.py are merged:
    the key of an entry is not greater than the key of the next. *)
Definition in_key_order (entries : list pack_pdfs_with_toc.Entry) : Prop :=
  Sorted (fun x y =>
            key_le (parse_sort_key (pack_pdfs_with_toc.e_title x))
                   (parse_sort_key (pack_pdfs_with_toc.e_title y)))
         entries.

(** * Strings *)

Section StringFacts.
Import PyStr.

Lemma app_String c s t : String c s +:+ t = String c (s +:+ t).
Proof. reflexivity. Qed.

Lemma app_empty_l s : "" +:+ s = s.
Proof. reflexivity. Qed.

Lemma app_empty_r s : s +:+ "" = s.
Proof. induction s as [|c s IH]; [reflexivity|]. rewrite app_String, IH. reflexivity. Qed.

Lemma app_assoc_str s t u : (s +:+ t) +:+ u = s +:+ (t +:+ u).
Proof.
  induction s as [|c s IH]; [reflexivity|].
  rewrite !app_String, IH. reflexivity.
Qed.

Lemma truthy_app_r s t : truthy t = true -> truthy (s +:+ t) = true.
Proof. destruct s; [rewrite app_empty_l; auto | reflexivity]. Qed.

Lemma truthy_app_l s t : truthy s = true -> truthy (s +:+ t) = true.
Proof. destruct s; [discriminate | reflexivity]. Qed.

Lemma truthy_eqb s : String.eqb s "" = negb (truthy s).
Proof. destruct s; reflexivity. Qed.

Lemma nospace_app s t : nospace (s +:+ t) = nospace s && nospace t.
Proof.
  induction s as [|c s IH]; [reflexivity|].
  rewrite app_String. simpl. rewrite IH. apply andb_assoc.
Qed.

(** Reading a run without white space only extends the current word. *)
Lemma split_from_nospace w : forall acc s,
  nospace w = true ->
  split_from acc (w +:+ s) = split_from (acc +:+ w) s.
Proof.
  induction w as [|c w IH]; intros acc s Hw.
  - rewrite app_empty_l, app_empty_r. reflexivity.
  - simpl in Hw. apply andb_prop in Hw as [Hc Hw].
    rewrite app_String. simpl.
    destruct (isspace c); [discriminate|].
    rewrite IH by assumption. rewrite app_assoc_str. reflexivity.
Qed.

Lemma split_word w : is_word w -> split w = [w].
Proof.
  intros [Ht Hn]. unfold split.
  rewrite <- (app_empty_r w) at 1.
  rewrite split_from_nospace by assumption.
  rewrite app_empty_l. simpl. rewrite Ht. reflexivity.
Qed.

(** A line extended by a space and a word has one more word. *)
Lemma split_from_snoc w : is_word w -> forall s acc,
  split_from acc (s +:+ " " +:+ w) = split_from acc s ++ [w].
Proof.
  intros Hw. induction s as [|c s IH]; intros acc.
  - rewrite app_empty_l. change (" " +:+ w) with (String " " w).
    simpl. fold (split w). rewrite (split_word w Hw).
    destruct (truthy acc); reflexivity.
  - rewrite app_String. simpl.
    destruct (isspace c).
    + destruct (truthy acc); rewrite IH; reflexivity.
    + apply IH.
Qed.

Lemma split_snoc s w : is_word w -> split (s +:+ " " +:+ w) = split s ++ [w].
Proof. intros Hw. apply split_from_snoc, Hw. Qed.

(** What [split] returns are words. *)
Lemma split_from_words s : forall acc,
  nospace acc = true -> Forall is_word (split_from acc s).
Proof.
  induction s as [|c s IH]; intros acc Hacc; simpl.
  - destruct (truthy acc) eqn:Ht; constructor; [split; assumption | constructor].
  - destruct (isspace c) eqn:Hc.
    + destruct (truthy acc) eqn:Ht.
      * constructor; [split; assumption | apply IH; reflexivity].
      * apply IH; reflexivity.
    + apply IH. rewrite nospace_app, Hacc. simpl. rewrite Hc. reflexivity.
Qed.

Lemma split_words s : Forall is_word (split s).
Proof. apply split_from_words. reflexivity. Qed.

End StringFacts.

(** * The title wrapper *)

Section WrapFacts.
Context {fitz : TextMeasurer}.
Import PyStr.
Variables font_size max_width : Q.
Local Abbreviation one_word_or_fits := (one_word_or_fits font_size max_width).
Local Abbreviation two_words_or_fits := (two_words_or_fits font_size max_width).

Lemma flush_keeps (P : string -> Prop) lines current_line :
  Forall P lines -> (truthy current_line = false \/ P current_line) ->
  Forall P (if truthy current_line then lines ++ [current_line] else lines).
Proof.
  intros Hl Hc. destruct (truthy current_line) eqn:Ht; [|assumption].
  apply Forall_app. split; [assumption|].
  constructor; [|constructor]. destruct Hc as [Hc|Hc]; [discriminate|assumption].
Qed.

Lemma filter_keeps (P : string -> Prop) (f : string -> bool) lines :
  Forall P lines -> Forall P (List.filter f lines).
Proof.
  induction 1 as [|l ls Hl _ IH]; simpl; [constructor|].
  destruct (f l); [constructor|]; assumption.
Qed.

(** TLF_Packager.py: the loop keeps every flushed line, and the line in
    progress, either one word long or within the budget. *)
Lemma TLF_wrap_loop_bound words :
  Forall is_word words -> forall lines current_line lines' current_line',
  Forall one_word_or_fits lines ->
  (truthy current_line = false \/ one_word_or_fits current_line) ->
  TLF_Packager.wrap_loop font_size max_width words lines current_line
    = (lines', current_line') ->
  Forall one_word_or_fits lines'
  /\ (truthy current_line' = false \/ one_word_or_fits current_line').
Proof.
  induction 1 as [|word words Hword _ IH];
    intros lines cur lines' cur' Hl Hc Hrun; simpl in Hrun.
  - inversion Hrun; subst. split; assumption.
  - destruct (Qle_bool _ max_width) eqn:Hfit.
    + apply (IH _ _ _ _ Hl) in Hrun; [assumption|].
      right. right. apply Qle_bool_iff, Hfit.
    + apply IH in Hrun; [assumption| |].
      * apply flush_keeps; assumption.
      * right. left. unfold word_count. rewrite split_word by assumption.
        reflexivity.
Qed.

Lemma TLF_wrap_bound title line :
  In line (TLF_Packager.wrap_toc_title title font_size max_width) ->
  one_word_or_fits line.
Proof.
  unfold TLF_Packager.wrap_toc_title.
  destruct (TLF_Packager.wrap_loop _ _ _ _ _) as [lines cur] eqn:Hrun.
  apply TLF_wrap_loop_bound in Hrun as [Hl Hc];
    [|apply split_words|constructor|left; reflexivity].
  intros Hin. eapply List.Forall_forall in Hin; [exact Hin|].
  apply filter_keeps, flush_keeps; assumption.
Qed.

(** pack_pdfs_with_toc.py: a lone word always takes the next word, so
    the bound starts at the third word of a line. *)
Lemma pack_pdfs_wrap_loop_bound words :
  Forall is_word words -> forall lines current_line lines' current_line',
  Forall two_words_or_fits lines ->
  (truthy current_line = false \/ two_words_or_fits current_line) ->
  pack_pdfs_with_toc.wrap_loop font_size max_width words lines current_line
    = (lines', current_line') ->
  Forall two_words_or_fits lines'
  /\ (truthy current_line' = false \/ two_words_or_fits current_line').
Proof.
  induction 1 as [|word words Hword _ IH];
    intros lines cur lines' cur' Hl Hc Hrun; simpl in Hrun.
  - inversion Hrun; subst. split; assumption.
  - assert (Hw1 : two_words_or_fits word).
    { left. unfold word_count. rewrite split_word by assumption. simpl. lia. }
    rewrite truthy_eqb in Hrun. destruct (truthy cur) eqn:Ht; simpl in Hrun.
    + destruct (Qle_bool _ max_width) eqn:Hfit; simpl in Hrun.
      * apply (IH _ _ _ _ Hl) in Hrun; [assumption|].
        right. right. apply Qle_bool_iff, Hfit.
      * destruct (length (split cur) =? 1)%nat eqn:Hone.
        -- apply (IH _ _ _ _ Hl) in Hrun; [assumption|].
           right. left. unfold word_count.
           rewrite split_snoc by assumption. rewrite length_app.
           apply Nat.eqb_eq in Hone. rewrite Hone. simpl. lia.
        -- apply IH in Hrun; [assumption| |right; assumption].
           apply Forall_app. split; [assumption|].
           constructor; [|constructor].
           destruct Hc as [Hc|Hc]; [discriminate|assumption].
    + apply (IH _ _ _ _ Hl) in Hrun; [assumption|]. right; assumption.
Qed.

Lemma pack_pdfs_wrap_bound title line :
  In line (pack_pdfs_with_toc.wrap_toc_title title font_size max_width) ->
  two_words_or_fits line.
Proof.
  unfold pack_pdfs_with_toc.wrap_toc_title.
  destruct (pack_pdfs_with_toc.wrap_loop _ _ _ _ _) as [lines cur] eqn:Hrun.
  apply pack_pdfs_wrap_loop_bound in Hrun as [Hl Hc];
    [|apply split_words|constructor|left; reflexivity].
  intros Hin. eapply List.Forall_forall in Hin; [exact Hin|].
  apply filter_keeps, flush_keeps; assumption.
Qed.

(** The two pack scripts carry the same wrapper. *)
Lemma pack_wrap_loop_same words : forall lines current_line,
  pack_rtfs_with_toc.wrap_loop font_size max_width words lines current_line
  = pack_pdfs_with_toc.wrap_loop font_size max_width words lines current_line.
Proof.
  induction words as [|word words IH]; intros lines cur; simpl; [reflexivity|].
  rewrite !IH. reflexivity.
Qed.

Lemma pack_wrap_same title :
  pack_rtfs_with_toc.wrap_toc_title title font_size max_width
  = pack_pdfs_with_toc.wrap_toc_title title font_size max_width.
Proof.
  unfold pack_rtfs_with_toc.wrap_toc_title,
    pack_pdfs_with_toc.wrap_toc_title.
  rewrite pack_wrap_loop_same. reflexivity.
Qed.

(** Where neighbouring words fit together, the extra test of the pack
    scripts never decides, and the two loops run alike. *)
Lemma wrap_loops_agree words :
  Forall is_word words -> forall lines current_line,
  neighbours_fit font_size max_width words ->
  (truthy current_line = false
   \/ (truthy current_line = true
       /\ (1 <= word_count current_line)%nat
       /\ (word_count current_line = 1%nat ->
           match words with
           | [] => True
           | word :: _ =>
               Qle_bool (get_text_length (current_line +:+ " " +:+ word)
                                         font_size) max_width = true
           end))) ->
  TLF_Packager.wrap_loop font_size max_width words lines current_line
  = pack_pdfs_with_toc.wrap_loop font_size max_width words lines current_line.
Proof.
  induction 1 as [|word words Hword Hwords IH];
    intros lines cur Hnb Hcur; simpl; [reflexivity|].
  assert (Hnext : truthy word = true
                  /\ (1 <= word_count word)%nat
                  /\ (word_count word = 1%nat ->
                      match words with
                      | [] => True
                      | w :: _ =>
                          Qle_bool (get_text_length (word +:+ " " +:+ w)
                                                    font_size) max_width = true
                      end)).
  { split; [apply Hword|]. unfold word_count.
    rewrite split_word by assumption. split; [simpl; lia|].
    intros _. destruct words; [exact I|]. apply Hnb. }
  assert (Hnb' : neighbours_fit font_size max_width words).
  { destruct words; [exact I|]. apply Hnb. }
  rewrite truthy_eqb.
  destruct Hcur as [Ht|(Ht & Hge & Hone)]; rewrite Ht; simpl.
  - destruct cur; [|discriminate]. rewrite !app_empty_l.
    destruct (Qle_bool _ max_width); apply IH; auto.
  - destruct (Qle_bool _ max_width) eqn:Hfit; simpl.
    + apply IH; [assumption|]. right.
      split; [apply truthy_app_l; assumption|].
      unfold word_count in *. rewrite split_snoc by assumption.
      rewrite length_app. simpl. split; [lia|]. intros; lia.
    + destruct (length (split cur) =? 1)%nat eqn:Hlen.
      * apply Nat.eqb_eq in Hlen. apply Hone in Hlen. congruence.
      * apply IH; auto.
Qed.

Lemma TLF_pack_wrap_agree title :
  neighbours_fit font_size max_width (split title) ->
  TLF_Packager.wrap_toc_title title font_size max_width
  = pack_pdfs_with_toc.wrap_toc_title title font_size max_width.
Proof.
  intros Hnb.
  unfold TLF_Packager.wrap_toc_title, pack_pdfs_with_toc.wrap_toc_title.
  rewrite wrap_loops_agree;
    [reflexivity|apply split_words|assumption|left; reflexivity].
Qed.

End WrapFacts.

(** C4, as the spec has it, fails on the wrapper of the two pack scripts:
    with a width budget of 0 they return the title "aaaa bbbb" as one line
    of two words, 36 units wide. *)
Lemma wrap_width_bound_counterexample :
  ~ (forall line,
        In line (@pack_pdfs_with_toc.wrap_toc_title half_em "aaaa bbbb" 8 0)
        \/ In line (@pack_rtfs_with_toc.wrap_toc_title half_em "aaaa bbbb" 8 0) ->
        @one_word_or_fits half_em 8 0 line).
Proof.
  intros Hclaim.
  destruct (Hclaim "aaaa bbbb"%string) as [Hone|Hfit].
  - left. vm_compute. left. reflexivity.
  - vm_compute in Hone. discriminate.
  - vm_compute in Hfit. apply Hfit. reflexivity.
Qed.

(** C4, amended: every line that [wrap_toc_title] of TLF_Packager.py
    returns is one word long or measures at most [max_width]; every line
    that [wrap_toc_title] of pack_pdfs_with_toc.py and of
    pack_rtfs_with_toc.py returns has at most two words or measures at most
    [max_width]. *)
Theorem wrap_toc_title_width_bound {fitz : TextMeasurer}
        (title : string) (font_size max_width : Q) (line : string) :
  (In line (TLF_Packager.wrap_toc_title title font_size max_width) ->
   one_word_or_fits font_size max_width line)
  /\ (In line (pack_pdfs_with_toc.wrap_toc_title title font_size max_width) ->
      two_words_or_fits font_size max_width line)
  /\ (In line (pack_rtfs_with_toc.wrap_toc_title title font_size max_width) ->
      two_words_or_fits font_size max_width line).
Proof.
  split; [apply TLF_wrap_bound|].
  split; [apply pack_pdfs_wrap_bound|].
  rewrite pack_wrap_same. apply pack_pdfs_wrap_bound.
Qed.

Lemma wrap_toc_title_width_bound_witness :
  @one_word_or_fits half_em 8 80 "Table 14.1.1 Summary"
  /\ @two_words_or_fits half_em 8 80 "of Demographics and"
  /\ @two_words_or_fits half_em 8 0 "aaaa bbbb".
Proof.
  split; [|split].
  - apply (proj1 (@wrap_toc_title_width_bound half_em
             "Table 14.1.1 Summary of Demographics and Baseline" 8 80
             "Table 14.1.1 Summary")).
    vm_compute. left. reflexivity.
  - apply (proj1 (proj2 (@wrap_toc_title_width_bound half_em
             "Table 14.1.1 Summary of Demographics and Baseline" 8 80
             "of Demographics and"))).
    vm_compute. right. left. reflexivity.
  - apply (proj2 (proj2 (@wrap_toc_title_width_bound half_em
             "aaaa bbbb" 8 0 "aaaa bbbb"))).
    vm_compute. left. reflexivity.
Defined.

(** C5, as the spec has it, fails: on the title "aaaa bbbb" and a width
    budget of 0, TLF_Packager.py returns two lines and pack_pdfs_with_toc.py
    one. *)
Lemma wrap_scripts_differ_counterexample :
  @TLF_Packager.wrap_toc_title half_em "aaaa bbbb" 8 0
  <> @pack_pdfs_with_toc.wrap_toc_title half_em "aaaa bbbb" 8 0.
Proof. vm_compute. discriminate. Qed.

(** C5, amended: [wrap_toc_title] of pack_pdfs_with_toc.py and of
    pack_rtfs_with_toc.py return the same lines on every input, and
    [wrap_toc_title] of TLF_Packager.py returns the same lines as they do
    whenever every two neighbouring words of the title, joined by one
    space, measure at most [max_width]. *)
Theorem wrap_toc_title_scripts_agree {fitz : TextMeasurer}
        (title : string) (font_size max_width : Q) :
  pack_rtfs_with_toc.wrap_toc_title title font_size max_width
  = pack_pdfs_with_toc.wrap_toc_title title font_size max_width
  /\ (neighbours_fit font_size max_width (PyStr.split title) ->
      TLF_Packager.wrap_toc_title title font_size max_width
      = pack_pdfs_with_toc.wrap_toc_title title font_size max_width).
Proof.
  split; [apply pack_wrap_same | apply TLF_pack_wrap_agree].
Qed.

Lemma wrap_toc_title_scripts_agree_witness :
  @TLF_Packager.wrap_toc_title half_em
     "Table 14.1.1 Summary of Demographics and Baseline" 8 80
  = @pack_pdfs_with_toc.wrap_toc_title half_em
     "Table 14.1.1 Summary of Demographics and Baseline" 8 80.
Proof.
  apply (proj2 (@wrap_toc_title_scripts_agree half_em
           "Table 14.1.1 Summary of Demographics and Baseline" 8 80)).
  vm_compute. repeat split.
Defined.

(** * The paginator *)

Section PaginateFacts.
Context {fitz : TextMeasurer}.
Import PyStr.
Variable wrap : string -> Q -> Q -> list string.
Variables font_size toc_text_max_width : Q.
Variable lines_per_page : Z.

Local Abbreviation loop :=
  (Engine.paginate_loop wrap font_size toc_text_max_width lines_per_page).
Local Abbreviation place := (placed wrap font_size toc_text_max_width).

(** One turn of the loop. *)
Lemma paginate_loop_step entry rest paginated current count :
  loop (entry :: rest) paginated current count =
  let line_count := len (snd (place entry)) in
  if count + line_count >? lines_per_page
  then loop rest (paginated ++ [current]) [place entry] (0 + line_count)
  else loop rest paginated (current ++ [place entry]) (count + line_count).
Proof.
  destruct entry as [[level title] target_page]. simpl.
  destruct (_ >? _); reflexivity.
Qed.

Lemma page_lines_app page1 page2 :
  page_lines (page1 ++ page2) = page_lines page1 + page_lines page2.
Proof.
  induction page1 as [|e page1 IH]; simpl; [reflexivity|].
  rewrite IH. lia.
Qed.

Lemma page_lines_nonneg page : 0 <= page_lines page.
Proof. induction page as [|e page IH]; simpl; unfold len; lia. Qed.

Lemma total_lines_concat pages :
  total_lines pages = page_lines (concat pages).
Proof.
  induction pages as [|page pages IH]; simpl; [reflexivity|].
  rewrite page_lines_app, IH. reflexivity.
Qed.

(** The loop only appends: the pages, read in order, are the pages so far
    followed by the entries, each with its wrapped lines. *)
Lemma paginate_loop_concat entries : forall paginated current count pages last n,
  loop entries paginated current count = (pages, last, n) ->
  concat (pages ++ [last])
  = concat (paginated ++ [current]) ++ map place entries.
Proof.
  induction entries as [|entry rest IH]; intros P cur cnt pages last n Hrun.
  - simpl in Hrun. inversion Hrun; subst. simpl. rewrite app_nil_r. reflexivity.
  - rewrite paginate_loop_step in Hrun. cbv zeta in Hrun.
    destruct (_ >? _); apply IH in Hrun; rewrite Hrun; simpl.
    + rewrite !concat_app. simpl. rewrite !app_nil_r, <- !app_assoc.
      reflexivity.
    + rewrite !concat_app. simpl. rewrite !app_nil_r, <- !app_assoc.
      reflexivity.
Qed.

Lemma paginate_with_budget_concat entries :
  concat (Engine.paginate_with_budget wrap font_size toc_text_max_width
                                      lines_per_page entries)
  = map place entries.
Proof.
  unfold Engine.paginate_with_budget.
  destruct (loop entries [] [] 0) as [[pages last] n] eqn:Hrun.
  apply paginate_loop_concat in Hrun. simpl in Hrun. rewrite <- Hrun.
  destruct last; [|reflexivity].
  rewrite concat_app. simpl. rewrite app_nil_r. reflexivity.
Qed.

Local Abbreviation loop_inv := (loop_inv lines_per_page).

Lemma paged_under_flush paginated current entry :
  paged_under (fun _ => lines_per_page) (paginated ++ [current]) ->
  page_lines current + len (snd entry) > lines_per_page ->
  paged_under (fun _ => lines_per_page)
              ((paginated ++ [current]) ++ [[entry]]).
Proof.
  intros Hold Hgt i page Hi.
  destruct (decide (i < length (paginated ++ [current]))%nat) as [Hlt|Hge].
  - rewrite lookup_app_l in Hi by assumption.
    destruct (Hold i page Hi) as [Hin Hnext]. split; [assumption|].
    intros next Hn.
    destruct (decide (S i < length (paginated ++ [current]))%nat) as [Hlt'|Hge'].
    + rewrite lookup_app_l in Hn by assumption. apply Hnext, Hn.
    + rewrite length_app in Hlt, Hge'. simpl in Hlt, Hge'.
      assert (i = length paginated) as -> by lia.
      rewrite lookup_app_r in Hn by (rewrite length_app; simpl; lia).
      rewrite length_app in Hn. simpl in Hn.
      replace (S (length paginated) - (length paginated + 1))%nat
        with 0%nat in Hn by lia.
      rewrite lookup_app_r, Nat.sub_diag in Hi by lia.
      simpl in Hi, Hn. inversion Hi; inversion Hn; subst. exact Hgt.
  - rewrite lookup_app_r in Hi by lia.
    destruct (i - length (paginated ++ [current]))%nat eqn:Hd;
      [|destruct n; discriminate].
    simpl in Hi. inversion Hi; subst. split; [right; simpl; lia|].
    intros next Hn. apply lookup_lt_Some in Hn.
    rewrite !length_app in *. simpl in *. lia.
Qed.

Lemma paged_under_extend paginated current entry :
  paged_under (fun _ => lines_per_page) (paginated ++ [current]) ->
  (paginated <> [] -> current <> []) ->
  page_lines (current ++ [entry]) <= lines_per_page ->
  paged_under (fun _ => lines_per_page) (paginated ++ [current ++ [entry]]).
Proof.
  intros Hold Hne Hle i page Hi.
  destruct (decide (i < length paginated)%nat) as [Hlt|Hge].
  - rewrite lookup_app_l in Hi by assumption.
    destruct (Hold i page) as [Hin Hnext];
      [rewrite lookup_app_l by assumption; exact Hi|].
    split; [assumption|]. intros next Hn.
    destruct (decide (S i < length paginated)%nat) as [Hlt'|Hge'].
    + rewrite lookup_app_l in Hn by assumption.
      apply Hnext. rewrite lookup_app_l by assumption. exact Hn.
    + assert (S i = length paginated) as Heq by lia.
      rewrite lookup_app_r, Heq, Nat.sub_diag in Hn by lia.
      simpl in Hn. inversion Hn; subst next.
      specialize (Hnext current).
      rewrite lookup_app_r, Heq, Nat.sub_diag in Hnext by lia.
      specialize (Hnext eq_refl).
      destruct current as [|first others]; [|exact Hnext].
      exfalso. apply Hne; [|reflexivity]. intros ->. simpl in Hlt. lia.
  - rewrite lookup_app_r in Hi by lia.
    destruct (i - length paginated)%nat eqn:Hd; [|destruct n; discriminate].
    simpl in Hi. inversion Hi; subst. split; [left; assumption|].
    intros next Hn. apply lookup_lt_Some in Hn.
    rewrite length_app in Hn. simpl in Hn. lia.
Qed.

Lemma paginate_loop_inv entries : forall paginated current count pages last n,
  loop_inv paginated current count ->
  loop entries paginated current count = (pages, last, n) ->
  loop_inv pages last n.
Proof.
  induction entries as [|entry rest IH];
    intros P cur cnt pages last n (Hcnt & Hold & Hne) Hrun.
  - simpl in Hrun. inversion Hrun; subst. split; [reflexivity|split; assumption].
  - rewrite paginate_loop_step in Hrun. cbv zeta in Hrun.
    destruct (_ >? _) eqn:Hcmp; apply IH in Hrun; try assumption.
    + apply Z.gtb_lt in Hcmp. split; [simpl; lia|]. split.
      * apply paged_under_flush; [assumption|]. subst cnt. lia.
      * intros _. discriminate.
    + assert (cnt + len (snd (place entry)) <= lines_per_page) as Hle.
      { destruct (Z.gtb_spec (cnt + len (snd (place entry))) lines_per_page);
          [discriminate|lia]. }
      assert (page_lines (cur ++ [place entry])
              = cnt + len (snd (place entry))) as Hpl.
      { rewrite page_lines_app. simpl. lia. }
      split; [symmetry; exact Hpl|]. split.
      * apply paged_under_extend; [assumption..|]. rewrite Hpl. exact Hle.
      * intros _. destruct cur; discriminate.
Qed.

(** Every page is filled under the one budget the loop is given. *)
Lemma paginate_with_budget_paged entries :
  paged_under (fun _ => lines_per_page)
    (Engine.paginate_with_budget wrap font_size toc_text_max_width
                                 lines_per_page entries).
Proof.
  unfold Engine.paginate_with_budget.
  destruct (loop entries [] [] 0) as [[pages last] n] eqn:Hrun.
  apply paginate_loop_inv in Hrun.
  - destruct Hrun as (_ & Hpaged & Hne).
    destruct last as [|first others]; [|exact Hpaged].
    destruct pages as [|page pages']; [|exfalso; apply Hne; [discriminate|reflexivity]].
    intros i page Hi. destruct i; discriminate.
  - split; [reflexivity|]. split; [|intros Hc; exfalso; apply Hc; reflexivity].
    intros i page Hi. destruct i as [|i]; [|destruct i; discriminate].
    simpl in Hi. inversion Hi; subst. split; [right; simpl; lia|].
    intros next Hn. discriminate.
Qed.

End PaginateFacts.

(** An entry with more lines than the budget has its page to itself. *)
Lemma oversized_entry_alone (budget : Z) (pages : list TocPage)
      (i : nat) (page : TocPage) (entry : TocEntry * list string) :
  paged_under (fun _ => budget) pages ->
  pages !! i = Some page -> In entry page ->
  PyStr.len (snd entry) > budget ->
  page = [entry].
Proof.
  intros Hpaged Hi Hin Hbig.
  destruct (Hpaged i page Hi) as [[Hle|Hlen] _].
  - exfalso.
    assert (PyStr.len (snd entry) <= page_lines page); [|lia].
    clear -Hin. induction page as [|e page IH]; [destruct Hin|].
    simpl. pose proof (page_lines_nonneg page).
    destruct Hin as [->|Hin]; [lia|].
    specialize (IH Hin). unfold PyStr.len in *. lia.
  - destruct page as [|e [|e' page]]; simpl in Hlen; [destruct Hin| |lia].
    destruct Hin as [->|[]]. reflexivity.
Qed.

Lemma floordiv_nonzero (a b : Q) :
  ~ (b == 0)%Q -> floordiv a b = Ok (Qfloor (a / b)).
Proof.
  intros Hb. unfold floordiv.
  destruct (Qeq_bool b 0) eqn:Hz; [|reflexivity].
  apply Qeq_bool_iff in Hz. contradiction.
Qed.

(** The half of C3 that holds: in what [paginate_wrapped_entries] returns,
    an entry with more lines than the budget is alone on its page. *)
Lemma paginate_oversized_alone {fitz : TextMeasurer}
      (toc_entries : list TocEntry)
      (font_size toc_text_max_width page_height : Q)
      (pages : list TocPage) (i : nat) (page : TocPage)
      (entry : TocEntry * list string) :
  TLF_Packager.paginate_wrapped_entries toc_entries font_size
                                        toc_text_max_width page_height
  = Ok pages ->
  pages !! i = Some page -> In entry page ->
  PyStr.len (snd entry) > full_budget font_size page_height - 2 ->
  page = [entry].
Proof.
  unfold TLF_Packager.paginate_wrapped_entries, floordiv.
  destruct (Qeq_bool _ 0); [discriminate|].
  cbn [mbind result_bind]. intros Hrun; inversion Hrun; subst pages.
  apply oversized_entry_alone, paginate_with_budget_paged.
Qed.

(** C3: the code under test at the failing input.  A first entry with
    more lines than the budget closes the page in progress while it is
    still empty: the paginator returns an empty TOC page, then the entry on
    a page of its own.  (TLF_Packager.py: six lines, page height 172,
    budget 6 - 2 = 4; pack_pdfs_with_toc.py without banner: three lines,
    page height 124, budget 2.) *)
Theorem paginate_emits_empty_first_page :
  @TLF_Packager.paginate_wrapped_entries half_em [six_line_entry] 8 5 172
  = Ok [[]; [(six_line_entry, ["a"; "b"; "c"; "d"; "e"; "f"]%string)]]
  /\ @pack_pdfs_with_toc.paginate_wrapped_entries half_em [six_line_entry]
       8 5 124 false
     = Ok [[]; [(six_line_entry, ["a b"; "c d"; "e f"]%string)]].
Proof. split; vm_compute; reflexivity. Qed.




(** C7: for every entry list (and a font size that is not 0) the pages
    that [paginate_wrapped_entries] of TLF_Packager.py returns, read in
    order, are the input entries in their order, each with its wrapped
    lines; so the lines on all pages are as many as the wrapped lines of
    all entries. *)
Theorem paginate_keeps_entries {fitz : TextMeasurer}
        (toc_entries : list TocEntry)
        (font_size toc_text_max_width page_height : Q) :
  ~ (font_size * 1.5 == 0)%Q ->
  exists pages,
    TLF_Packager.paginate_wrapped_entries toc_entries font_size
                                          toc_text_max_width page_height
    = Ok pages
    /\ concat pages
       = map (placed TLF_Packager.wrap_toc_title font_size toc_text_max_width)
             toc_entries
    /\ total_lines pages
       = page_lines
           (map (placed TLF_Packager.wrap_toc_title font_size
                        toc_text_max_width) toc_entries).
Proof.
  intros Hfs. unfold TLF_Packager.paginate_wrapped_entries.
  rewrite floordiv_nonzero by assumption.
  eexists. split; [reflexivity|].
  rewrite total_lines_concat, paginate_with_budget_concat. split; reflexivity.
Qed.

Lemma paginate_keeps_entries_witness :
  exists pages,
    @TLF_Packager.paginate_wrapped_entries half_em seven_entries 8 400 160
    = Ok pages
    /\ concat pages
       = map (placed (@TLF_Packager.wrap_toc_title half_em) 8 400)
             seven_entries
    /\ total_lines pages
       = page_lines
           (map (placed (@TLF_Packager.wrap_toc_title half_em) 8 400)
                seven_entries).
Proof.
  apply (@paginate_keeps_entries half_em seven_entries 8 400 160).
  intros H. vm_compute in H. discriminate.
Defined.

(** * The merger *)

Section MergeFacts.
Context {host : Host}.
Import PyStr.

Lemma len_app {A : Type} (l1 l2 : list A) : len (l1 ++ l2) = len l1 + len l2.
Proof. unfold len. rewrite length_app. lia. Qed.

Lemma open_raises w path e : Fitz.open w path = Raise e -> e = FileDataError.
Proof.
  unfold Fitz.open. destruct (files w !! path); [discriminate|].
  intros H; inversion H; reflexivity.
Qed.

(** The converter may write files, but it does not call [Document.save]. *)
Lemma locate_pdf_saves entry w w' located :
  TLF_Packager.locate_pdf entry w = (w', located) -> saves w' = saves w.
Proof.
  unfold TLF_Packager.locate_pdf. destruct (String.eqb _ _).
  - destruct (convert_rtf_to_pdf _ _ _ _ _) as [fs r].
    intros H; inversion H; reflexivity.
  - intros H; inversion H; reflexivity.
Qed.

Lemma TLF_merge_loop_readable entries : forall docs w merged toc pc td,
  TLF_readable entries w docs ->
  exists w' td',
    TLF_Packager.merge_loop entries w merged toc pc td
    = (w', Ok (mkDoc (doc_pages merged ++ concat (map doc_pages docs))
                     (doc_toc merged),
               toc ++ bookmarks_from pc
                        (combine (map TLF_bookmark entries)
                                 (map Fitz.page_count docs)),
               td'))
    /\ saves w' = saves w.
Proof.
  induction entries as [|entry entries IH];
    intros [|doc docs] w merged toc pc td Hread;
    simpl in Hread; try contradiction.
  - exists w, td. simpl. rewrite !app_nil_r. destruct merged; auto.
  - cbn [TLF_Packager.merge_loop].
    destruct (TLF_Packager.locate_pdf entry w) as [w1 [pdf_path|e]] eqn:Hloc;
      [|contradiction].
    destruct Hread as [Hopen Hread]. rewrite Hopen.
    edestruct (IH docs w1) as (w' & td' & Hrun & Hs); [exact Hread|].
    exists w', td'. rewrite Hrun. split.
    + cbn [map combine bookmarks_from concat Fitz.insert_pdf doc_pages doc_toc].
      rewrite <- !app_assoc. reflexivity.
    + rewrite Hs. eapply locate_pdf_saves; eauto.
Qed.

Lemma TLF_merge_loop_outcome entries : forall w merged toc pc td w' r,
  TLF_Packager.merge_loop entries w merged toc pc td = (w', r) ->
  saves w' = saves w
  /\ match r with
     | Ok _ => exists docs, TLF_readable entries w docs
     | Raise _ => True
     end.
Proof.
  induction entries as [|entry entries IH];
    intros w merged toc pc td w' r Hrun; cbn [TLF_Packager.merge_loop] in Hrun.
  - inversion Hrun; subst. split; [reflexivity|]. exists []. exact I.
  - destruct (TLF_Packager.locate_pdf entry w) as [w1 [pdf_path|e]] eqn:Hloc.
    + pose proof (locate_pdf_saves _ _ _ _ Hloc) as Hs.
      destruct (Fitz.open w1 pdf_path) as [doc|e] eqn:Hopen.
      * apply IH in Hrun as [Hs' Hr]. split; [congruence|].
        destruct r; [|exact I]. destruct Hr as [docs Hdocs].
        exists (doc :: docs). simpl. rewrite Hloc. split; assumption.
      * inversion Hrun; subst. split; [assumption|exact I].
    + inversion Hrun; subst. split; [|exact I].
      eapply locate_pdf_saves; eauto.
Qed.

Lemma TLF_merge_loop_fails entries : forall w merged toc pc td,
  TLF_open_fails entries w ->
  exists w',
    TLF_Packager.merge_loop entries w merged toc pc td
    = (w', Raise FileDataError)
    /\ saves w' = saves w.
Proof.
  induction entries as [|entry entries IH];
    intros w merged toc pc td Hfail; simpl in Hfail; [contradiction|].
  cbn [TLF_Packager.merge_loop].
  destruct (TLF_Packager.locate_pdf entry w) as [w1 [pdf_path|e]] eqn:Hloc;
    [|contradiction].
  pose proof (locate_pdf_saves _ _ _ _ Hloc) as Hs.
  destruct (Fitz.open w1 pdf_path) as [doc|e] eqn:Hopen.
  - edestruct IH as (w' & Hrun & Hs'); [exact Hfail|].
    exists w'. rewrite Hrun. split; [reflexivity|congruence].
  - apply open_raises in Hopen as ->. exists w1. split; [reflexivity|assumption].
Qed.

Lemma fold_remove_saves paths : forall w,
  saves (fold_left Fitz.remove paths w) = saves w.
Proof.
  induction paths as [|path paths IH]; intros w; simpl; [reflexivity|].
  rewrite IH. reflexivity.
Qed.

Lemma pack_pdfs_merge_loop_readable w entries : forall docs merged toc,
  Forall2 (fun entry doc =>
             Fitz.open w (pack_pdfs_with_toc.e_pdf entry) = Ok doc)
          entries docs ->
  pack_pdfs_with_toc.merge_loop entries w merged toc
  = Ok (mkDoc (doc_pages merged ++ concat (map doc_pages docs))
              (doc_toc merged),
        toc ++ bookmarks_from (len (doc_pages merged))
                 (combine (map pack_pdfs_with_toc.e_title entries)
                          (map Fitz.page_count docs))).
Proof.
  induction entries as [|entry entries IH]; intros docs merged toc Hread;
    inversion Hread as [|? doc ? docs' Hopen Hrest]; subst.
  - simpl. rewrite !app_nil_r. destruct merged; reflexivity.
  - cbn [pack_pdfs_with_toc.merge_loop]. rewrite Hopen.
    cbn [mbind result_bind]. rewrite (IH docs') by assumption.
    cbn [map combine bookmarks_from concat Fitz.insert_pdf doc_pages doc_toc].
    rewrite len_app, <- !app_assoc. reflexivity.
Qed.

Lemma pack_rtfs_merge_loop_fails w entries : forall merged toc,
  Exists (fun entry =>
            Fitz.open w (pack_rtfs_with_toc.e_pdf entry) = Raise FileDataError)
         entries ->
  pack_rtfs_with_toc.merge_loop entries w merged toc = Raise FileDataError.
Proof.
  induction entries as [|entry entries IH]; intros merged toc Hex;
    [inversion Hex|].
  cbn [pack_rtfs_with_toc.merge_loop].
  destruct (Fitz.open w (pack_rtfs_with_toc.e_pdf entry)) as [doc|e] eqn:Hopen.
  - cbn [mbind result_bind]. apply IH.
    inversion Hex; subst; [congruence|assumption].
  - apply open_raises in Hopen as ->. reflexivity.
Qed.

Lemma pack_rtfs_merge_loop_ok w entries : forall merged toc out,
  pack_rtfs_with_toc.merge_loop entries w merged toc = Ok out ->
  Forall (fun entry =>
            exists doc, Fitz.open w (pack_rtfs_with_toc.e_pdf entry) = Ok doc)
         entries.
Proof.
  induction entries as [|entry entries IH]; intros merged toc out Hrun;
    [constructor|].
  cbn [pack_rtfs_with_toc.merge_loop] in Hrun.
  destruct (Fitz.open w (pack_rtfs_with_toc.e_pdf entry)) as [doc|e] eqn:Hopen;
    [|discriminate].
  cbn [mbind result_bind] in Hrun. constructor; [eauto|]. eapply IH, Hrun.
Qed.

Lemma TLF_readable_length entries : forall w docs,
  TLF_readable entries w docs -> length entries = length docs.
Proof.
  induction entries as [|entry entries IH]; intros w [|doc docs] Hread;
    simpl in Hread; try contradiction; [reflexivity|].
  destruct (TLF_Packager.locate_pdf entry w) as [w1 [pdf_path|e]];
    [|contradiction].
  destruct Hread as [_ Hread]. simpl. f_equal. eapply IH, Hread.
Qed.

Lemma sum_pages_nonneg docs : 0 <= sum_pages docs.
Proof.
  induction docs as [|doc docs IH]; simpl; [lia|].
  unfold Fitz.page_count, len. lia.
Qed.

Lemma sum_pages_concat docs :
  len (concat (map doc_pages docs)) = sum_pages docs.
Proof.
  induction docs as [|doc docs IH]; simpl; [reflexivity|].
  rewrite len_app, IH. reflexivity.
Qed.

(** What [bookmarks_from] lists: the content of C2. *)
Lemma bookmarks_from_spec docs : forall titles start,
  length titles = length docs ->
  let toc := bookmarks_from start
               (combine titles (map Fitz.page_count docs)) in
  length toc = length docs
  /\ (forall (i : nat) (b : Bookmark),
         toc !! i = Some b ->
         fst (fst b) = 1
         /\ titles !! i = Some (snd (fst b))
         /\ bookmark_page0 b = start + sum_pages (take i docs))
  /\ StronglySorted Z.le (map bookmark_page0 toc)
  /\ Forall (fun b => start <= bookmark_page0 b) toc.
Proof.
  induction docs as [|doc docs IH]; intros [|title titles] start Hlen;
    simpl in Hlen; try discriminate; cbn zeta.
  - simpl. split; [reflexivity|]. split; [|split; constructor].
    intros i b Hi. destruct i; discriminate.
  - injection Hlen as Hlen.
    destruct (IH titles (start + Fitz.page_count doc) Hlen)
      as (Hl & Hat & Hsorted & Hge).
    cbn [map combine bookmarks_from]. cbn zeta in *.
    assert (0 <= Fitz.page_count doc) by (unfold Fitz.page_count, len; lia).
    assert (Hge' : Forall (fun b => start <= bookmark_page0 b)
                     (bookmarks_from (start + Fitz.page_count doc)
                        (combine titles (map Fitz.page_count docs)))).
    { eapply Forall_impl; [exact Hge|]. intros b Hb. simpl in Hb. lia. }
    split; [simpl; f_equal; exact Hl|]. split; [|split].
    + intros [|i] b Hi.
      * simpl in Hi. inversion Hi; subst. unfold bookmark_page0. simpl.
        repeat split. lia.
      * simpl in Hi. destruct (Hat i b Hi) as (H1 & H2 & H3).
        repeat split; [assumption..|]. rewrite H3. simpl. lia.
    + cbn [map]. constructor; [exact Hsorted|].
      apply Forall_map. unfold bookmark_page0 at 1. simpl.
      eapply Forall_impl; [exact Hge'|]. intros b Hb. simpl in *. lia.
    + constructor; [unfold bookmark_page0; simpl; lia|exact Hge'].
Qed.

Lemma is_merged_body_intro titles docs :
  length titles = length docs ->
  is_merged_body titles docs
    (Fitz.set_toc
       (mkDoc (doc_pages Fitz.new ++ concat (map doc_pages docs))
              (doc_toc Fitz.new))
       ([] ++ bookmarks_from 0 (combine titles (map Fitz.page_count docs)))).
Proof.
  intros Hlen.
  destruct (bookmarks_from_spec docs titles 0 Hlen) as (Hl & Hat & Hs & _).
  cbn zeta in *. unfold is_merged_body. simpl.
  split; [exact Hl|]. split; [|split; [exact Hs|split; [reflexivity|]]].
  - intros i b Hi. destruct (Hat i b Hi) as (H1 & H2 & H3).
    repeat split; [assumption..|]. rewrite H3. lia.
  - unfold Fitz.page_count. simpl. apply sum_pages_concat.
Qed.

End MergeFacts.



(** C8: when [fitz.open] fails on a fragment during
    [merge_pdfs_with_bookmarks] (of TLF_Packager.py and of
    pack_rtfs_with_toc.py), the merge raises and [Document.save] is not
    called (in pack_rtfs_with_toc.py the disk is left as it was); the merged
    document is saved only when every fragment was opened. *)
Theorem merge_fails_fast {host : Host} :
  (forall (entries : list TLF_Packager.Entry) (output_path : string)
          (delete_intermediate : bool) (w : World),
      let '(w', r) :=
        TLF_Packager.merge_pdfs_with_bookmarks entries output_path
                                               delete_intermediate w in
      (TLF_open_fails entries w ->
       r = Raise FileDataError /\ saves w' = saves w)
      /\ (saves w' <> saves w -> exists docs, TLF_readable entries w docs))
  /\ (forall (entries : list pack_rtfs_with_toc.Entry) (output_path : string)
             (w : World),
         let '(w', r) :=
           pack_rtfs_with_toc.merge_pdfs_with_bookmarks entries output_path w in
         (Exists (fun entry =>
                    Fitz.open w (pack_rtfs_with_toc.e_pdf entry)
                    = Raise FileDataError) entries ->
          r = Raise FileDataError /\ w' = w)
         /\ (w' <> w ->
             Forall (fun entry =>
                       exists doc,
                         Fitz.open w (pack_rtfs_with_toc.e_pdf entry) = Ok doc)
                    entries)).
Proof.
  split.
  - intros entries output_path delete_intermediate w.
    unfold TLF_Packager.merge_pdfs_with_bookmarks.
    destruct (TLF_Packager.merge_loop entries w Fitz.new [] 0 [])
      as [w1 r1] eqn:Hrun.
    pose proof (TLF_merge_loop_outcome _ _ _ _ _ _ _ _ Hrun) as [Hs Hr].
    destruct r1 as [[[merged toc] td]|e].
    + split; [|intros _; exact Hr].
      intros Hfail.
      destruct (TLF_merge_loop_fails entries w Fitz.new [] 0 [] Hfail)
        as (w2 & Hrun' & _).
      rewrite Hrun in Hrun'. discriminate.
    + split; [|intros Hne; contradiction].
      intros Hfail.
      destruct (TLF_merge_loop_fails entries w Fitz.new [] 0 [] Hfail)
        as (w2 & Hrun' & _).
      rewrite Hrun in Hrun'. inversion Hrun'; subst. split; [reflexivity|exact Hs].
  - intros entries output_path w.
    unfold pack_rtfs_with_toc.merge_pdfs_with_bookmarks.
    destruct (pack_rtfs_with_toc.merge_loop entries w Fitz.new [])
      as [[merged toc]|e] eqn:Hrun.
    + split; [|intros _; eapply pack_rtfs_merge_loop_ok, Hrun].
      intros Hfail.
      rewrite (pack_rtfs_merge_loop_fails w entries) in Hrun by assumption.
      discriminate.
    + split; [|intros Hne; contradiction].
      intros Hfail.
      rewrite (pack_rtfs_merge_loop_fails w entries) in Hrun by assumption.
      inversion Hrun; subst. split; reflexivity.
Qed.

Lemma merge_fails_fast_witness :
  (let '(w', r) :=
     @TLF_Packager.merge_pdfs_with_bookmarks flat_host broken_entries
       "m.pdf" false three_files in
   r = Raise FileDataError /\ saves w' = saves three_files)
  /\ (let '(w', r) :=
        pack_rtfs_with_toc.merge_pdfs_with_bookmarks broken_rtf_entries
          "m.pdf" three_files in
      r = Raise FileDataError /\ w' = three_files).
Proof.
  split.
  - pose proof (proj1 (@merge_fails_fast flat_host) broken_entries
                      "m.pdf"%string false three_files) as H.
    destruct (@TLF_Packager.merge_pdfs_with_bookmarks flat_host broken_entries
                "m.pdf" false three_files) as [w' r].
    apply H. vm_compute. exact I.
  - pose proof (proj2 (@merge_fails_fast flat_host) broken_rtf_entries
                      "m.pdf"%string three_files) as H.
    destruct (pack_rtfs_with_toc.merge_pdfs_with_bookmarks broken_rtf_entries
                "m.pdf" three_files) as [w' r].
    apply H. apply Exists_cons_tl, Exists_cons_hd. vm_compute. reflexivity.
Defined.

(** * The renderer *)

Section RenderFacts.
Context {fitz : TextMeasurer}.
Import PyStr.
Variables font_size page_number_x gap : Q.
Variable toc_page_count : Z.

Local Abbreviation render_line :=
  (Engine.render_line font_size page_number_x gap).
Local Abbreviation render_lines :=
  (Engine.render_lines font_size page_number_x gap).
Local Abbreviation render_entries :=
  (Engine.render_entries font_size page_number_x gap toc_page_count).

(** A line is drawn at the cursor first; drawing adds no link. *)
Lemma render_line_shape x w s n i line page y page' :
  render_line x w s n i line page y = Ok page' ->
  page_links page' = page_links page
  /\ exists more,
       page_text page' = page_text page ++ mkText x y line font_size :: more.
Proof.
  unfold Engine.render_line. destruct (i =? n - 1).
  - destruct (Qlt_bool _ _).
    + destruct (floordiv _ _) as [dot_count|e]; [|discriminate].
      cbn [mbind result_bind]. intros H; inversion H; subst; clear H.
      split; [reflexivity|]. simpl. rewrite <- !app_assoc. eauto.
    + cbn [mbind result_bind]. intros H; inversion H; subst; clear H.
      split; [reflexivity|]. simpl. rewrite <- !app_assoc. eauto.
  - intros H; inversion H; subst; clear H.
    split; [reflexivity|]. simpl. eauto.
Qed.

Lemma render_line_ok x w s n i line page y :
  ~ (get_text_length "." font_size == 0)%Q ->
  exists page', render_line x w s n i line page y = Ok page'.
Proof.
  intros Hdot. unfold Engine.render_line. destruct (i =? n - 1); [|eauto].
  destruct (Qlt_bool _ _); [|cbn [mbind result_bind]; eauto].
  rewrite floordiv_nonzero by assumption. cbn [mbind result_bind]. eauto.
Qed.

Lemma render_lines_shape x w s n lines : forall i page y page' y',
  render_lines x w s n i lines page y = Ok (page', y') ->
  page_links page' = page_links page
  /\ exists ops,
       page_text page' = page_text page ++ ops
       /\ match lines with
          | [] => ops = [] /\ y' = y
          | line :: _ => exists more, ops = mkText x y line font_size :: more
          end.
Proof.
  induction lines as [|line rest IH]; intros i page y page' y' Hrun.
  - inversion Hrun; subst. split; [reflexivity|].
    exists []. rewrite app_nil_r. auto.
  - cbn [Engine.render_lines] in Hrun.
    destruct (render_line x w s n i line page y) as [page1|e] eqn:Hline;
      [|discriminate].
    cbn [mbind result_bind] in Hrun.
    apply render_line_shape in Hline as (Hl1 & more1 & Ht1).
    apply IH in Hrun as (Hl2 & ops2 & Ht2 & _).
    split; [congruence|].
    exists (mkText x y line font_size :: more1 ++ ops2).
    split; [|eauto]. rewrite Ht2, Ht1, <- app_assoc. reflexivity.
Qed.

Lemma render_lines_ok x w s n lines : forall i page y,
  ~ (get_text_length "." font_size == 0)%Q ->
  exists out, render_lines x w s n i lines page y = Ok out.
Proof.
  induction lines as [|line rest IH]; intros i page y Hdot; [simpl; eauto|].
  cbn [Engine.render_lines].
  destruct (render_line_ok x w s n i line page y Hdot) as [page1 ->].
  cbn [mbind result_bind]. apply IH, Hdot.
Qed.

(** One turn of the loop over the entries of a page. *)
Lemma render_entries_step page_index level title target_page wrapped_lines
      rest page y link_targets :
  render_entries page_index
    (((level, title, target_page), wrapped_lines) :: rest) page y link_targets
  = let x := (Engine.left_margin + inject_Z (20 * (level - 1)))%Q in
    let page_number_str := str (target_page + toc_page_count + 1) in
    '(page', y') ←
      render_lines x (get_text_length page_number_str font_size)
                   page_number_str (len wrapped_lines) 0 wrapped_lines page y;
    render_entries page_index rest page' y'
      (link_targets
         ++ [(page_index, mkRect x (y - font_size) page_number_x y',
              target_page)]).
Proof.
  cbn [Engine.render_entries]. cbv zeta.
  destruct (render_lines _ _ _ _ _ _ _ _) as [[page' y']|e]; reflexivity.
Qed.

(** Rendering the entries of a page draws after what the page shows, adds
    no link, and records one link target per entry, in order, on that
    page, with the target page of the entry. *)
Lemma render_entries_shape page_index entries :
  forall page y link_targets page' y' link_targets',
  render_entries page_index entries page y link_targets
  = Ok (page', y', link_targets') ->
  page_links page' = page_links page
  /\ (exists ops, page_text page' = page_text page ++ ops)
  /\ exists new,
       link_targets' = link_targets ++ new
       /\ Forall (fun lt : LinkTarget => fst (fst lt) = page_index) new
       /\ map snd new = map (fun entry : TocEntry * list string =>
                               snd (fst entry)) entries.
Proof.
  induction entries as [|[[[level title] target_page] wrapped_lines] rest IH];
    intros page y lts page' y' lts' Hrun.
  - inversion Hrun; subst. split; [reflexivity|].
    split; [exists []; rewrite app_nil_r; reflexivity|].
    exists []. rewrite app_nil_r. repeat split. constructor.
  - rewrite render_entries_step in Hrun. cbv zeta in Hrun.
    destruct (render_lines _ _ _ _ _ _ _ _) as [[page1 y1]|e] eqn:Hlines;
      [|discriminate].
    cbn [mbind result_bind] in Hrun.
    apply render_lines_shape in Hlines as (Hl1 & ops1 & Ht1 & _).
    apply IH in Hrun as (Hl2 & (ops2 & Ht2) & new & Hnew & Hidx & Htargets).
    split; [congruence|]. split.
    + exists (ops1 ++ ops2). rewrite Ht2, Ht1, <- app_assoc. reflexivity.
    + eexists (_ :: new). split; [rewrite Hnew, <- app_assoc; reflexivity|].
      split; [constructor; [reflexivity|exact Hidx]|].
      simpl. f_equal. exact Htargets.
Qed.

Lemma render_entries_ok page_index entries : forall page y link_targets,
  ~ (get_text_length "." font_size == 0)%Q ->
  exists out, render_entries page_index entries page y link_targets = Ok out.
Proof.
  induction entries as [|[[[level title] target_page] wrapped_lines] rest IH];
    intros page y lts Hdot; [simpl; eauto|].
  rewrite render_entries_step. cbv zeta.
  edestruct render_lines_ok as [[page1 y1] ->]; [exact Hdot|].
  cbn [mbind result_bind]. apply IH, Hdot.
Qed.

(** The first entry of a page, when it has a line: the line is drawn at
    the cursor, and the top of the link area is one font size above. *)
Lemma render_entries_first page_index level title target_page line lines
      rest page y link_targets page' y' link_targets' :
  render_entries page_index
    (((level, title, target_page), line :: lines) :: rest) page y link_targets
  = Ok (page', y', link_targets') ->
  let x := (Engine.left_margin + inject_Z (20 * (level - 1)))%Q in
  (exists more,
      page_text page' = page_text page ++ mkText x y line font_size :: more)
  /\ exists y1 more,
       link_targets'
       = link_targets
           ++ (page_index, mkRect x (y - font_size) page_number_x y1,
               target_page) :: more.
Proof.
  intros Hrun. rewrite render_entries_step in Hrun. cbv zeta in *.
  destruct (render_lines _ _ _ _ _ _ _ _) as [[page1 y1]|e] eqn:Hlines;
    [|discriminate].
  cbn [mbind result_bind] in Hrun.
  apply render_lines_shape in Hlines as (_ & ops1 & Ht1 & more1 & Hops1).
  apply render_entries_shape in Hrun as (_ & (ops2 & Ht2) & new & Hnew & _).
  split.
  - exists (more1 ++ ops2). rewrite Ht2, Ht1, Hops1, <- app_assoc. reflexivity.
  - exists y1, new. rewrite Hnew, <- app_assoc. reflexivity.
Qed.

(** An entry without lines draws nothing and leaves the cursor where it
    is, and still records its link target: an area one font size high
    above the cursor. *)
Lemma render_entries_no_lines page_index level title target_page rest
      page y link_targets :
  render_entries page_index (((level, title, target_page), []) :: rest)
                 page y link_targets
  = render_entries page_index rest page y
      (link_targets
         ++ [(page_index,
              mkRect (Engine.left_margin + inject_Z (20 * (level - 1)))
                     (y - font_size) page_number_x y,
              target_page)]).
Proof. rewrite render_entries_step. reflexivity. Qed.

End RenderFacts.

(** * The TOC pages *)

Section GenerateFacts.
Context {fitz : TextMeasurer}.
Import PyStr.
Variables font_size page_width page_height : Q.
Variable toc_page_count : Z.
Variables page_number_x gap : Q.

Local Abbreviation pack_loop :=
  (pack_pdfs_with_toc.generate_loop font_size page_width page_height
     toc_page_count page_number_x gap).
Local Abbreviation TLF_loop :=
  (TLF_Packager.generate_loop font_size page_width page_height
     toc_page_count page_number_x gap).

(** TLF_Packager.py draws the banner as pack_pdfs_with_toc.py does with
    [include_toc_title] on. *)
Lemma TLF_generate_loop_eq paginated : forall page_index toc_doc link_targets,
  TLF_loop page_index paginated toc_doc link_targets
  = pack_loop true page_index paginated toc_doc link_targets.
Proof.
  induction paginated as [|entries rest IH]; intros idx doc lts;
    [reflexivity|].
  cbn [TLF_Packager.generate_loop pack_pdfs_with_toc.generate_loop andb].
  destruct (idx =? 0)%nat;
    destruct (Engine.render_entries _ _ _ _ _ _ _ _ _) as [[[page y] l]|e];
    cbn [mbind result_bind]; auto.
Qed.

(** The loop appends one page per TOC page, without links on it, keeps
    the outline, and records the link targets of page [i] with index
    [i]. *)
Lemma generate_loop_shape include_toc_title paginated :
  forall page_index toc_doc link_targets toc_doc' link_targets',
  pack_loop include_toc_title page_index paginated toc_doc link_targets
  = Ok (toc_doc', link_targets') ->
  doc_toc toc_doc' = doc_toc toc_doc
  /\ exists pages new,
       doc_pages toc_doc' = doc_pages toc_doc ++ pages
       /\ length pages = length paginated
       /\ Forall (fun page => page_links page = []) pages
       /\ link_targets' = link_targets ++ new
       /\ Forall (fun lt : LinkTarget =>
                    (page_index <= fst (fst lt)
                     < page_index + length paginated)%nat) new
       /\ map snd new = map (fun entry : TocEntry * list string =>
                               snd (fst entry)) (concat paginated).
Proof.
  induction paginated as [|entries rest IH]; intros idx doc lts doc' lts' Hrun.
  - inversion Hrun; subst. split; [reflexivity|].
    exists [], []. rewrite !app_nil_r. repeat split; constructor.
  - cbn [pack_pdfs_with_toc.generate_loop] in Hrun.
    destruct (include_toc_title && (idx =? 0)%nat);
      destruct (Engine.render_entries _ _ _ _ _ _ _ _ _)
        as [[[page y] lts1]|e] eqn:Hpage; try discriminate;
      cbn [mbind result_bind] in Hrun;
      apply render_entries_shape in Hpage as (Hl & _ & new1 & Hnew1 & Hidx1 & Ht1);
      apply IH in Hrun
        as (Htoc & pages & new2 & Hpages & Hlen & Hnolinks & Hnew2 & Hidx2 & Ht2);
      (split; [exact Htoc|]);
      exists (page :: pages), (new1 ++ new2);
      (split; [rewrite Hpages; simpl; rewrite <- app_assoc; reflexivity|]);
      (split; [simpl; f_equal; exact Hlen|]);
      (split; [constructor; [rewrite Hl; reflexivity|exact Hnolinks]|]);
      (split; [rewrite Hnew2, Hnew1, <- app_assoc; reflexivity|]);
      (split; [|cbn [concat]; rewrite !map_app; f_equal; [exact Ht1|exact Ht2]]);
      apply Forall_app; (split;
        [eapply Forall_impl; [exact Hidx1|]; intros lt Hlt;
         simpl in *; rewrite Hlt; lia
        |eapply Forall_impl; [exact Hidx2|]; intros lt Hlt;
         simpl in *; lia]).
Qed.

Lemma generate_loop_ok include_toc_title paginated :
  forall page_index toc_doc link_targets,
  ~ (get_text_length "." font_size == 0)%Q ->
  exists out,
    pack_loop include_toc_title page_index paginated toc_doc link_targets
    = Ok out.
Proof.
  induction paginated as [|entries rest IH]; intros idx doc lts Hdot;
    [simpl; eauto|].
  cbn [pack_pdfs_with_toc.generate_loop].
  destruct (include_toc_title && (idx =? 0)%nat);
    (edestruct render_entries_ok as [[[page y] lts1] ->]; [exact Hdot|]);
    cbn [mbind result_bind]; apply IH, Hdot.
Qed.

(** The first TOC page with the banner on: the banner at the top margin,
    then the first line of the first entry two font sizes below. *)
Lemma generate_loop_first level title target_page line lines entries rest
      toc_doc link_targets :
  pack_loop true 0%nat
    ((((level, title, target_page), line :: lines) :: entries) :: rest)
    Fitz.new [] = Ok (toc_doc, link_targets) ->
  let x := (Engine.left_margin + inject_Z (20 * (level - 1)))%Q in
  let cursor := (Engine.top_margin + font_size * 2)%Q in
  exists page more_pages more_text y1 more_targets,
    doc_pages toc_doc = page :: more_pages
    /\ page_text page
       = mkText (page_width / 2
                 - get_text_length "Table of Contents" (font_size + 2) / 2)
                Engine.top_margin "Table of Contents" (font_size + 2)
         :: mkText x cursor line font_size :: more_text
    /\ link_targets
       = (0%nat, mkRect x (cursor - font_size) page_number_x y1, target_page)
         :: more_targets.
Proof.
  intros Hrun. cbn [pack_pdfs_with_toc.generate_loop andb Nat.eqb] in Hrun.
  destruct (Engine.render_entries _ _ _ _ _ _ _ _ _)
    as [[[page y] lts1]|e] eqn:Hpage; [|discriminate].
  cbn [mbind result_bind] in Hrun.
  apply render_entries_first in Hpage as ((more & Ht) & y1 & more_lts & Hl).
  apply generate_loop_shape in Hrun as (_ & pages & new & Hpages & _ & _ & Hnew & _).
  cbv zeta. exists page, pages, more, y1, (more_lts ++ new).
  split; [exact Hpages|]. split; [exact Ht|].
  rewrite Hnew, Hl. reflexivity.
Qed.

End GenerateFacts.

(** * The links *)

Section LinkFacts.
Import PyStr.

Lemma links_of_cons T page_index i rect target_page link_targets :
  links_of T page_index ((i, rect, target_page) :: link_targets)
  = if (i =? page_index)%nat
    then mkLink rect (T + target_page) :: links_of T page_index link_targets
    else links_of T page_index link_targets.
Proof. unfold links_of. simpl. destruct (i =? page_index)%nat; reflexivity. Qed.

(** [add_toc_hyperlinks] keeps the outline and the text of every page, and
    appends to the links of page [i] the links of the targets recorded on
    page [i], in order. *)
Lemma add_toc_hyperlinks_spec T link_targets : forall doc doc',
  Engine.add_toc_hyperlinks doc link_targets T = Ok doc' ->
  doc_toc doc' = doc_toc doc
  /\ length (doc_pages doc') = length (doc_pages doc)
  /\ forall (i : nat) (page : Page),
       doc_pages doc !! i = Some page ->
       doc_pages doc' !! i
       = Some (mkPage (page_width page) (page_height page) (page_text page)
                      (page_links page ++ links_of T i link_targets)).
Proof.
  induction link_targets as [|[[pi rect] target_page] rest IH];
    intros doc doc' Hrun.
  - inversion Hrun; subst. split; [reflexivity|]. split; [reflexivity|].
    intros i page Hi. unfold links_of. simpl. rewrite app_nil_r.
    destruct page; exact Hi.
  - cbn [Engine.add_toc_hyperlinks] in Hrun.
    destruct (doc_pages doc !! pi) as [page0|] eqn:Hpi; [|discriminate].
    apply IH in Hrun as (Htoc & Hlen & Hat). simpl in Htoc, Hlen, Hat.
    split; [exact Htoc|]. split; [rewrite Hlen; apply length_insert|].
    intros i page Hi. rewrite links_of_cons.
    destruct (Nat.eqb_spec pi i) as [->|Hne].
    + rewrite Hi in Hpi. inversion Hpi; subst page0.
      rewrite (Hat i (Fitz.insert_link page
                        (mkLink rect (target_page + T)))).
      * simpl. rewrite <- app_assoc, (Z.add_comm T). reflexivity.
      * apply list_lookup_insert_eq. eapply lookup_lt_Some, Hi.
    + apply Hat. rewrite list_lookup_insert_ne by assumption. exact Hi.
Qed.

(** It raises only on a target whose page is not in the document. *)
Lemma add_toc_hyperlinks_ok T link_targets : forall doc,
  Forall (fun lt : LinkTarget =>
            (fst (fst lt) < length (doc_pages doc))%nat) link_targets ->
  exists doc', Engine.add_toc_hyperlinks doc link_targets T = Ok doc'.
Proof.
  induction link_targets as [|[[pi rect] target_page] rest IH];
    intros doc Hidx; [simpl; eauto|].
  inversion Hidx as [|? ? Hpi Hrest]; subst. simpl in Hpi.
  cbn [Engine.add_toc_hyperlinks].
  destruct (lookup_lt_is_Some_2 _ _ Hpi) as [page0 ->].
  apply IH. simpl. rewrite length_insert. exact Hrest.
Qed.

End LinkFacts.

(** C9, as the spec has it, fails: at font size 8 the first entry line
    after the banner is drawn at y = 66, two font sizes below the top
    margin of 50, not one line spacing of 12 below it. *)
Lemma banner_one_line_spacing_counterexample :
  ~ (forall toc_doc link_targets,
        @TLF_Packager.generate_toc_pages half_em one_entry_toc 8 595 842 1
          457 535 20 8 60 = Ok (toc_doc, link_targets) ->
        first_entry_drawn_at (Engine.top_margin + Engine.y_spacing 8) 8 "a"
                             toc_doc link_targets)
  /\ ~ (forall toc_doc link_targets,
        @pack_pdfs_with_toc.generate_toc_pages half_em one_entry_toc 8 595
          842 1 457 535 20 8 60 true = Ok (toc_doc, link_targets) ->
        first_entry_drawn_at (Engine.top_margin + Engine.y_spacing 8) 8 "a"
                             toc_doc link_targets).
Proof.
  split; intros Hclaim;
    destruct (Hclaim _ _ eq_refl)
      as (page & more_pages & banner & op & more_text & lt & more_targets
          & Hpages & Htext & _ & _ & _ & Hy & _);
    inversion Hpages; subst page; simpl in Htext;
    inversion Htext; subst op; vm_compute in Hy; discriminate.
Qed.

(** C9, amended: when the first TOC page renders the banner (always in
    TLF_Packager.py, with [include_toc_title] in pack_pdfs_with_toc.py),
    [generate_toc_pages] advances the cursor by [font_size * 2] before the
    first entry line: the banner is drawn at the top margin, the first
    line of the first entry at [top_margin + font_size * 2], and the link
    area of that entry starts one font size above that. *)
Theorem banner_advances_two_font_sizes {fitz : TextMeasurer}
        (level : Z) (title : string) (target_page : Z)
        (line : string) (lines : list string)
        (entries : TocPage) (rest : list TocPage)
        (font_size page_width page_height : Q) (toc_page_count : Z)
        (toc_text_max_width page_number_x page_number_width gap
         right_margin : Q)
        (toc_doc : Doc) (link_targets : list LinkTarget) :
  let paginated :=
    (((level, title, target_page), line :: lines) :: entries) :: rest in
  (TLF_Packager.generate_toc_pages
     paginated font_size page_width page_height toc_page_count
     toc_text_max_width page_number_x page_number_width gap right_margin
   = Ok (toc_doc, link_targets) ->
   first_entry_drawn_at (Engine.top_margin + font_size * 2) font_size line
                        toc_doc link_targets)
  /\ (pack_pdfs_with_toc.generate_toc_pages
        paginated font_size page_width page_height toc_page_count
        toc_text_max_width page_number_x page_number_width gap right_margin
        true
      = Ok (toc_doc, link_targets) ->
      first_entry_drawn_at (Engine.top_margin + font_size * 2) font_size line
                           toc_doc link_targets).
Proof.
  cbv zeta.
  assert (Hpack :
    pack_pdfs_with_toc.generate_toc_pages
      ((((level, title, target_page), line :: lines) :: entries) :: rest)
      font_size page_width page_height toc_page_count
      toc_text_max_width page_number_x page_number_width gap right_margin
      true
    = Ok (toc_doc, link_targets) ->
    first_entry_drawn_at (Engine.top_margin + font_size * 2) font_size line
                         toc_doc link_targets).
  { unfold pack_pdfs_with_toc.generate_toc_pages. intros Hrun.
    apply generate_loop_first in Hrun
      as (page & more_pages & more_text & y1 & more_targets & Hp & Ht & Hl).
    unfold first_entry_drawn_at.
    exists page, more_pages. eexists. eexists. exists more_text.
    eexists. exists more_targets.
    split; [exact Hp|]. split; [exact Ht|]. simpl.
    split; [reflexivity|]. split; [reflexivity|]. split; [reflexivity|].
    split; [reflexivity|]. split; [exact Hl|]. simpl. reflexivity. }
  split; [|exact Hpack].
  unfold TLF_Packager.generate_toc_pages. rewrite TLF_generate_loop_eq.
  exact Hpack.
Qed.

Lemma banner_advances_two_font_sizes_witness :
  exists toc_doc link_targets,
    @TLF_Packager.generate_toc_pages half_em one_entry_toc 8 595 842 1
      457 535 20 8 60 = Ok (toc_doc, link_targets)
    /\ first_entry_drawn_at (Engine.top_margin + 8 * 2) 8 "a"
                            toc_doc link_targets.
Proof.
  destruct (@TLF_Packager.generate_toc_pages half_em one_entry_toc 8 595 842
              1 457 535 20 8 60) as [[toc_doc link_targets]|e] eqn:Hrun;
    [|vm_compute in Hrun; discriminate].
  exists toc_doc, link_targets. split; [reflexivity|].
  exact (proj1 (@banner_advances_two_font_sizes half_em 1 "a" 0 "a" [] [] []
                  8 595 842 1 457 535 20 8 60 toc_doc link_targets) Hrun).
Defined.

Section EmptyTitleFacts.
Context {fitz : TextMeasurer}.

(** A title without words wraps to no line. *)
Lemma TLF_wrap_no_words title font_size max_width :
  PyStr.split title = [] ->
  TLF_Packager.wrap_toc_title title font_size max_width = [].
Proof.
  intros Hsplit. unfold TLF_Packager.wrap_toc_title. rewrite Hsplit.
  reflexivity.
Qed.

Lemma links_of_In T page_index rect target_page link_targets :
  In (page_index, rect, target_page) link_targets ->
  In (mkLink rect (T + target_page)) (links_of T page_index link_targets).
Proof.
  induction link_targets as [|[[i r] t] rest IH]; intros Hin; [destruct Hin|].
  rewrite links_of_cons. destruct Hin as [Heq|Hin].
  - inversion Heq; subst. rewrite Nat.eqb_refl. left. reflexivity.
  - destruct (i =? page_index)%nat; [right|]; apply IH, Hin.
Qed.

Lemma links_of_none T page_index link_targets :
  Forall (fun lt : LinkTarget => fst (fst lt) <> page_index) link_targets ->
  links_of T page_index link_targets = [].
Proof.
  induction 1 as [|[[i r] t] rest Hne _ IH]; [reflexivity|].
  rewrite links_of_cons. simpl in Hne.
  destruct (Nat.eqb_spec i page_index); [contradiction|exact IH].
Qed.

(** Where [add_toc_hyperlinks] returns, every target was on a page of the
    document. *)
Lemma add_toc_hyperlinks_index T link_targets : forall doc doc',
  Engine.add_toc_hyperlinks doc link_targets T = Ok doc' ->
  Forall (fun lt : LinkTarget =>
            (fst (fst lt) < length (doc_pages doc))%nat) link_targets.
Proof.
  induction link_targets as [|[[pi rect] target_page] rest IH];
    intros doc doc' Hrun; [constructor|].
  cbn [Engine.add_toc_hyperlinks] in Hrun.
  destruct (doc_pages doc !! pi) as [page0|] eqn:Hpi; [|discriminate].
  constructor; [simpl; eapply lookup_lt_Some, Hpi|].
  apply IH in Hrun. simpl in Hrun. rewrite length_insert in Hrun. exact Hrun.
Qed.

(** Every recorded link target becomes a link on its page. *)
Lemma add_toc_hyperlinks_inserts T link_targets doc doc'
      page_index rect target_page :
  Engine.add_toc_hyperlinks doc link_targets T = Ok doc' ->
  In (page_index, rect, target_page) link_targets ->
  exists page,
    doc_pages doc' !! page_index = Some page
    /\ In (mkLink rect (T + target_page)) (page_links page).
Proof.
  intros Hrun Hin.
  pose proof (add_toc_hyperlinks_index _ _ _ _ Hrun) as Hidx.
  eapply List.Forall_forall in Hidx; [|exact Hin]. simpl in Hidx.
  destruct (lookup_lt_is_Some_2 _ _ Hidx) as [page0 Hpage0].
  apply add_toc_hyperlinks_spec in Hrun as (_ & _ & Hat).
  eexists. split; [apply Hat, Hpage0|].
  simpl. apply in_or_app. right. apply links_of_In, Hin.
Qed.

End EmptyTitleFacts.



(** The same on a whole run of TLF_Packager.py: a body whose only bookmark
    has an empty title gets a TOC page that shows the banner alone, and
    carries the link of the entry, 8 units high, to page 0 + 1. *)
Example empty_title_pipeline :
  exists final toc_page,
    @TLF_Packager.build_final half_em untitled_body 8 = Ok (final, 1)
    /\ doc_pages final !! 0%nat = Some toc_page
    /\ map text (page_text toc_page) = ["Table of Contents"%string]
    /\ page_links toc_page = [mkLink (mkRect 50 58 535 66) 1].
Proof.
  destruct (@TLF_Packager.build_final half_em untitled_body 8)
    as [[final T]|e] eqn:Hrun; vm_compute in Hrun; [|discriminate].
  inversion Hrun; subst final T; clear Hrun.
  eexists. eexists. split; [reflexivity|].
  split; [reflexivity|]. split; reflexivity.
Qed.

(** * The coordinator *)

Section AssembleFacts.
Context {fitz : TextMeasurer}.
Import PyStr.

Lemma map_lookup_Some {A B : Type} (f : A -> B) (l : list A) (i : nat) (a : A) :
  l !! i = Some a -> map f l !! i = Some (f a).
Proof.
  revert i. induction l as [|x l IH]; intros [|i] Hi; try discriminate.
  - inversion Hi; reflexivity.
  - simpl. apply IH, Hi.
Qed.

Lemma filter_all {A : Type} (l : list A) :
  List.filter (fun _ => 3 <=? 3) l = l.
Proof. induction l as [|x l IH]; simpl; [|rewrite IH]; reflexivity. Qed.

Lemma shift_bookmark_pages_eq bookmarks offset :
  Engine.shift_bookmark_pages bookmarks offset
  = map (fun '(lvl, title, page) => (lvl, title, page + offset)) bookmarks.
Proof. unfold Engine.shift_bookmark_pages. rewrite filter_all. reflexivity. Qed.

(** The targets that the paginator hands on are the bookmark pages. *)
Lemma placed_targets wrap font_size width base :
  map (fun entry : TocEntry * list string => snd (fst entry))
      (map (placed wrap font_size width) (Engine.extract_toc_entries base))
  = map bookmark_page0 (doc_toc base).
Proof.
  unfold Engine.extract_toc_entries, Fitz.get_toc.
  induction (doc_toc base) as [|[[lvl title] page] toc IH]; [reflexivity|].
  simpl. rewrite IH. reflexivity.
Qed.

Variables font_size page_width page_height page_number_x gap : Q.

(** Lines 554-577 of TLF_Packager.py, 174-197 of pack_pdfs_with_toc.py,
    once the TOC is paginated: the pages are generated, put before the
    body, linked, and the bookmarks shifted. *)
Lemma assemble_rebased include_toc_title paginated (base : Doc) :
  ~ (get_text_length "." font_size == 0)%Q ->
  map (fun entry : TocEntry * list string => snd (fst entry))
      (concat paginated)
  = map bookmark_page0 (doc_toc base) ->
  exists toc_doc link_targets linked,
    pack_pdfs_with_toc.generate_loop font_size page_width page_height
      (len paginated) page_number_x gap include_toc_title 0%nat paginated
      Fitz.new [] = Ok (toc_doc, link_targets)
    /\ Engine.add_toc_hyperlinks
         (Fitz.insert_pdf (Fitz.insert_pdf Fitz.new toc_doc) base)
         link_targets (len paginated) = Ok linked
    /\ rebased (len paginated) base
         (Engine.add_existing_bookmarks linked (Fitz.get_toc base)
                                        (len paginated))
         link_targets.
Proof.
  intros Hdot Htargets.
  destruct (generate_loop_ok font_size page_width page_height
              (len paginated) page_number_x gap include_toc_title paginated
              0%nat Fitz.new [] Hdot) as [[toc_doc lts] Hgen].
  pose proof (generate_loop_shape _ _ _ _ _ _ _ _ _ _ _ _ _ Hgen)
    as (_ & pages & new & Hpages & Hlen & Hnolinks & Hnew & Hidx & Ht).
  simpl in Hpages, Hnew, Hidx. subst lts.
  set (pre := Fitz.insert_pdf (Fitz.insert_pdf Fitz.new toc_doc) base).
  assert (Hpre : doc_pages pre = pages ++ doc_pages base).
  { unfold pre. simpl. rewrite Hpages. reflexivity. }
  assert (Hidx' : Forall (fun lt : LinkTarget =>
                            (fst (fst lt) < length pages)%nat) new).
  { eapply Forall_impl; [exact Hidx|]. intros lt Hlt. simpl in Hlt. lia. }
  destruct (add_toc_hyperlinks_ok (len paginated) new pre) as [linked Hlinked].
  { rewrite Hpre, length_app. eapply Forall_impl; [exact Hidx'|].
    intros lt Hlt. simpl in Hlt. lia. }
  exists toc_doc, new, linked. split; [exact Hgen|]. split; [exact Hlinked|].
  pose proof (add_toc_hyperlinks_spec _ _ _ _ Hlinked) as (_ & Hlen' & Hat).
  assert (HT : Z.to_nat (len paginated) = length pages).
  { unfold len. rewrite Nat2Z.id. symmetry. exact Hlen. }
  unfold rebased, Engine.add_existing_bookmarks, Fitz.set_toc, Fitz.get_toc.
  cbn [doc_toc doc_pages]. rewrite shift_bookmark_pages_eq, HT.
  split; [apply length_map|].
  split; [|split; [|split; [|split]]].
  - intros i [[lvl title] page] Hi.
    eexists. split; [apply map_lookup_Some, Hi|].
    split; [reflexivity|]. unfold bookmark_page0. simpl. lia.
  - intros i page Hlt Hi.
    destruct (lookup_lt_is_Some_2 pages i Hlt) as [page0 Hpage0].
    rewrite (Hat i page0) in Hi
      by (rewrite Hpre, lookup_app_l by assumption; exact Hpage0).
    inversion Hi; subst page. simpl.
    apply list_elem_of_lookup_2, list_elem_of_In in Hpage0.
    eapply List.Forall_forall in Hnolinks; [|exact Hpage0].
    rewrite Hnolinks. reflexivity.
  - intros page_index rect target_page Hin.
    eapply add_toc_hyperlinks_inserts; eassumption.
  - intros i page Hi.
    rewrite (Hat (length pages + i)%nat page).
    + rewrite links_of_none, app_nil_r; [destruct page; reflexivity|].
      eapply Forall_impl; [exact Hidx'|]. intros lt Hlt. simpl in Hlt. lia.
    + rewrite Hpre, lookup_app_r by lia.
      replace (length pages + i - length pages)%nat with i by lia. exact Hi.
  - rewrite Ht. exact Htargets.
Qed.

End AssembleFacts.

Section BuildFacts.
Context {fitz : TextMeasurer}.
Import PyStr.

(** [build_final] with its geometry worked out. *)
Lemma TLF_build_final_unfold base font_size :
  TLF_Packager.build_final base font_size
  = (paginated ←
       TLF_Packager.paginate_wrapped_entries
         (Engine.extract_toc_entries base) font_size (toc_width font_size) 842;
     '(toc_doc, link_targets) ←
       TLF_Packager.generate_toc_pages
         paginated font_size 595 842 (len paginated) (toc_width font_size)
         (595 - 60) (get_text_length (str 99999) font_size) 8 60;
     linked ←
       Engine.add_toc_hyperlinks
         (Fitz.insert_pdf (Fitz.insert_pdf Fitz.new toc_doc) base)
         link_targets (len paginated);
     Ok (Engine.add_existing_bookmarks linked (Fitz.get_toc base)
                                       (len paginated),
         len paginated)).
Proof. reflexivity. Qed.

Lemma pack_pdfs_build_final_unfold base font_size include_toc_title :
  pack_pdfs_with_toc.build_final base font_size include_toc_title
  = (paginated ←
       pack_pdfs_with_toc.paginate_wrapped_entries
         (Engine.extract_toc_entries base) font_size (toc_width font_size) 842
         include_toc_title;
     '(toc_doc, link_targets) ←
       pack_pdfs_with_toc.generate_toc_pages
         paginated font_size 595 842 (len paginated) (toc_width font_size)
         (595 - 60) (get_text_length (str 99999) font_size) 8 60
         include_toc_title;
     linked ←
       Engine.add_toc_hyperlinks
         (Fitz.insert_pdf (Fitz.insert_pdf Fitz.new toc_doc) base)
         link_targets (len paginated);
     Ok (Engine.add_existing_bookmarks linked (Fitz.get_toc base)
                                       (len paginated),
         len paginated)).
Proof. reflexivity. Qed.

Lemma TLF_build_final_rebased base font_size :
  ~ (font_size * 1.5 == 0)%Q ->
  ~ (get_text_length "." font_size == 0)%Q ->
  exists final T paginated toc_doc link_targets,
    TLF_Packager.build_final base font_size = Ok (final, T)
    /\ TLF_Packager.paginate_wrapped_entries
         (Engine.extract_toc_entries base) font_size (toc_width font_size) 842
       = Ok paginated
    /\ T = len paginated
    /\ TLF_Packager.generate_toc_pages
         paginated font_size 595 842 T (toc_width font_size)
         (595 - 60) (get_text_length (str 99999) font_size) 8 60
       = Ok (toc_doc, link_targets)
    /\ rebased T base final link_targets.
Proof.
  intros Hfs Hdot.
  assert (Hpag :
    TLF_Packager.paginate_wrapped_entries
      (Engine.extract_toc_entries base) font_size (toc_width font_size) 842
    = Ok (Engine.paginate_with_budget TLF_Packager.wrap_toc_title font_size
            (toc_width font_size)
            (Qfloor ((842 - 100) / (font_size * 1.5)) - 2)
            (Engine.extract_toc_entries base))).
  { unfold TLF_Packager.paginate_wrapped_entries.
    rewrite floordiv_nonzero by assumption. reflexivity. }
  set (paginated := Engine.paginate_with_budget _ _ _ _ _) in Hpag.
  destruct (assemble_rebased font_size 595 842 (595 - 60) 8 true paginated
              base Hdot) as (toc_doc & lts & linked & Hgen & Hlinked & Hreb).
  { unfold paginated. rewrite paginate_with_budget_concat.
    apply placed_targets. }
  assert (Hgen' :
    TLF_Packager.generate_toc_pages
      paginated font_size 595 842 (len paginated) (toc_width font_size)
      (595 - 60) (get_text_length (str 99999) font_size) 8 60
    = Ok (toc_doc, lts)).
  { unfold TLF_Packager.generate_toc_pages. rewrite TLF_generate_loop_eq.
    exact Hgen. }
  eexists. exists (len paginated), paginated, toc_doc, lts.
  split; [|split; [exact Hpag|split; [reflexivity|split; [exact Hgen'|exact Hreb]]]].
  rewrite TLF_build_final_unfold, Hpag. cbn [mbind result_bind].
  rewrite Hgen'. cbn [mbind result_bind].
  match goal with
  | |- ?m ≫= _ = _ => replace m with (Ok linked) by (symmetry; exact Hlinked)
  end.
  reflexivity.
Qed.

Lemma pack_pdfs_build_final_rebased base font_size include_toc_title :
  ~ (font_size * 1.5 == 0)%Q ->
  ~ (get_text_length "." font_size == 0)%Q ->
  exists final T paginated toc_doc link_targets,
    pack_pdfs_with_toc.build_final base font_size include_toc_title
    = Ok (final, T)
    /\ pack_pdfs_with_toc.paginate_wrapped_entries
         (Engine.extract_toc_entries base) font_size (toc_width font_size) 842
         include_toc_title
       = Ok paginated
    /\ T = len paginated
    /\ pack_pdfs_with_toc.generate_toc_pages
         paginated font_size 595 842 T (toc_width font_size)
         (595 - 60) (get_text_length (str 99999) font_size) 8 60
         include_toc_title
       = Ok (toc_doc, link_targets)
    /\ rebased T base final link_targets.
Proof.
  intros Hfs Hdot.
  assert (Hpag :
    pack_pdfs_with_toc.paginate_wrapped_entries
      (Engine.extract_toc_entries base) font_size (toc_width font_size) 842
      include_toc_title
    = Ok (Engine.paginate_with_budget pack_pdfs_with_toc.wrap_toc_title
            font_size (toc_width font_size)
            (if include_toc_title
             then Qfloor ((842 - 100) / (font_size * 1.5)) - 2
             else Qfloor ((842 - 100) / (font_size * 1.5)))
            (Engine.extract_toc_entries base))).
  { unfold pack_pdfs_with_toc.paginate_wrapped_entries.
    rewrite floordiv_nonzero by assumption. reflexivity. }
  set (paginated := Engine.paginate_with_budget _ _ _ _ _) in Hpag.
  destruct (assemble_rebased font_size 595 842 (595 - 60) 8 include_toc_title
              paginated base Hdot)
    as (toc_doc & lts & linked & Hgen & Hlinked & Hreb).
  { unfold paginated. rewrite paginate_with_budget_concat.
    apply placed_targets. }
  assert (Hgen' :
    pack_pdfs_with_toc.generate_toc_pages
      paginated font_size 595 842 (len paginated) (toc_width font_size)
      (595 - 60) (get_text_length (str 99999) font_size) 8 60
      include_toc_title
    = Ok (toc_doc, lts)) by exact Hgen.
  eexists. exists (len paginated), paginated, toc_doc, lts.
  split; [|split; [exact Hpag|split; [reflexivity|split; [exact Hgen'|exact Hreb]]]].
  rewrite pack_pdfs_build_final_unfold, Hpag. cbn [mbind result_bind].
  rewrite Hgen'. cbn [mbind result_bind].
  match goal with
  | |- ?m ≫= _ = _ => replace m with (Ok linked) by (symmetry; exact Hlinked)
  end.
  reflexivity.
Qed.

(** What [add_toc_and_links] leaves on disk at [final_pdf]. *)
Lemma TLF_add_toc_and_links_writes base font_size final T w
      bookmarked_pdf final_pdf :
  TLF_Packager.build_final base font_size = Ok (final, T) ->
  Fitz.open w bookmarked_pdf = Ok base ->
  bookmarked_pdf <> final_pdf ->
  exists w',
    TLF_Packager.add_toc_and_links bookmarked_pdf final_pdf font_size w
    = (w', Ok tt)
    /\ files w' !! final_pdf = Some final.
Proof.
  intros Hbuild Hopen Hne. unfold TLF_Packager.add_toc_and_links.
  rewrite Hopen, Hbuild. eexists. split; [reflexivity|]. simpl.
  rewrite lookup_delete_ne by assumption. apply lookup_insert_eq.
Qed.

Lemma pack_pdfs_add_toc_and_links_writes base font_size include_toc_title
      final T w bookmarked_pdf final_pdf :
  pack_pdfs_with_toc.build_final base font_size include_toc_title
  = Ok (final, T) ->
  Fitz.open w bookmarked_pdf = Ok base ->
  bookmarked_pdf <> final_pdf ->
  exists w',
    pack_pdfs_with_toc.add_toc_and_links bookmarked_pdf final_pdf font_size
                                         include_toc_title w
    = (w', Ok tt)
    /\ files w' !! final_pdf = Some final.
Proof.
  intros Hbuild Hopen Hne. unfold pack_pdfs_with_toc.add_toc_and_links.
  rewrite Hopen, Hbuild. eexists. split; [reflexivity|].
  destruct (_ && _); simpl.
  - rewrite lookup_delete_ne by assumption. apply lookup_insert_eq.
  - apply lookup_insert_eq.
Qed.

End BuildFacts.

(** C1: for every merged body [base], with [T] the number of pages that
    [paginate_wrapped_entries] returns, the document that
    [add_toc_and_links] (of TLF_Packager.py and of pack_pdfs_with_toc.py)
    writes gives every bookmark of [base] the page, counted from 0, [T]
    plus its page in [base]; every link on its TOC pages comes from a
    recorded link target and jumps to [T] plus the target page recorded
    there, and every recorded target has its link.  (The font size is not
    0 and the dot has a width, so that the run does not divide by zero.) *)
Theorem rebasing_correct {fitz : TextMeasurer}
        (base : Doc) (font_size : Q) (include_toc_title : bool) :
  ~ (font_size * 1.5 == 0)%Q ->
  ~ (get_text_length "." font_size == 0)%Q ->
  (exists final T paginated toc_doc link_targets,
      TLF_Packager.build_final base font_size = Ok (final, T)
      /\ TLF_Packager.paginate_wrapped_entries
           (Engine.extract_toc_entries base) font_size (toc_width font_size)
           842 = Ok paginated
      /\ T = PyStr.len paginated
      /\ TLF_Packager.generate_toc_pages
           paginated font_size 595 842 T (toc_width font_size)
           (595 - 60) (get_text_length (PyStr.str 99999) font_size) 8 60
         = Ok (toc_doc, link_targets)
      /\ rebased T base final link_targets
      /\ forall w bookmarked_pdf final_pdf,
           Fitz.open w bookmarked_pdf = Ok base ->
           bookmarked_pdf <> final_pdf ->
           exists w',
             TLF_Packager.add_toc_and_links bookmarked_pdf final_pdf
                                            font_size w = (w', Ok tt)
             /\ files w' !! final_pdf = Some final)
  /\ (exists final T paginated toc_doc link_targets,
         pack_pdfs_with_toc.build_final base font_size include_toc_title
         = Ok (final, T)
         /\ pack_pdfs_with_toc.paginate_wrapped_entries
              (Engine.extract_toc_entries base) font_size
              (toc_width font_size) 842 include_toc_title = Ok paginated
         /\ T = PyStr.len paginated
         /\ pack_pdfs_with_toc.generate_toc_pages
              paginated font_size 595 842 T (toc_width font_size)
              (595 - 60) (get_text_length (PyStr.str 99999) font_size) 8 60
              include_toc_title
            = Ok (toc_doc, link_targets)
         /\ rebased T base final link_targets
         /\ forall w bookmarked_pdf final_pdf,
              Fitz.open w bookmarked_pdf = Ok base ->
              bookmarked_pdf <> final_pdf ->
              exists w',
                pack_pdfs_with_toc.add_toc_and_links
                  bookmarked_pdf final_pdf font_size include_toc_title w
                = (w', Ok tt)
                /\ files w' !! final_pdf = Some final).
Proof.
  intros Hfs Hdot. split.
  - destruct (TLF_build_final_rebased base font_size Hfs Hdot)
      as (final & T & paginated & toc_doc & lts & Hb & Hp & HT & Hg & Hr).
    exists final, T, paginated, toc_doc, lts.
    repeat (split; [assumption|]).
    intros w bookmarked_pdf final_pdf.
    eapply TLF_add_toc_and_links_writes, Hb.
  - destruct (pack_pdfs_build_final_rebased base font_size include_toc_title
                Hfs Hdot)
      as (final & T & paginated & toc_doc & lts & Hb & Hp & HT & Hg & Hr).
    exists final, T, paginated, toc_doc, lts.
    repeat (split; [assumption|]).
    intros w bookmarked_pdf final_pdf.
    eapply pack_pdfs_add_toc_and_links_writes, Hb.
Qed.

Lemma rebasing_correct_witness :
  (exists final T link_targets,
      @TLF_Packager.build_final half_em three_body 8 = Ok (final, T)
      /\ rebased T three_body final link_targets)
  /\ (exists final T link_targets,
         @pack_pdfs_with_toc.build_final half_em three_body 8 false
         = Ok (final, T)
         /\ rebased T three_body final link_targets).
Proof.
  assert (H1 : ~ (8 * 1.5 == 0)%Q) by (intros H; vm_compute in H; discriminate).
  assert (H2 : ~ (@get_text_length half_em "." 8 == 0)%Q)
    by (intros H; vm_compute in H; discriminate).
  destruct (@rebasing_correct half_em three_body 8 false H1 H2) as [HT HP].
  split.
  - destruct HT as (final & T & _ & _ & lts & Hb & _ & _ & _ & Hr & _).
    exists final, T, lts. split; assumption.
  - destruct HP as (final & T & _ & _ & lts & Hb & _ & _ & _ & Hr & _).
    exists final, T, lts. split; assumption.
Defined.

(** Scenario C of the spec on a run: with a TOC of one page, the link of
    the bookmark at body page 0 jumps to page 1 of the final document, and
    the bookmarks of the three fragments move from pages 1, 3, 8 to 2, 4,
    9 (counted from 1). *)
Example rebasing_three_fragments :
  exists final toc_page,
    @TLF_Packager.build_final half_em three_body 8 = Ok (final, 1)
    /\ doc_toc final
       = [(1, "Table 1", 2); (1, "Listing 2", 4); (1, "Figure 1", 9)]%string
    /\ doc_pages final !! 0%nat = Some toc_page
    /\ map link_page (page_links toc_page) = [1; 3; 8]
    /\ length (doc_pages final) = 9%nat.
Proof.
  destruct (@TLF_Packager.build_final half_em three_body 8)
    as [[final T]|e] eqn:Hrun; vm_compute in Hrun; [|discriminate].
  inversion Hrun; subst final T; clear Hrun.
  eexists. eexists. split; [reflexivity|].
  split; [reflexivity|]. split; [reflexivity|]. split; reflexivity.
Qed.

(** The empty TOC page of C3 on a whole run of TLF_Packager.py, with the
    geometry of [add_toc_and_links] (A4, font size 8, a budget of 59
    lines): a single bookmark whose title wraps to sixty lines gives a TOC
    of two pages, the first of which shows the banner alone and has no
    link. *)
Example empty_first_page_pipeline :
  exists final toc_page,
    @TLF_Packager.build_final half_em sixty_word_body 8 = Ok (final, 2)
    /\ doc_pages final !! 0%nat = Some toc_page
    /\ map text (page_text toc_page) = ["Table of Contents"%string]
    /\ page_links toc_page = []
    /\ length (doc_pages final) = 3%nat.
Proof.
  destruct (@TLF_Packager.build_final half_em sixty_word_body 8)
    as [[final T]|e] eqn:Hrun; vm_compute in Hrun; [|discriminate].
  inversion Hrun; subst final T; clear Hrun.
  eexists. eexists. split; [reflexivity|].
  split; [reflexivity|]. split; [reflexivity|]. split; reflexivity.
Qed.

(** * More on the title wrapper *)

Section WrapWords.
Context {fitz : TextMeasurer}.
Import PyStr.
Variables font_size max_width : Q.

Lemma has_nonspace_lstrip s : has_nonspace (lstrip s) = has_nonspace s.
Proof.
  induction s as [|c s IH]; [reflexivity|]. simpl.
  destruct (isspace c) eqn:Hc; simpl; [exact IH|rewrite Hc; reflexivity].
Qed.

Lemma has_nonspace_rev_app s : forall t,
  has_nonspace (String.rev_app s t) = has_nonspace s || has_nonspace t.
Proof.
  induction s as [|c s IH]; intros t; simpl; [reflexivity|].
  rewrite IH. simpl. destruct (isspace c), (has_nonspace s); reflexivity.
Qed.

Lemma has_nonspace_strip s : has_nonspace (strip s) = has_nonspace s.
Proof.
  unfold strip, rstrip, String.rev.
  rewrite has_nonspace_rev_app, has_nonspace_lstrip, has_nonspace_rev_app,
    has_nonspace_lstrip.
  simpl. rewrite !orb_false_r. reflexivity.
Qed.

Lemma has_nonspace_truthy s : has_nonspace s = true -> truthy s = true.
Proof. destruct s; [discriminate|reflexivity]. Qed.

Lemma split_all_space s :
  has_nonspace s = false -> split_from "" s = [].
Proof.
  induction s as [|c s IH]; [reflexivity|]. simpl.
  destruct (isspace c); simpl; [exact IH|discriminate].
Qed.

(** A line with a word is kept by the final filter of the wrapper. *)
Lemma word_line_kept line :
  (1 <= word_count line)%nat -> truthy (strip line) = true.
Proof.
  intros Hw. apply has_nonspace_truthy. rewrite has_nonspace_strip.
  destruct (has_nonspace line) eqn:Hn; [reflexivity|].
  unfold word_count, split in Hw. rewrite (split_all_space _ Hn) in Hw.
  simpl in Hw. lia.
Qed.

Lemma filter_kept lines :
  Forall (fun line => (1 <= word_count line)%nat) lines ->
  List.filter (fun line => truthy (strip line)) lines = lines.
Proof.
  induction 1 as [|line lines Hline _ IH]; [reflexivity|].
  simpl. rewrite (word_line_kept _ Hline), IH. reflexivity.
Qed.

Lemma word_count_word word : is_word word -> word_count word = 1%nat.
Proof. intros Hw. unfold word_count. rewrite split_word by assumption. reflexivity. Qed.

Lemma word_count_snoc s word :
  is_word word -> word_count (s +:+ " " +:+ word) = S (word_count s).
Proof.
  intros Hw. unfold word_count. rewrite split_snoc by assumption.
  rewrite length_app. simpl. lia.
Qed.

Lemma carries_flush lines current_line read :
  carries lines current_line read ->
  carries_words read
    (if truthy current_line then lines ++ [current_line] else lines).
Proof.
  intros (Hw & Hl & Hc). unfold carries_words.
  destruct (truthy current_line) eqn:Ht.
  - split.
    + rewrite map_app, concat_app. simpl. rewrite app_nil_r. exact Hw.
    + apply Forall_app. split; [exact Hl|]. constructor; [auto|constructor].
  - destruct current_line; [|discriminate]. simpl in Hw.
    rewrite app_nil_r in Hw. split; assumption.
Qed.

Lemma carries_take lines current_line read word :
  is_word word -> truthy current_line = true ->
  carries lines current_line read ->
  carries lines (current_line +:+ " " +:+ word) (read ++ [word]).
Proof.
  intros Hword Ht (Hw & Hl & Hc). split; [|split; [exact Hl|]].
  - rewrite split_snoc by assumption. rewrite app_assoc, Hw. reflexivity.
  - intros _. rewrite word_count_snoc by assumption. lia.
Qed.

Lemma carries_start lines read word :
  is_word word ->
  carries lines "" read -> carries lines word (read ++ [word]).
Proof.
  intros Hword (Hw & Hl & _). split; [|split; [exact Hl|]].
  - rewrite split_word by assumption. simpl in Hw.
    rewrite app_nil_r in Hw. rewrite Hw. reflexivity.
  - intros _. rewrite word_count_word by assumption. lia.
Qed.

Lemma carries_break lines current_line read word :
  is_word word -> truthy current_line = true ->
  carries lines current_line read ->
  carries (lines ++ [current_line]) word (read ++ [word]).
Proof.
  intros Hword Ht (Hw & Hl & Hc). split; [|split].
  - rewrite map_app, concat_app. simpl. rewrite app_nil_r.
    rewrite (split_word word) by assumption. rewrite Hw. reflexivity.
  - apply Forall_app. split; [exact Hl|]. constructor; [auto|constructor].
  - intros _. rewrite word_count_word by assumption. lia.
Qed.

Lemma TLF_wrap_loop_carries words :
  Forall is_word words -> forall lines current_line read lines' current_line',
  carries lines current_line read ->
  TLF_Packager.wrap_loop font_size max_width words lines current_line
    = (lines', current_line') ->
  carries lines' current_line' (read ++ words).
Proof.
  induction 1 as [|word words Hword _ IH];
    intros lines cur read lines' cur' Hc Hrun; simpl in Hrun.
  - inversion Hrun; subst. rewrite app_nil_r. exact Hc.
  - replace (read ++ word :: words) with ((read ++ [word]) ++ words)
      by (rewrite <- app_assoc; reflexivity).
    destruct (truthy cur) eqn:Ht.
    + destruct (Qle_bool _ max_width); eapply IH; try exact Hrun.
      * apply carries_take; assumption.
      * apply carries_break; assumption.
    + destruct cur; [|discriminate]. rewrite !app_empty_l in Hrun.
      destruct (Qle_bool _ max_width); eapply IH; try exact Hrun;
        apply carries_start; assumption.
Qed.

Lemma pack_pdfs_wrap_loop_carries words :
  Forall is_word words -> forall lines current_line read lines' current_line',
  carries lines current_line read ->
  pack_pdfs_with_toc.wrap_loop font_size max_width words lines current_line
    = (lines', current_line') ->
  carries lines' current_line' (read ++ words).
Proof.
  induction 1 as [|word words Hword _ IH];
    intros lines cur read lines' cur' Hc Hrun; simpl in Hrun.
  - inversion Hrun; subst. rewrite app_nil_r. exact Hc.
  - replace (read ++ word :: words) with ((read ++ [word]) ++ words)
      by (rewrite <- app_assoc; reflexivity).
    rewrite truthy_eqb in Hrun.
    destruct (truthy cur) eqn:Ht; simpl in Hrun.
    + destruct (_ || _); eapply IH; try exact Hrun.
      * apply carries_take; assumption.
      * apply carries_break; assumption.
    + destruct cur; [|discriminate].
      eapply IH; [|exact Hrun]. apply carries_start; assumption.
Qed.

Lemma carries_nothing : carries [] "" [].
Proof. split; [reflexivity|]. split; [constructor|discriminate]. Qed.

Lemma TLF_wrap_keeps_words title :
  keeps_words title (TLF_Packager.wrap_toc_title title font_size max_width).
Proof.
  unfold TLF_Packager.wrap_toc_title, keeps_words.
  destruct (TLF_Packager.wrap_loop _ _ _ _ _) as [lines cur] eqn:Hrun.
  eapply TLF_wrap_loop_carries in Hrun;
    [|apply split_words|apply carries_nothing].
  apply carries_flush in Hrun. simpl in Hrun.
  rewrite filter_kept by apply Hrun. exact Hrun.
Qed.

Lemma pack_pdfs_wrap_keeps_words title :
  keeps_words title
    (pack_pdfs_with_toc.wrap_toc_title title font_size max_width).
Proof.
  unfold pack_pdfs_with_toc.wrap_toc_title, keeps_words.
  destruct (pack_pdfs_with_toc.wrap_loop _ _ _ _ _) as [lines cur] eqn:Hrun.
  eapply pack_pdfs_wrap_loop_carries in Hrun;
    [|apply split_words|apply carries_nothing].
  apply carries_flush in Hrun. simpl in Hrun.
  rewrite filter_kept by apply Hrun. exact Hrun.
Qed.

End WrapWords.

(** X1: [wrap_toc_title] of each of the three scripts loses no word and
    moves none: the words of the returned lines, read line by line, are the
    words of the title in their order, and every returned line has at
    least one word (so a title without words gives no line, and only such
    a title does). *)
Theorem wrap_toc_title_keeps_words {fitz : TextMeasurer}
        (title : string) (font_size max_width : Q) :
  keeps_words title (TLF_Packager.wrap_toc_title title font_size max_width)
  /\ keeps_words title
       (pack_pdfs_with_toc.wrap_toc_title title font_size max_width)
  /\ keeps_words title
       (pack_rtfs_with_toc.wrap_toc_title title font_size max_width)
  /\ (TLF_Packager.wrap_toc_title title font_size max_width = []
      <-> PyStr.split title = []).
Proof.
  split; [apply TLF_wrap_keeps_words|].
  split; [apply pack_pdfs_wrap_keeps_words|].
  split; [rewrite pack_wrap_same; apply pack_pdfs_wrap_keeps_words|].
  pose proof (TLF_wrap_keeps_words font_size max_width title) as [Hw Hl].
  split.
  - intros Hnil. rewrite Hnil in Hw. symmetry. exact Hw.
  - intros Hsplit. rewrite Hsplit in Hw.
    destruct (TLF_Packager.wrap_toc_title title font_size max_width)
      as [|line lines]; [reflexivity|].
    inversion Hl as [|? ? Hline _]; subst.
    simpl in Hw. unfold word_count in Hline.
    destruct (PyStr.split line); [simpl in Hline; lia|discriminate].
Qed.

Section WrapGreedy.
Context {fitz : TextMeasurer}.
Import PyStr.
Variables font_size max_width : Q.

Local Abbreviation greedy := (greedy font_size max_width).

Lemma greedy_one line : greedy [line].
Proof. intros i a b Ha Hb. destruct i; discriminate. Qed.

(** The line in progress may grow: its first word stays. *)
Lemma greedy_extend lines current_line longer word words words' :
  greedy (lines ++ [current_line]) ->
  split current_line = word :: words ->
  split longer = word :: words' ->
  greedy (lines ++ [longer]).
Proof.
  intros Hold Hcur Hlong i a b Ha Hb.
  destruct (decide (S i < length lines)%nat) as [Hlt|Hge].
  - rewrite lookup_app_l in Ha by lia. rewrite lookup_app_l in Hb by lia.
    apply (Hold i a b); rewrite lookup_app_l by lia; assumption.
  - pose proof (lookup_lt_Some _ _ _ Hb) as Hlen.
    rewrite length_app in Hlen. simpl in Hlen.
    assert (S i = length lines) as Heq by lia.
    rewrite lookup_app_l in Ha by lia.
    rewrite lookup_app_r, Heq, Nat.sub_diag in Hb by lia.
    simpl in Hb. inversion Hb; subst b.
    destruct (Hold i a current_line) as (w & ws & Hsplit & Hfull).
    + rewrite lookup_app_l by lia. exact Ha.
    + rewrite lookup_app_r, Heq, Nat.sub_diag by lia. reflexivity.
    + rewrite Hcur in Hsplit. inversion Hsplit; subst.
      exists w, words'. split; assumption.
Qed.

(** A line that could not take [word] is closed, and [word] starts the
    next one. *)
Lemma greedy_break lines current_line word :
  greedy (lines ++ [current_line]) ->
  is_word word ->
  Qle_bool (get_text_length (current_line +:+ " " +:+ word) font_size)
           max_width = false ->
  greedy ((lines ++ [current_line]) ++ [word]).
Proof.
  intros Hold Hword Hfull i a b Ha Hb.
  destruct (decide (S i < length (lines ++ [current_line]))%nat) as [Hlt|Hge].
  - rewrite lookup_app_l in Ha by lia. rewrite lookup_app_l in Hb by lia.
    apply (Hold i a b); assumption.
  - pose proof (lookup_lt_Some _ _ _ Hb) as Hlen.
    rewrite length_app in Hge. repeat rewrite length_app in Hlen.
    simpl in Hlen, Hge.
    assert (i = length lines) as -> by lia.
    rewrite lookup_app_l in Ha by (rewrite length_app; simpl; lia).
    rewrite lookup_app_r, Nat.sub_diag in Ha by lia.
    rewrite lookup_app_r in Hb by (rewrite length_app; simpl; lia).
    rewrite length_app in Hb. simpl in Hb.
    replace (S (length lines) - (length lines + 1))%nat with 0%nat in Hb
      by lia.
    simpl in Ha, Hb. inversion Ha; inversion Hb; subst.
    exists b, []. split; [apply split_word; assumption|exact Hfull].
Qed.

Lemma split_snoc_head s word first rest :
  is_word word -> split s = first :: rest ->
  split (s +:+ " " +:+ word) = first :: (rest ++ [word]).
Proof. intros Hw Hs. rewrite split_snoc by assumption. rewrite Hs. reflexivity. Qed.

(** TLF_Packager.py: between two turns, the flushed lines and the line in
    progress are greedy; before the first word there is no line. *)
Lemma TLF_wrap_loop_greedy words :
  Forall is_word words -> forall lines current_line lines' current_line',
  (current_line = ""%string /\ lines = []
   \/ greedy (lines ++ [current_line])
      /\ exists word rest, split current_line = word :: rest) ->
  TLF_Packager.wrap_loop font_size max_width words lines current_line
    = (lines', current_line') ->
  current_line' = ""%string /\ lines' = []
  \/ greedy (lines' ++ [current_line'])
     /\ exists word rest, split current_line' = word :: rest.
Proof.
  induction 1 as [|word words Hword _ IH];
    intros lines cur lines' cur' Hinv Hrun; simpl in Hrun.
  - inversion Hrun; subst. exact Hinv.
  - destruct Hinv as [[-> ->]|(Hg & w & ws & Hsplit)].
    + simpl in Hrun. rewrite !app_empty_l in Hrun.
      destruct (Qle_bool _ max_width); eapply IH; try exact Hrun;
        right; (split; [apply greedy_one|]);
        exists word, []; apply split_word; assumption.
    + assert (Ht : truthy cur = true).
      { destruct cur; [discriminate|reflexivity]. }
      rewrite Ht in Hrun.
      destruct (Qle_bool _ max_width) eqn:Hfit; eapply IH; try exact Hrun;
        right.
      * split; [|exists w, (ws ++ [word]); apply split_snoc_head; assumption].
        eapply greedy_extend; [exact Hg|exact Hsplit|].
        eapply split_snoc_head; eassumption.
      * split; [apply greedy_break; assumption|].
        exists word, []. apply split_word; assumption.
Qed.

(** The pack scripts: the same, and every flushed line has two words or
    more. *)
Lemma pack_pdfs_wrap_loop_greedy words :
  Forall is_word words -> forall lines current_line lines' current_line',
  Forall (fun line => (2 <= word_count line)%nat) lines ->
  (current_line = ""%string /\ lines = []
   \/ greedy (lines ++ [current_line])
      /\ exists word rest, split current_line = word :: rest) ->
  pack_pdfs_with_toc.wrap_loop font_size max_width words lines current_line
    = (lines', current_line') ->
  Forall (fun line => (2 <= word_count line)%nat) lines'
  /\ (current_line' = ""%string /\ lines' = []
      \/ greedy (lines' ++ [current_line'])
         /\ exists word rest, split current_line' = word :: rest).
Proof.
  induction 1 as [|word words Hword _ IH];
    intros lines cur lines' cur' Htwo Hinv Hrun; simpl in Hrun.
  - inversion Hrun; subst. split; assumption.
  - destruct Hinv as [[-> ->]|(Hg & w & ws & Hsplit)].
    + simpl in Hrun. eapply IH; [exact Htwo| |exact Hrun].
      right. split; [apply greedy_one|].
      exists word, []. apply split_word; assumption.
    + assert (Ht : truthy cur = true).
      { destruct cur; [discriminate|reflexivity]. }
      rewrite truthy_eqb, Ht in Hrun. simpl in Hrun.
      destruct (Qle_bool _ max_width) eqn:Hfit; simpl in Hrun.
      * eapply IH; [exact Htwo| |exact Hrun]. right.
        split; [|exists w, (ws ++ [word]); apply split_snoc_head; assumption].
        eapply greedy_extend; [exact Hg|exact Hsplit|].
        eapply split_snoc_head; eassumption.
      * destruct (length (split cur) =? 1)%nat eqn:Hone.
        -- eapply IH; [exact Htwo| |exact Hrun]. right.
           split; [|exists w, (ws ++ [word]); apply split_snoc_head; assumption].
           eapply greedy_extend; [exact Hg|exact Hsplit|].
           eapply split_snoc_head; eassumption.
        -- eapply IH; [| |exact Hrun].
           ++ apply Forall_app. split; [exact Htwo|].
              constructor; [|constructor].
              apply Nat.eqb_neq in Hone. unfold word_count.
              rewrite Hsplit in *. simpl in *. lia.
           ++ right. split; [apply greedy_break; assumption|].
              exists word, []. apply split_word; assumption.
Qed.

Lemma TLF_wrap_greedy title :
  greedy (TLF_Packager.wrap_toc_title title font_size max_width).
Proof.
  unfold TLF_Packager.wrap_toc_title.
  destruct (TLF_Packager.wrap_loop _ _ _ _ _) as [lines cur] eqn:Hrun.
  pose proof (TLF_wrap_loop_carries font_size max_width _ (split_words title)
                _ _ _ _ _ carries_nothing Hrun) as Hc.
  apply carries_flush in Hc. rewrite filter_kept by apply Hc.
  apply TLF_wrap_loop_greedy in Hrun;
    [|apply split_words|left; split; reflexivity].
  destruct Hrun as [[-> ->]|(Hg & w & ws & Hsplit)].
  - intros i a b Ha. destruct i; discriminate.
  - destruct cur; [discriminate|]. exact Hg.
Qed.

Lemma pack_pdfs_wrap_greedy title :
  let lines := pack_pdfs_with_toc.wrap_toc_title title font_size max_width in
  greedy lines
  /\ forall (i : nat) (line : string),
       lines !! i = Some line -> (S i < length lines)%nat ->
       (2 <= word_count line)%nat.
Proof.
  cbv zeta. unfold pack_pdfs_with_toc.wrap_toc_title.
  destruct (pack_pdfs_with_toc.wrap_loop _ _ _ _ _) as [lines cur] eqn:Hrun.
  pose proof (pack_pdfs_wrap_loop_carries font_size max_width _
                (split_words title) _ _ _ _ _ carries_nothing Hrun) as Hc.
  apply carries_flush in Hc. rewrite filter_kept by apply Hc.
  apply pack_pdfs_wrap_loop_greedy in Hrun as [Htwo Hinv];
    [|apply split_words|constructor|left; split; reflexivity].
  destruct Hinv as [[-> ->]|(Hg & w & ws & Hsplit)].
  - split; [intros i a b Ha; destruct i; discriminate|].
    intros i line Hi. destruct i; discriminate.
  - destruct cur as [|c cur]; [discriminate|]. cbn [truthy].
    split; [exact Hg|].
    intros i line Hi Hlt. rewrite length_app in Hlt. simpl in Hlt.
    rewrite lookup_app_l in Hi by lia.
    apply list_elem_of_lookup_2, list_elem_of_In in Hi.
    eapply List.Forall_forall in Htwo; [exact Htwo|exact Hi].
Qed.

End WrapGreedy.

(** X2: [wrap_toc_title] of TLF_Packager.py fills its lines greedily: of
    two lines that follow each other, the first, joined by one space to
    the first word of the second, measures more than [max_width]. *)
Theorem TLF_wrap_toc_title_greedy {fitz : TextMeasurer}
        (title : string) (font_size max_width : Q) :
  greedy font_size max_width
         (TLF_Packager.wrap_toc_title title font_size max_width).
Proof. apply TLF_wrap_greedy. Qed.

(** X3: [wrap_toc_title] of pack_pdfs_with_toc.py and of
    pack_rtfs_with_toc.py fills its lines greedily as well, and every line
    they return but the last has two words or more. *)
Theorem pack_wrap_toc_title_greedy {fitz : TextMeasurer}
        (title : string) (font_size max_width : Q) :
  (let lines :=
     pack_pdfs_with_toc.wrap_toc_title title font_size max_width in
   greedy font_size max_width lines
   /\ forall (i : nat) (line : string),
        lines !! i = Some line -> (S i < length lines)%nat ->
        (2 <= word_count line)%nat)
  /\ (let lines :=
        pack_rtfs_with_toc.wrap_toc_title title font_size max_width in
      greedy font_size max_width lines
      /\ forall (i : nat) (line : string),
           lines !! i = Some line -> (S i < length lines)%nat ->
           (2 <= word_count line)%nat).
Proof.
  split; [apply pack_pdfs_wrap_greedy|].
  rewrite pack_wrap_same. apply pack_pdfs_wrap_greedy.
Qed.

(** * More on the paginator *)

Section PaginateShape.
Context {fitz : TextMeasurer}.
Import PyStr.
Variable wrap : string -> Q -> Q -> list string.
Variables font_size toc_text_max_width : Q.
Variable lines_per_page : Z.

Local Abbreviation paginate :=
  (Engine.paginate_with_budget wrap font_size toc_text_max_width
                               lines_per_page).

(** The last page is the page in progress at the end, flushed only when
    it holds an entry. *)
Lemma paginate_last_nonempty entries : last (paginate entries) <> Some [].
Proof.
  unfold Engine.paginate_with_budget.
  destruct (Engine.paginate_loop _ _ _ _ entries [] [] 0)
    as [[pages current] n] eqn:Hrun.
  apply (paginate_loop_inv wrap font_size toc_text_max_width lines_per_page)
    in Hrun.
  - destruct Hrun as (_ & _ & Hne).
    destruct current as [|entry rest].
    + destruct pages; [discriminate|].
      exfalso. apply Hne; [discriminate|reflexivity].
    + rewrite last_snoc. discriminate.
  - split; [reflexivity|]. split; [|intros Hc; exfalso; apply Hc; reflexivity].
    intros i page Hi. destruct i as [|i]; [|destruct i; discriminate].
    simpl in Hi. inversion Hi; subst. split; [right; simpl; lia|].
    intros next Hn. discriminate.
Qed.

Lemma length_concat_nonempty {A : Type} (l : list (list A)) :
  Forall (fun x => x <> []) l -> (length l <= length (concat l))%nat.
Proof.
  induction 1 as [|x l Hx _ IH]; simpl; [lia|].
  rewrite length_app. destruct x; [contradiction|]. simpl. lia.
Qed.

Lemma paginate_only_first_page_empty entries :
  only_first_page_empty lines_per_page (length entries) (paginate entries).
Proof.
  pose proof (paginate_with_budget_paged wrap font_size toc_text_max_width
                lines_per_page entries) as Hpaged.
  pose proof (paginate_with_budget_concat wrap font_size toc_text_max_width
                lines_per_page entries) as Hconcat.
  pose proof (paginate_last_nonempty entries) as Hlast.
  set (pages := paginate entries) in *.
  assert (Htail : forall (i : nat) (page : TocPage),
             pages !! S i = Some page -> page <> []).
  { intros i page Hi.
    destruct (lookup_lt_is_Some_2 pages i) as [before Hbefore].
    { apply lookup_lt_Some in Hi. lia. }
    destruct (Hpaged i before Hbefore) as [_ Hnext].
    specialize (Hnext page Hi). intros ->. exact Hnext. }
  split; [exact Htail|]. split; [|split].
  - intros H0. destruct pages as [|first others] eqn:Hp; [discriminate|].
    simpl in H0. inversion H0; subst first.
    destruct others as [|next more]; [exfalso; apply Hlast; reflexivity|].
    destruct (Hpaged 0%nat [] eq_refl) as [_ Hnext].
    specialize (Hnext next eq_refl).
    destruct next as [|entry rest]; [contradiction|].
    exists entry, rest, more. split; [reflexivity|].
    simpl in Hnext. exact Hnext.
  - assert (Hlen : length (concat pages) = length entries).
    { rewrite Hconcat. apply length_map. }
    destruct pages as [|first others]; [simpl; lia|].
    assert (Hothers : Forall (fun x : TocPage => x <> []) others).
    { apply List.Forall_forall. intros page Hin.
      apply list_elem_of_In, list_elem_of_lookup_1 in Hin as [i Hi].
      apply (Htail i). exact Hi. }
    apply length_concat_nonempty in Hothers.
    change (concat (first :: others)) with (first ++ concat others) in Hlen.
    rewrite length_app in Hlen.
    assert (Hle : (length others <= length entries)%nat).
    { rewrite <- Hlen. etransitivity; [exact Hothers|apply Nat.le_add_l]. }
    simpl. lia.
  - split.
    + intros Hn. destruct entries; [reflexivity|discriminate].
    + intros Hp. rewrite Hp in Hconcat. simpl in Hconcat.
      destruct entries; [reflexivity|discriminate].
Qed.

End PaginateShape.

Lemma floordiv_Ok (a b : Q) (n : Z) :
  floordiv a b = Ok n -> ~ (b == 0)%Q /\ n = Qfloor (a / b).
Proof.
  unfold floordiv. destruct (Qeq_bool b 0) eqn:Hz; [discriminate|].
  intros H; inversion H; subst. split; [|reflexivity].
  intros Hb. apply Qeq_bool_iff in Hb. congruence.
Qed.



(** * The layout of the TOC pages *)

Lemma Qlt_bool_true (a b : Q) : Qlt_bool a b = true -> (a < b)%Q.
Proof.
  unfold Qlt_bool. intros H. apply negb_true_iff in H.
  apply Qnot_le_lt. intros Hle. apply Qle_bool_iff in Hle. congruence.
Qed.

Lemma Qlt_bool_false (a b : Q) : Qlt_bool a b = false -> (b <= a)%Q.
Proof.
  unfold Qlt_bool. intros H. apply negb_false_iff in H.
  apply Qle_bool_iff. exact H.
Qed.

(** The floor division keeps its remainder within one divisor. *)
Lemma floordiv_bounds (a b : Q) (n : Z) :
  floordiv a b = Ok n -> (0 < b)%Q ->
  (inject_Z n * b <= a)%Q /\ (a < (inject_Z n + 1) * b)%Q.
Proof.
  intros Hdiv Hb. apply floordiv_Ok in Hdiv as [Hnz ->].
  assert (Hback : (a / b * b == a)%Q) by (field; exact Hnz).
  split.
  - rewrite <- Hback at 2. apply Qmult_le_compat_r; [|apply Qlt_le_weak, Hb].
    apply Qfloor_le.
  - rewrite <- Hback at 1. apply Qmult_lt_compat_r; [exact Hb|].
    pose proof (Qlt_floor (a / b)) as Hlt.
    rewrite inject_Z_plus in Hlt. exact Hlt.
Qed.

Lemma inject_len_cons {A : Type} (a : A) (l : list A) :
  (inject_Z (PyStr.len (a :: l)) == inject_Z (PyStr.len l) + 1)%Q.
Proof.
  unfold PyStr.len. cbn [length]. rewrite Nat2Z.inj_succ.
  unfold Z.succ. rewrite inject_Z_plus. reflexivity.
Qed.

Section LayoutFacts.
Context {fitz : TextMeasurer}.
Import PyStr.
Variables font_size page_number_x gap : Q.
Variable toc_page_count : Z.

Local Abbreviation render_line :=
  (Engine.render_line font_size page_number_x gap).
Local Abbreviation render_lines :=
  (Engine.render_lines font_size page_number_x gap).
Local Abbreviation render_entries :=
  (Engine.render_entries font_size page_number_x gap toc_page_count).
Local Abbreviation y_spacing := (Engine.y_spacing font_size).
Local Abbreviation drawn_leader := (leader_drawn font_size page_number_x gap).
Local Abbreviation drawn_entry := (entry_drawn font_size page_number_x gap).
Local Abbreviation drawn_entries :=
  (entries_drawn font_size page_number_x gap toc_page_count).
Local Abbreviation linked_entries :=
  (entries_linked font_size page_number_x).

(** A line that is not the last of its entry is drawn alone. *)
Lemma render_line_inner x w s n i line page y :
  i <> n - 1 ->
  render_line x w s n i line page y
  = Ok (Fitz.insert_text page x y line font_size).
Proof.
  intros Hi. unfold Engine.render_line.
  destruct (Z.eqb_spec i (n - 1)); [contradiction|reflexivity].
Qed.

(** The last line of an entry is drawn with the leader and the number. *)
Lemma render_line_last x s n line page y page' :
  render_line x (get_text_length s font_size) s n (n - 1) line page y
  = Ok page' ->
  exists leader,
    page' = mkPage (page_width page) (page_height page)
              (page_text page
                 ++ mkText x y line font_size
                 :: leader
                 ++ [mkText (page_number_x - get_text_length s font_size) y
                            s font_size])
              (page_links page)
    /\ drawn_leader x y line s leader.
Proof.
  unfold Engine.render_line. rewrite Z.eqb_refl.
  destruct (Qlt_bool _ _) eqn:Hroom.
  - destruct (floordiv _ _) as [count|e] eqn:Hdiv; [|discriminate].
    cbn [mbind result_bind]. intros H; inversion H; subst; clear H.
    eexists [_]. split.
    + unfold Fitz.insert_text. cbn. rewrite <- !app_assoc. reflexivity.
    + right. eexists _, count. split; [reflexivity|].
      apply Qlt_bool_true in Hroom.
      split; [exact Hroom|]. cbn.
      repeat (split; [reflexivity|]).
      intros Hdot. destruct (floordiv_bounds _ _ _ Hdiv Hdot) as [Hlo Hhi].
      split; [|split].
      * apply floordiv_Ok in Hdiv as [_ ->].
        assert (H0 : (0 <= (page_number_x - get_text_length s font_size - gap
                      - (x + get_text_length line font_size + 2))
                     / get_text_length "." font_size)%Q).
        { apply Qle_shift_div_l; [exact Hdot|]. rewrite Qmult_0_l.
          apply Qlt_le_weak. exact (proj1 (Qlt_minus_iff _ _) Hroom). }
        apply Qfloor_resp_le in H0. exact H0.
      * apply (Qplus_le_r _ _ (x + get_text_length line font_size + 2)) in Hlo.
        eapply Qle_trans; [exact Hlo|]. apply Qle_lteq; right; ring.
      * apply (Qplus_lt_r _ _ (x + get_text_length line font_size + 2)) in Hhi.
        eapply Qle_lt_trans; [|exact Hhi]. apply Qle_lteq; right; ring.
  - cbn [mbind result_bind]. intros H; inversion H; subst; clear H.
    exists []. split.
    + unfold Fitz.insert_text. cbn. rewrite <- !app_assoc. reflexivity.
    + left. split; [reflexivity|]. apply Qlt_bool_false in Hroom. exact Hroom.
Qed.

Lemma insert_text_eq page x y line :
  Fitz.insert_text page x y line font_size
  = mkPage (page_width page) (page_height page)
           (page_text page ++ [mkText x y line font_size]) (page_links page).
Proof. reflexivity. Qed.

(** The lines of an entry, drawn from the cursor [y] on: the cursor ends
    as many line spacings further, and the page shows the entry. *)
Lemma render_lines_drawn x s n lines : forall i page y page' y',
  render_lines x (get_text_length s font_size) s n i lines page y
  = Ok (page', y') ->
  i + len lines = n ->
  (y' == y + inject_Z (len lines) * y_spacing)%Q
  /\ exists ops,
       page' = mkPage (page_width page) (page_height page)
                      (page_text page ++ ops) (page_links page)
       /\ drawn_entry x s lines y ops.
Proof.
  induction lines as [|line rest IH]; intros i page y page' y' Hrun Hn.
  - inversion Hrun; subst.
    split; [change (inject_Z (len (@nil string))) with 0%Q; ring|].
    exists []. split; [destruct page'; cbn; rewrite app_nil_r; reflexivity|].
    reflexivity.
  - cbn [Engine.render_lines] in Hrun.
    destruct (render_line x _ s n i line page y) as [page1|e] eqn:Hline;
      [|discriminate].
    cbn [mbind result_bind] in Hrun.
    destruct rest as [|next rest].
    + assert (i = n - 1) as -> by (unfold len in Hn; cbn in Hn; lia).
      apply render_line_last in Hline as (leader & -> & Hleader).
      cbn in Hrun. inversion Hrun; subst; clear Hrun.
      split; [change (inject_Z (len [line])) with 1%Q; ring|].
      eexists. split; [reflexivity|].
      unfold entry_drawn. cbn [last].
      exists [mkText x y line font_size], leader, 
        (mkText (page_number_x - get_text_length s font_size) y s font_size).
      split; [reflexivity|]. split; [reflexivity|]. split.
      { intros k op Hk. destruct k as [|k]; [|destruct k; discriminate].
        inversion Hk; subst. cbn [text_x text_y fontsize].
        repeat split. change (inject_Z (Z.of_nat 0)) with 0%Q. ring. }
      cbn [text text_x text_y fontsize]. repeat (split; [reflexivity|]).
      split; [change (inject_Z (len [line])) with 1%Q; ring|]. exact Hleader.
    + rewrite render_line_inner in Hline
        by (unfold len in Hn; cbn [length] in Hn; lia).
      inversion Hline; subst page1; clear Hline.
      apply IH in Hrun as (Hy & ops & -> & Hdrawn);
        [|unfold len in *; cbn [length] in *; lia].
      split.
      { rewrite Hy, (inject_len_cons line (next :: rest)). ring. }
      exists (mkText x y line font_size :: ops).
      split; [cbn; rewrite <- app_assoc; reflexivity|].
      unfold entry_drawn in *.
      change (last (line :: next :: rest)) with (last (next :: rest)).
      destruct (last (next :: rest)) as [last_line|] eqn:Hlast;
        [|apply last_None in Hlast; discriminate].
      destruct Hdrawn
        as (line_ops & leader & number_op & -> & Htexts & Hpos & Hnum & Hnx
            & Hnf & Hny & Hleader).
      exists (mkText x y line font_size :: line_ops), leader, number_op.
      split; [reflexivity|]. split; [cbn; f_equal; exact Htexts|]. split.
      { intros k op Hk. destruct k as [|k].
        - inversion Hk; subst. cbn [text_x text_y fontsize].
          repeat split. change (inject_Z (Z.of_nat 0)) with 0%Q. ring.
        - apply Hpos in Hk as (Hx & Hf & Hky). repeat split; try assumption.
          rewrite Hky, Nat2Z.inj_succ. unfold Z.succ.
          rewrite inject_Z_plus. ring. }
      repeat (split; [assumption|]). split; [|exact Hleader].
      rewrite Hny, (inject_len_cons line (next :: rest)). ring.
Qed.

(** The predicates of the layout read the cursor up to the equality of
    rationals. *)
Lemma entry_drawn_proper x s lines y y2 ops :
  (y == y2)%Q -> drawn_entry x s lines y ops -> drawn_entry x s lines y2 ops.
Proof.
  intros Hy. unfold entry_drawn.
  destruct (last lines) as [last_line|]; [|auto].
  intros (line_ops & leader & number_op & Hops & Htexts & Hpos & Hnum & Hnx
          & Hnf & Hny & Hleader).
  exists line_ops, leader, number_op.
  repeat (split; [assumption|]). split.
  - intros k op Hk. apply Hpos in Hk as (Hx & Hf & Hky).
    repeat split; try assumption. rewrite <- Hy. exact Hky.
  - repeat (split; [assumption|]). split; [|exact Hleader].
    rewrite <- Hy. exact Hny.
Qed.

Lemma entries_drawn_proper entries : forall y y2 ops,
  (y == y2)%Q -> drawn_entries entries y ops -> drawn_entries entries y2 ops.
Proof.
  induction entries as [|[[[level title] target_page] lines] rest IH];
    intros y y2 ops Hy; [auto|].
  cbn [entries_drawn].
  intros (here & later & Hops & Hentry & Hrest).
  exists here, later. split; [exact Hops|]. split.
  - eapply entry_drawn_proper; [exact Hy|exact Hentry].
  - eapply IH; [|exact Hrest]. rewrite Hy. reflexivity.
Qed.

Lemma entries_linked_proper page_index entries : forall y y2 link_targets,
  (y == y2)%Q ->
  linked_entries page_index entries y link_targets ->
  linked_entries page_index entries y2 link_targets.
Proof.
  induction entries as [|[[[level title] target_page] lines] rest IH];
    intros y y2 [|[[i rect] target] more] Hy; try (cbn; tauto).
  cbn [entries_linked].
  intros (Hi & Ht & Hx0 & Hx1 & Hy0 & Hy1 & Hrest).
  repeat (split; [assumption|]). split; [rewrite <- Hy; exact Hy0|].
  split; [rewrite <- Hy; exact Hy1|].
  eapply IH; [|exact Hrest]. rewrite Hy. reflexivity.
Qed.

(** The entries of a page, drawn from the cursor [y] on. *)
Lemma render_entries_drawn page_index entries :
  forall page y link_targets page' y' link_targets',
  render_entries page_index entries page y link_targets
  = Ok (page', y', link_targets') ->
  exists ops new,
    page' = mkPage (page_width page) (page_height page)
                   (page_text page ++ ops) (page_links page)
    /\ drawn_entries entries y ops
    /\ link_targets' = link_targets ++ new
    /\ linked_entries page_index entries y new.
Proof.
  induction entries as [|[[[level title] target_page] lines] rest IH];
    intros page y lts page' y' lts' Hrun.
  - inversion Hrun; subst. exists [], [].
    rewrite !app_nil_r. destruct page'. repeat split.
  - rewrite render_entries_step in Hrun. cbv zeta in Hrun.
    destruct (render_lines _ _ _ _ _ _ _ _) as [[page1 y_end]|e] eqn:Hlines;
      [|discriminate].
    cbn [mbind result_bind] in Hrun.
    apply render_lines_drawn in Hlines as (Hy & ops1 & -> & Hentry); [|lia].
    apply IH in Hrun as (ops2 & new & -> & Hrest & -> & Hlinked).
    eexists (ops1 ++ ops2), (_ :: new).
    split; [cbn; rewrite <- app_assoc; reflexivity|]. split.
    { cbn [entries_drawn]. exists ops1, ops2.
      split; [reflexivity|]. split; [exact Hentry|].
      eapply entries_drawn_proper; [exact Hy|exact Hrest]. }
    split; [rewrite <- app_assoc; reflexivity|].
    cbn [entries_linked x0 x1 y0 y1].
    repeat (split; [reflexivity|]). split; [exact Hy|].
    eapply entries_linked_proper; [exact Hy|exact Hlinked].
Qed.

End LayoutFacts.

Section PagesFacts.
Context {fitz : TextMeasurer}.
Import PyStr.
Variables font_size page_width page_height : Q.
Variable toc_page_count : Z.
Variables page_number_x gap : Q.

Local Abbreviation pack_loop :=
  (pack_pdfs_with_toc.generate_loop font_size page_width page_height
     toc_page_count page_number_x gap).
Local Abbreviation show_pages :=
  (pages_show font_size page_number_x gap toc_page_count).
Local Abbreviation link_pages :=
  (pages_linked font_size page_number_x).

(** The loop over the TOC pages appends the pages that show the entries,
    and records their link targets. *)
Lemma generate_loop_drawn include_toc_title paginated :
  forall page_index toc_doc link_targets toc_doc' link_targets',
  pack_loop include_toc_title page_index paginated toc_doc link_targets
  = Ok (toc_doc', link_targets') ->
  doc_toc toc_doc' = doc_toc toc_doc
  /\ exists pages new,
       doc_pages toc_doc' = doc_pages toc_doc ++ pages
       /\ link_targets' = link_targets ++ new
       /\ show_pages include_toc_title page_width page_height page_index
                     paginated pages
       /\ link_pages include_toc_title page_index paginated new.
Proof.
  induction paginated as [|entries rest IH]; intros idx doc lts doc' lts' Hrun.
  - inversion Hrun; subst. split; [reflexivity|].
    exists [], []. rewrite !app_nil_r. repeat split.
  - cbn [pack_pdfs_with_toc.generate_loop] in Hrun.
    cbn [pages_show pages_linked].
    unfold first_cursor, banner_ops.
    destruct (include_toc_title && (idx =? 0)%nat);
      destruct (Engine.render_entries _ _ _ _ _ _ _ _ _)
        as [[[page y] lts1]|e] eqn:Hpage; try discriminate;
      cbn [mbind result_bind] in Hrun;
      apply render_entries_drawn in Hpage
        as (ops & new1 & -> & Hdrawn & -> & Hlinked);
      apply IH in Hrun as (Htoc & pages & new2 & Hpages & -> & Hshow & Hlink);
      (split; [exact Htoc|]);
      eexists (_ :: pages), (new1 ++ new2);
      (split; [rewrite Hpages; cbn; rewrite <- app_assoc; reflexivity|]);
      (split; [rewrite <- app_assoc; reflexivity|]);
      (split; [split; [exists ops; split; [reflexivity|exact Hdrawn]
                      |exact Hshow]|]);
      exists new1, new2; repeat split; assumption.
Qed.

End PagesFacts.

(** X5: the pages that [generate_toc_pages] returns (TLF_Packager.py, and
    pack_pdfs_with_toc.py with or without the banner) are one per entry
    list, of the size asked for, without links and without an outline;
    each shows, after the banner where there is one, its entries in order:
    the lines of an entry one line spacing apart from the column of its
    level, and on the base line of the last line the dot leader, which
    stays in front of the gap before the number, and the page number of
    the target in the final document, [target_page + toc_page_count + 1],
    ending at [page_number_x].  An entry without lines shows nothing. *)
Theorem generate_toc_pages_shows_entries {fitz : TextMeasurer}
        (paginated_entries : list TocPage)
        (font_size page_width page_height : Q) (toc_page_count : Z)
        (toc_text_max_width page_number_x page_number_width gap
         right_margin : Q)
        (include_toc_title : bool)
        (toc_doc : Doc) (link_targets : list LinkTarget) :
  (TLF_Packager.generate_toc_pages
     paginated_entries font_size page_width page_height toc_page_count
     toc_text_max_width page_number_x page_number_width gap right_margin
   = Ok (toc_doc, link_targets) ->
   doc_toc toc_doc = []
   /\ pages_show font_size page_number_x gap toc_page_count true
                 page_width page_height 0 paginated_entries
                 (doc_pages toc_doc))
  /\ (pack_pdfs_with_toc.generate_toc_pages
        paginated_entries font_size page_width page_height toc_page_count
        toc_text_max_width page_number_x page_number_width gap right_margin
        include_toc_title
      = Ok (toc_doc, link_targets) ->
      doc_toc toc_doc = []
      /\ pages_show font_size page_number_x gap toc_page_count
                    include_toc_title page_width page_height 0
                    paginated_entries (doc_pages toc_doc)).
Proof.
  split; intros Hrun.
  - unfold TLF_Packager.generate_toc_pages in Hrun.
    rewrite TLF_generate_loop_eq in Hrun.
    apply generate_loop_drawn
      in Hrun as (Htoc & pages & new & Hpages & _ & Hshow & _).
    split; [exact Htoc|]. rewrite Hpages. exact Hshow.
  - unfold pack_pdfs_with_toc.generate_toc_pages in Hrun.
    apply generate_loop_drawn
      in Hrun as (Htoc & pages & new & Hpages & _ & Hshow & _).
    split; [exact Htoc|]. rewrite Hpages. exact Hshow.
Qed.

Lemma generate_toc_pages_shows_entries_witness :
  (exists toc_doc link_targets,
      @TLF_Packager.generate_toc_pages half_em two_page_toc 8 595 842 2
        457 535 20 8 60 = Ok (toc_doc, link_targets)
      /\ @pages_show half_em 8 535 8 2 true 595 842 0 two_page_toc
                     (doc_pages toc_doc))
  /\ (exists toc_doc link_targets,
         @pack_pdfs_with_toc.generate_toc_pages half_em two_page_toc 8 595
           842 2 457 535 20 8 60 false = Ok (toc_doc, link_targets)
         /\ @pages_show half_em 8 535 8 2 false 595 842 0 two_page_toc
                        (doc_pages toc_doc)).
Proof.
  split.
  - destruct (@TLF_Packager.generate_toc_pages half_em two_page_toc 8 595 842
                2 457 535 20 8 60) as [[toc_doc link_targets]|e] eqn:Hrun;
      [|vm_compute in Hrun; discriminate].
    exists toc_doc, link_targets. split; [reflexivity|].
    apply (proj1 (@generate_toc_pages_shows_entries half_em two_page_toc 8
                    595 842 2 457 535 20 8 60 false toc_doc link_targets)
                 Hrun).
  - destruct (@pack_pdfs_with_toc.generate_toc_pages half_em two_page_toc 8
                595 842 2 457 535 20 8 60 false)
      as [[toc_doc link_targets]|e] eqn:Hrun;
      [|vm_compute in Hrun; discriminate].
    exists toc_doc, link_targets. split; [reflexivity|].
    apply (proj2 (@generate_toc_pages_shows_entries half_em two_page_toc 8
                    595 842 2 457 535 20 8 60 false toc_doc link_targets)
                 Hrun).
Defined.

(** X6: [generate_toc_pages] records one link target per entry, in the
    order of the entries, with the index of the page that shows the entry
    and the target page of the entry.  The area of the target runs from
    the column of the entry to [page_number_x], and from one font size
    above the first base line of the entry to the base line that follows
    its last line. *)
Theorem generate_toc_pages_link_areas {fitz : TextMeasurer}
        (paginated_entries : list TocPage)
        (font_size page_width page_height : Q) (toc_page_count : Z)
        (toc_text_max_width page_number_x page_number_width gap
         right_margin : Q)
        (include_toc_title : bool)
        (toc_doc : Doc) (link_targets : list LinkTarget) :
  (TLF_Packager.generate_toc_pages
     paginated_entries font_size page_width page_height toc_page_count
     toc_text_max_width page_number_x page_number_width gap right_margin
   = Ok (toc_doc, link_targets) ->
   pages_linked font_size page_number_x true 0 paginated_entries
                link_targets)
  /\ (pack_pdfs_with_toc.generate_toc_pages
        paginated_entries font_size page_width page_height toc_page_count
        toc_text_max_width page_number_x page_number_width gap right_margin
        include_toc_title
      = Ok (toc_doc, link_targets) ->
      pages_linked font_size page_number_x include_toc_title 0
                   paginated_entries link_targets).
Proof.
  split; intros Hrun.
  - unfold TLF_Packager.generate_toc_pages in Hrun.
    rewrite TLF_generate_loop_eq in Hrun.
    apply generate_loop_drawn
      in Hrun as (_ & pages & new & _ & Hnew & _ & Hlinked).
    rewrite Hnew. exact Hlinked.
  - unfold pack_pdfs_with_toc.generate_toc_pages in Hrun.
    apply generate_loop_drawn
      in Hrun as (_ & pages & new & _ & Hnew & _ & Hlinked).
    rewrite Hnew. exact Hlinked.
Qed.

Lemma generate_toc_pages_link_areas_witness :
  (exists toc_doc link_targets,
      @TLF_Packager.generate_toc_pages half_em two_page_toc 8 595 842 2
        457 535 20 8 60 = Ok (toc_doc, link_targets)
      /\ pages_linked 8 535 true 0 two_page_toc link_targets)
  /\ (exists toc_doc link_targets,
         @pack_pdfs_with_toc.generate_toc_pages half_em two_page_toc 8 595
           842 2 457 535 20 8 60 false = Ok (toc_doc, link_targets)
         /\ pages_linked 8 535 false 0 two_page_toc link_targets).
Proof.
  split.
  - destruct (@TLF_Packager.generate_toc_pages half_em two_page_toc 8 595 842
                2 457 535 20 8 60) as [[toc_doc link_targets]|e] eqn:Hrun;
      [|vm_compute in Hrun; discriminate].
    exists toc_doc, link_targets. split; [reflexivity|].
    apply (proj1 (@generate_toc_pages_link_areas half_em two_page_toc 8
                    595 842 2 457 535 20 8 60 false toc_doc link_targets)
                 Hrun).
  - destruct (@pack_pdfs_with_toc.generate_toc_pages half_em two_page_toc 8
                595 842 2 457 535 20 8 60 false)
      as [[toc_doc link_targets]|e] eqn:Hrun;
      [|vm_compute in Hrun; discriminate].
    exists toc_doc, link_targets. split; [reflexivity|].
    apply (proj2 (@generate_toc_pages_link_areas half_em two_page_toc 8
                    595 842 2 457 535 20 8 60 false toc_doc link_targets)
                 Hrun).
Defined.

(** * The text stays on the page *)

Lemma inject_Z_scale_le (a b : Z) (c : Q) :
  a <= b -> (0 <= c)%Q -> (inject_Z a * c <= inject_Z b * c)%Q.
Proof.
  intros Hab Hc. apply Qmult_le_compat_r; [|exact Hc].
  rewrite <- Zle_Qle. exact Hab.
Qed.

Section MarginFacts.
Context {fitz : TextMeasurer}.
Import PyStr.
Variables font_size page_number_x gap : Q.
Variable toc_page_count : Z.

Local Abbreviation spacing := (Engine.y_spacing font_size).

(** The base lines of an entry lie between the cursor and one line
    spacing before the cursor that follows the entry. *)
Lemma entry_drawn_between x s lines y ops :
  (0 <= spacing)%Q ->
  entry_drawn font_size page_number_x gap x s lines y ops ->
  Forall (fun op : TextOp =>
            (y <= text_y op)%Q
            /\ (text_y op + spacing <= y + inject_Z (len lines) * spacing)%Q)
         ops.
Proof.
  intros Hsp. unfold entry_drawn.
  destruct (last lines) as [last_line|] eqn:Hlast; [|intros ->; constructor].
  intros (line_ops & leader & number_op & -> & Htexts & Hpos & _ & _ & _
          & Hny & Hleader).
  assert (Hlen : 1 <= len lines).
  { destruct lines; [discriminate|]. unfold len. cbn [length]. lia. }
  assert (Hnumber : (y <= text_y number_op)%Q
                    /\ (text_y number_op + spacing
                        <= y + inject_Z (len lines) * spacing)%Q).
  { pose proof (inject_Z_scale_le 1 (len lines) spacing Hlen Hsp) as H1.
    change (inject_Z 1) with 1%Q in H1. split; lra. }
  apply Forall_app. split; [|apply Forall_app; split].
  - apply List.Forall_forall. intros op Hin.
    apply list_elem_of_In, list_elem_of_lookup_1 in Hin as [k Hk].
    pose proof (lookup_lt_Some _ _ _ Hk) as Hlt.
    apply Hpos in Hk as (_ & _ & Hy).
    assert (Hk : Z.of_nat k + 1 <= len lines).
    { rewrite <- Htexts. unfold len. rewrite length_map. lia. }
    pose proof (inject_Z_scale_le 0 (Z.of_nat k) spacing
                  ltac:(lia) Hsp) as H0.
    pose proof (inject_Z_scale_le _ _ spacing Hk Hsp) as H1.
    rewrite inject_Z_plus in H1.
    change (inject_Z 0) with 0%Q in H0. change (inject_Z 1) with 1%Q in H1.
    split; lra.
  - destruct Hleader as [[-> _]|(dots & count & -> & _ & _ & _ & Hdy & _)];
      [constructor|].
    constructor; [|constructor]. rewrite Hdy. exact Hnumber.
  - constructor; [exact Hnumber|constructor].
Qed.

(** The base lines of the entries of a page lie between the cursor and one
    line spacing before the cursor that follows the page. *)
Lemma entries_drawn_between entries : forall y ops,
  (0 <= spacing)%Q ->
  entries_drawn font_size page_number_x gap toc_page_count entries y ops ->
  Forall (fun op : TextOp =>
            (y <= text_y op)%Q
            /\ (text_y op + spacing
                <= y + inject_Z (page_lines entries) * spacing)%Q)
         ops.
Proof.
  induction entries as [|[[[level title] target_page] lines] rest IH];
    intros y ops Hsp; [intros ->; constructor|].
  cbn [entries_drawn]. intros (here & later & -> & Hentry & Hrest).
  assert (Hsum : (inject_Z (page_lines
                              ((level, title, target_page, lines) :: rest))
                  == inject_Z (len lines) + inject_Z (page_lines rest))%Q).
  { unfold page_lines. cbn [fold_right snd]. rewrite inject_Z_plus.
    reflexivity. }
  pose proof (inject_Z_scale_le 0 _ spacing (page_lines_nonneg rest) Hsp)
    as Hrest0.
  assert (Hlines0 : 0 <= len lines) by (unfold len; lia).
  pose proof (inject_Z_scale_le 0 _ spacing Hlines0 Hsp) as Hlines0'.
  change (inject_Z 0) with 0%Q in Hrest0, Hlines0'.
  apply Forall_app. split.
  - apply entry_drawn_between in Hentry; [|exact Hsp].
    eapply Forall_impl; [exact Hentry|]. cbn beta.
    intros op [Hlo Hhi]. rewrite Hsum. split; lra.
  - apply IH in Hrest; [|exact Hsp].
    eapply Forall_impl; [exact Hrest|]. cbn beta.
    intros op [Hlo Hhi]. rewrite Hsum. split; lra.
Qed.

(** The page of index [i] shows the entries of index [i]. *)
Lemma pages_show_lookup banner width height paginated :
  forall page_index pages (i : nat) entries page,
  pages_show font_size page_number_x gap toc_page_count banner width height
             page_index paginated pages ->
  paginated !! i = Some entries ->
  pages !! i = Some page ->
  exists ops,
    page = mkPage width height
                  (banner_ops font_size banner (page_index + i) width ++ ops)
                  []
    /\ entries_drawn font_size page_number_x gap toc_page_count entries
                     (first_cursor font_size banner (page_index + i)) ops.
Proof.
  induction paginated as [|first rest IH];
    intros idx pages i entries page Hshow Hentries Hpage; [discriminate|].
  destruct pages as [|first_page more]; [contradiction|].
  cbn [pages_show] in Hshow. destruct Hshow as [Hfirst Hrest].
  destruct i as [|i].
  - cbn in Hentries, Hpage. inversion Hentries; inversion Hpage; subst.
    rewrite Nat.add_0_r. exact Hfirst.
  - cbn in Hentries, Hpage.
    replace (idx + S i)%nat with (S idx + i)%nat by lia.
    eapply IH; eassumption.
Qed.

End MarginFacts.

(** A page whose lines are within the budget keeps its base lines between
    the top margin and the bottom margin of 50. *)
Lemma page_within_margins {fitz : TextMeasurer}
      (font_size page_number_x gap : Q) (toc_page_count : Z)
      (banner : bool) (page_index : nat) (width height : Q)
      (entries : TocPage) (ops : list TextOp) :
  (0 < font_size)%Q ->
  page_lines entries
  <= full_budget font_size height - (if banner then 2 else 0) ->
  entries_drawn font_size page_number_x gap toc_page_count entries
                (first_cursor font_size banner page_index) ops ->
  Forall (fun op : TextOp =>
            (Engine.top_margin <= text_y op)%Q
            /\ (text_y op <= height - 50)%Q)
         (banner_ops font_size banner page_index width ++ ops).
Proof.
  intros Hfs Hbudget Hdrawn.
  assert (Hsp : (0 < Engine.y_spacing font_size)%Q)
    by (unfold Engine.y_spacing; lra).
  pose proof (floordiv_bounds (height - 100) (Engine.y_spacing font_size)
                (full_budget font_size height)) as Hfloor.
  destruct Hfloor as [Hfloor _]; [|exact Hsp|].
  { apply floordiv_nonzero. intros Hz. rewrite Hz in Hsp.
    exact (Qlt_irrefl 0 Hsp). }
  pose proof (inject_Z_scale_le _ _ (Engine.y_spacing font_size) Hbudget
                (Qlt_le_weak _ _ Hsp)) as Hlines.
  pose proof (inject_Z_scale_le 0 _ (Engine.y_spacing font_size)
                (page_lines_nonneg entries) (Qlt_le_weak _ _ Hsp)) as Hzero.
  unfold Z.sub in Hlines. rewrite inject_Z_plus, inject_Z_opp in Hlines.
  change (inject_Z 0) with 0%Q in Hzero.
  apply entries_drawn_between in Hdrawn; [|apply Qlt_le_weak, Hsp].
  unfold banner_ops, first_cursor in *.
  unfold Engine.y_spacing, Engine.top_margin in *.
  destruct banner.
  - change (inject_Z 2) with 2%Q in Hlines.
    apply Forall_app. split.
    + destruct (true && (page_index =? 0)%nat); [|constructor].
      constructor; [|constructor]. cbn [text_y]. split; lra.
    + eapply Forall_impl; [exact Hdrawn|]. cbn beta. intros op [Hlo Hhi].
      destruct (true && (page_index =? 0)%nat); split; lra.
  - change (inject_Z 0) with 0%Q in Hlines. cbn [andb app].
    cbn [andb] in Hdrawn.
    eapply Forall_impl; [exact Hdrawn|]. cbn beta. intros op [Hlo Hhi].
    split; lra.
Qed.

(** X7: on a TOC page that [generate_toc_pages] draws from entries whose
    lines are within the budget of [paginate_wrapped_entries] (the lines
    that fit into the page height less 100, less 2 when the banner is
    counted), every text, the banner too, has its base line between the
    top margin of 50 and 50 above the bottom edge.  (The font size is
    positive.) *)
Theorem toc_text_within_margins {fitz : TextMeasurer}
        (paginated_entries : list TocPage)
        (font_size page_width page_height : Q) (toc_page_count : Z)
        (toc_text_max_width page_number_x page_number_width gap
         right_margin : Q)
        (include_toc_title : bool)
        (toc_doc : Doc) (link_targets : list LinkTarget)
        (i : nat) (entries : TocPage) (page : Page) :
  (0 < font_size)%Q ->
  paginated_entries !! i = Some entries ->
  doc_pages toc_doc !! i = Some page ->
  (TLF_Packager.generate_toc_pages
     paginated_entries font_size page_width page_height toc_page_count
     toc_text_max_width page_number_x page_number_width gap right_margin
   = Ok (toc_doc, link_targets) ->
   page_lines entries <= full_budget font_size page_height - 2 ->
   Forall (fun op : TextOp =>
             (Engine.top_margin <= text_y op)%Q
             /\ (text_y op <= page_height - 50)%Q)
          (page_text page))
  /\ (pack_pdfs_with_toc.generate_toc_pages
        paginated_entries font_size page_width page_height toc_page_count
        toc_text_max_width page_number_x page_number_width gap right_margin
        include_toc_title
      = Ok (toc_doc, link_targets) ->
      page_lines entries
      <= (if include_toc_title then full_budget font_size page_height - 2
          else full_budget font_size page_height) ->
      Forall (fun op : TextOp =>
                (Engine.top_margin <= text_y op)%Q
                /\ (text_y op <= page_height - 50)%Q)
             (page_text page)).
Proof.
  intros Hfs Hentries Hpage. split; intros Hrun Hbudget.
  - unfold TLF_Packager.generate_toc_pages in Hrun.
    rewrite TLF_generate_loop_eq in Hrun.
    apply generate_loop_drawn
      in Hrun as (_ & pages & new & Hpages & _ & Hshow & _).
    cbn [Fitz.new doc_pages app] in Hpages. rewrite Hpages in Hpage.
    destruct (pages_show_lookup _ _ _ _ _ _ _ _ _ _ _ _ _
                Hshow Hentries Hpage) as (ops & -> & Hdrawn).
    cbn [page_text]. eapply page_within_margins; [exact Hfs| |exact Hdrawn].
    exact Hbudget.
  - unfold pack_pdfs_with_toc.generate_toc_pages in Hrun.
    apply generate_loop_drawn
      in Hrun as (_ & pages & new & Hpages & _ & Hshow & _).
    cbn [Fitz.new doc_pages app] in Hpages. rewrite Hpages in Hpage.
    destruct (pages_show_lookup _ _ _ _ _ _ _ _ _ _ _ _ _
                Hshow Hentries Hpage) as (ops & -> & Hdrawn).
    cbn [page_text]. eapply page_within_margins; [exact Hfs| |exact Hdrawn].
    destruct include_toc_title; lia.
Qed.

Lemma toc_text_within_margins_witness :
  (exists toc_doc link_targets page,
      @TLF_Packager.generate_toc_pages half_em two_page_toc 8 595 842 2
        457 535 20 8 60 = Ok (toc_doc, link_targets)
      /\ doc_pages toc_doc !! 0%nat = Some page
      /\ Forall (fun op : TextOp =>
                   (Engine.top_margin <= text_y op)%Q
                   /\ (text_y op <= 842 - 50)%Q)
                (page_text page))
  /\ (exists toc_doc link_targets page,
         @pack_pdfs_with_toc.generate_toc_pages half_em two_page_toc 8 595
           842 2 457 535 20 8 60 false = Ok (toc_doc, link_targets)
         /\ doc_pages toc_doc !! 1%nat = Some page
         /\ Forall (fun op : TextOp =>
                      (Engine.top_margin <= text_y op)%Q
                      /\ (text_y op <= 842 - 50)%Q)
                   (page_text page)).
Proof.
  split.
  - eexists _, _, _. split; [vm_compute; reflexivity|].
    split; [reflexivity|].
    unshelve eapply (proj1 (@toc_text_within_margins half_em two_page_toc 8 595 842 2
                     457 535 20 8 60 false _ _ 0%nat _ _ _ _ _)).
    all: try (vm_compute; reflexivity).
    all: try (vm_compute; reflexivity).
    all: vm_compute; discriminate.
  - eexists _, _, _. split; [vm_compute; reflexivity|].
    split; [reflexivity|].
    unshelve eapply (proj2 (@toc_text_within_margins half_em two_page_toc 8 595 842 2
                     457 535 20 8 60 false _ _ 1%nat _ _ _ _ _)).
    all: try (vm_compute; reflexivity).
    all: try (vm_compute; reflexivity).
    all: vm_compute; discriminate.
Defined.

(** * Neighbouring link areas *)

Section OverlapFacts.
Variables font_size page_number_x : Q.

Lemma entries_linked_overlap page_index entries : forall y here,
  entries_linked font_size page_number_x page_index entries y here ->
  Forall (fun lt : LinkTarget => fst (fst lt) = page_index) here
  /\ (forall lt, here !! 0%nat = Some lt ->
                 (y0 (snd (fst lt)) == y - font_size)%Q)
  /\ overlapping font_size here.
Proof.
  induction entries as [|[[[level title] target_page] lines] rest IH];
    intros y [|[[i rect] target] more] Hlinked; try contradiction.
  - split; [constructor|]. split; [discriminate|]. intros j lt lt' Hj.
    discriminate.
  - cbn [entries_linked] in Hlinked.
    destruct Hlinked as (-> & -> & _ & _ & Hy0 & Hy1 & Hrest).
    apply IH in Hrest as (Hidx & Hfirst & Hover).
    split; [constructor; [reflexivity|exact Hidx]|]. split.
    + intros lt Hlt. inversion Hlt; subst. exact Hy0.
    + intros j lt lt' Hj HSj Hsame. destruct j as [|j].
      * inversion Hj; subst lt. cbn in HSj. apply Hfirst in HSj.
        cbn [fst snd]. rewrite HSj, Hy1. reflexivity.
      * cbn in Hj, HSj. eapply Hover; eassumption.
Qed.

Lemma pages_linked_overlap banner paginated : forall page_index link_targets,
  pages_linked font_size page_number_x banner page_index paginated
               link_targets ->
  Forall (fun lt : LinkTarget => (page_index <= fst (fst lt))%nat)
         link_targets
  /\ overlapping font_size link_targets.
Proof.
  induction paginated as [|entries rest IH]; intros idx lts Hlinked.
  - cbn in Hlinked. subst lts. split; [constructor|].
    intros j lt lt' Hj. discriminate.
  - cbn [pages_linked] in Hlinked.
    destruct Hlinked as (here & later & -> & Hhere & Hlater).
    apply entries_linked_overlap in Hhere as (Hidx & _ & Hover1).
    apply IH in Hlater as (Hge & Hover2).
    split.
    + apply Forall_app. split.
      * eapply Forall_impl; [exact Hidx|]. cbn beta. intros lt ->. lia.
      * eapply Forall_impl; [exact Hge|]. cbn beta. intros lt Hlt. lia.
    + intros j lt lt' Hj HSj Hsame.
      apply lookup_app_Some in Hj as [Hj|[Hlen Hj]];
        apply lookup_app_Some in HSj as [HSj|[Hlen' HSj]].
      * eapply Hover1; eassumption.
      * exfalso.
        assert (H1 : fst (fst lt) = idx).
        { eapply (proj1 (List.Forall_forall _ _) Hidx).
          apply list_elem_of_In, list_elem_of_lookup_2 with j. exact Hj. }
        assert (H2 : (S idx <= fst (fst lt'))%nat).
        { eapply (proj1 (List.Forall_forall _ _) Hge).
          apply list_elem_of_In, list_elem_of_lookup_2 with (S j - length here)%nat.
          exact HSj. }
        lia.
      * apply lookup_lt_Some in HSj. lia.
      * replace (S j - length here)%nat with (S (j - length here))%nat
          in HSj by lia.
        eapply Hover2; eassumption.
Qed.

End OverlapFacts.

(** X8: of two link targets that [generate_toc_pages] records one after
    the other on the same TOC page, the area of the second starts one font
    size above the line where the area of the first ends: with a positive
    font size the areas of neighbouring entries overlap in a band one font
    size high. *)
Theorem neighbour_link_areas_overlap {fitz : TextMeasurer}
        (paginated_entries : list TocPage)
        (font_size page_width page_height : Q) (toc_page_count : Z)
        (toc_text_max_width page_number_x page_number_width gap
         right_margin : Q)
        (include_toc_title : bool)
        (toc_doc : Doc) (link_targets : list LinkTarget) :
  (TLF_Packager.generate_toc_pages
     paginated_entries font_size page_width page_height toc_page_count
     toc_text_max_width page_number_x page_number_width gap right_margin
   = Ok (toc_doc, link_targets)
   \/ pack_pdfs_with_toc.generate_toc_pages
        paginated_entries font_size page_width page_height toc_page_count
        toc_text_max_width page_number_x page_number_width gap right_margin
        include_toc_title
      = Ok (toc_doc, link_targets)) ->
  forall (j page_index : nat) (rect rect' : Rect) (target target' : Z),
    link_targets !! j = Some (page_index, rect, target) ->
    link_targets !! S j = Some (page_index, rect', target') ->
    (y0 rect' == y1 rect - font_size)%Q
    /\ ((0 < font_size)%Q -> (y0 rect' < y1 rect)%Q).
Proof.
  intros Hrun j idx rect rect' target target' Hj HSj.
  assert (Hover : overlapping font_size link_targets).
  { destruct Hrun as [Hrun|Hrun].
    - unfold TLF_Packager.generate_toc_pages in Hrun.
      rewrite TLF_generate_loop_eq in Hrun.
      apply generate_loop_drawn
        in Hrun as (_ & pages & new & _ & Hnew & _ & Hlinked).
      rewrite Hnew. eapply pages_linked_overlap. exact Hlinked.
    - unfold pack_pdfs_with_toc.generate_toc_pages in Hrun.
      apply generate_loop_drawn
        in Hrun as (_ & pages & new & _ & Hnew & _ & Hlinked).
      rewrite Hnew. eapply pages_linked_overlap. exact Hlinked. }
  specialize (Hover j _ _ Hj HSj eq_refl). cbn [fst snd] in Hover.
  split; [exact Hover|]. intros Hfs. lra.
Qed.

Lemma neighbour_link_areas_overlap_witness :
  exists toc_doc link_targets rect rect' target target',
    @TLF_Packager.generate_toc_pages half_em two_page_toc 8 595 842 2
      457 535 20 8 60 = Ok (toc_doc, link_targets)
    /\ link_targets !! 0%nat = Some (0%nat, rect, target)
    /\ link_targets !! 1%nat = Some (0%nat, rect', target')
    /\ (y0 rect' == y1 rect - 8)%Q.
Proof.
  eexists _, _, _, _, _, _. split; [vm_compute; reflexivity|].
  split; [reflexivity|]. split; [reflexivity|].
  unshelve eapply (proj1 (@neighbour_link_areas_overlap half_em two_page_toc
                            8 595 842 2 457 535 20 8 60 false _ _ _
                            0%nat 0%nat _ _ _ _ _ _)).
  all: match goal with
       | |- _ \/ _ => left; vm_compute; reflexivity
       | _ => idtac
       end.
  all: try reflexivity.
Defined.

(** * What [add_toc_and_links] does to the disk *)

(** X9: [add_toc_and_links] of TLF_Packager.py leaves the disk as it was
    when it raises (nothing is saved, the intermediate file stays).  When
    it returns it has saved the final document once, under [final_pdf],
    removed [bookmarked_pdf], and touched no other file; so when both
    paths are the same, the document it has just saved is removed and no
    output is left. *)
Theorem TLF_add_toc_and_links_effect {fitz : TextMeasurer}
        (bookmarked_pdf final_pdf : string) (font_size : Q)
        (w w' : World) (outcome : result unit) :
  TLF_Packager.add_toc_and_links bookmarked_pdf final_pdf font_size w
  = (w', outcome) ->
  match outcome with
  | Raise _ => w' = w
  | Ok _ =>
      exists base final T,
        Fitz.open w bookmarked_pdf = Ok base
        /\ TLF_Packager.build_final base font_size = Ok (final, T)
        /\ saves w' = saves w ++ [final_pdf]
        /\ files w' !! bookmarked_pdf = None
        /\ (final_pdf <> bookmarked_pdf -> files w' !! final_pdf = Some final)
        /\ (forall path, path <> final_pdf -> path <> bookmarked_pdf ->
                         files w' !! path = files w !! path)
  end.
Proof.
  unfold TLF_Packager.add_toc_and_links.
  destruct (Fitz.open w bookmarked_pdf) as [base|e] eqn:Hopen;
    [|intros H; inversion H; reflexivity].
  destruct (TLF_Packager.build_final base font_size) as [[final T]|e]
    eqn:Hbuild; [|intros H; inversion H; reflexivity].
  intros H; inversion H; subst; clear H.
  exists base, final, T. split; [reflexivity|]. split; [exact Hbuild|].
  cbn [Fitz.remove Fitz.save files saves].
  split; [reflexivity|]. split; [apply lookup_delete_eq|]. split.
  - intros Hne. rewrite lookup_delete_ne by congruence.
    apply lookup_insert_eq.
  - intros path Hf Hb. rewrite lookup_delete_ne by congruence.
    apply lookup_insert_ne. congruence.
Qed.

Lemma TLF_add_toc_and_links_effect_witness :
  exists w',
    @TLF_Packager.add_toc_and_links half_em "body.pdf" "body.pdf" 8
      body_on_disk = (w', Ok tt)
    /\ files w' !! "body.pdf"%string = None
    /\ saves w' = ["body.pdf"%string].
Proof.
  destruct (@TLF_Packager.add_toc_and_links half_em "body.pdf" "body.pdf" 8
              body_on_disk) as [w' outcome] eqn:Hrun.
  pose proof (@TLF_add_toc_and_links_effect half_em _ _ _ _ _ _ Hrun)
    as Heffect.
  assert (Hout : outcome = Ok tt).
  { vm_compute in Hrun. inversion Hrun. reflexivity. }
  subst outcome. destruct Heffect as (_ & _ & _ & _ & _ & Hsaves & Hgone & _).
  exists w'. split; [reflexivity|]. split; [exact Hgone|exact Hsaves].
Defined.

(** X10: [add_toc_and_links] of pack_pdfs_with_toc.py leaves the disk as it
    was when it raises.  When it returns it has saved the final document
    once, under [final_pdf], where it stays; it has removed
    [bookmarked_pdf] when that is another path, and touched no other
    file. *)
Theorem pack_pdfs_add_toc_and_links_effect {fitz : TextMeasurer}
        (bookmarked_pdf final_pdf : string) (font_size : Q)
        (include_toc_title : bool)
        (w w' : World) (outcome : result unit) :
  pack_pdfs_with_toc.add_toc_and_links bookmarked_pdf final_pdf font_size
                                       include_toc_title w
  = (w', outcome) ->
  match outcome with
  | Raise _ => w' = w
  | Ok _ =>
      exists base final T,
        Fitz.open w bookmarked_pdf = Ok base
        /\ pack_pdfs_with_toc.build_final base font_size include_toc_title
           = Ok (final, T)
        /\ saves w' = saves w ++ [final_pdf]
        /\ files w' !! final_pdf = Some final
        /\ (final_pdf <> bookmarked_pdf -> files w' !! bookmarked_pdf = None)
        /\ (forall path, path <> final_pdf -> path <> bookmarked_pdf ->
                         files w' !! path = files w !! path)
  end.
Proof.
  unfold pack_pdfs_with_toc.add_toc_and_links.
  destruct (Fitz.open w bookmarked_pdf) as [base|e] eqn:Hopen;
    [|intros H; inversion H; reflexivity].
  destruct (pack_pdfs_with_toc.build_final base font_size include_toc_title)
    as [[final T]|e] eqn:Hbuild; [|intros H; inversion H; reflexivity].
  intros H; inversion H; subst; clear H.
  exists base, final, T. split; [reflexivity|]. split; [exact Hbuild|].
  assert (Hthere : is_Some (files w !! bookmarked_pdf)).
  { unfold Fitz.open in Hopen.
    destruct (files w !! bookmarked_pdf); [eauto|discriminate]. }
  destruct (String.eqb_spec bookmarked_pdf final_pdf) as [->|Hne].
  - rewrite andb_false_r. cbn [Fitz.save files saves].
    split; [reflexivity|]. split; [apply lookup_insert_eq|].
    split; [congruence|].
    intros path Hf _. apply lookup_insert_ne. congruence.
  - rewrite andb_true_r, bool_decide_eq_true_2.
    + cbn [Fitz.remove Fitz.save files saves].
      split; [reflexivity|]. split.
      { rewrite lookup_delete_ne by congruence. apply lookup_insert_eq. }
      split; [intros _; apply lookup_delete_eq|].
      intros path Hf Hb. rewrite lookup_delete_ne by congruence.
      apply lookup_insert_ne. congruence.
    + cbn [Fitz.save files]. rewrite lookup_insert_ne by congruence.
      exact Hthere.
Qed.

Lemma pack_pdfs_add_toc_and_links_effect_witness :
  exists w' final,
    @pack_pdfs_with_toc.add_toc_and_links half_em "body.pdf" "body.pdf" 8
      false body_on_disk = (w', Ok tt)
    /\ files w' !! "body.pdf"%string = Some final
    /\ saves w' = ["body.pdf"%string].
Proof.
  destruct (@pack_pdfs_with_toc.add_toc_and_links half_em "body.pdf"
              "body.pdf" 8 false body_on_disk) as [w' outcome] eqn:Hrun.
  pose proof (@pack_pdfs_add_toc_and_links_effect half_em _ _ _ _ _ _ _ Hrun)
    as Heffect.
  assert (Hout : outcome = Ok tt).
  { vm_compute in Hrun. inversion Hrun. reflexivity. }
  subst outcome.
  destruct Heffect as (_ & final & _ & _ & _ & Hsaves & Hthere & _).
  exists w', final. split; [reflexivity|]. split; [exact Hthere|exact Hsaves].
Defined.

(** * The links and the bookmarks, on their own *)


(** X12: [shift_bookmark_pages] drops no row (its length test holds for
    every row), keeps the level and the title of each and adds the offset
    to its page; shifting twice is shifting by the sum, and shifting by 0
    changes nothing. *)
Theorem shift_bookmark_pages_keeps_rows
        (bookmarks : list Bookmark) (offset offset' : Z) :
  length (Engine.shift_bookmark_pages bookmarks offset) = length bookmarks
  /\ (forall (i : nat) (lvl : Z) (title : string) (page : Z),
         bookmarks !! i = Some (lvl, title, page) ->
         Engine.shift_bookmark_pages bookmarks offset !! i
         = Some (lvl, title, page + offset))
  /\ Engine.shift_bookmark_pages
       (Engine.shift_bookmark_pages bookmarks offset) offset'
     = Engine.shift_bookmark_pages bookmarks (offset + offset')
  /\ Engine.shift_bookmark_pages bookmarks 0 = bookmarks.
Proof.
  rewrite !shift_bookmark_pages_eq. split; [apply length_map|]. split.
  - intros i lvl title page Hi.
    apply (map_lookup_Some
             (fun '(lvl, title, page) => (lvl, title, page + offset)))
      in Hi. exact Hi.
  - split.
    + rewrite List.map_map. apply List.map_ext.
      intros [[lvl title] page]. f_equal. lia.
    + rewrite <- (List.map_id bookmarks) at 2. apply List.map_ext.
      intros [[lvl title] page]. f_equal. lia.
Qed.

(** * How [add_toc_and_links] can fail *)

Section FailureFacts.
Context {fitz : TextMeasurer}.
Import PyStr.

Lemma floordiv_raises a b e : floordiv a b = Raise e -> e = ZeroDivisionError.
Proof.
  unfold floordiv. destruct (Qeq_bool b 0); intros H; inversion H. reflexivity.
Qed.

Lemma render_line_raises font_size page_number_x gap x w s n i line page y e :
  Engine.render_line font_size page_number_x gap x w s n i line page y
  = Raise e ->
  e = ZeroDivisionError.
Proof.
  unfold Engine.render_line. destruct (i =? n - 1); [|discriminate].
  destruct (Qlt_bool _ _); [|discriminate].
  destruct (floordiv _ _) as [count|e'] eqn:Hdiv; [discriminate|].
  cbn [mbind result_bind]. intros H; inversion H; subst.
  eapply floordiv_raises, Hdiv.
Qed.

Lemma render_lines_raises font_size page_number_x gap x w s n lines :
  forall i page y e,
  Engine.render_lines font_size page_number_x gap x w s n i lines page y
  = Raise e ->
  e = ZeroDivisionError.
Proof.
  induction lines as [|line rest IH]; intros i page y e Hrun; [discriminate|].
  cbn [Engine.render_lines] in Hrun.
  destruct (Engine.render_line _ _ _ _ _ _ _ _ _ _ _) as [page1|e1] eqn:Hline.
  - cbn [mbind result_bind] in Hrun. eapply IH, Hrun.
  - cbn [mbind result_bind] in Hrun. inversion Hrun; subst.
    eapply render_line_raises, Hline.
Qed.

Lemma render_entries_raises font_size page_number_x gap toc_page_count
      page_index entries : forall page y link_targets e,
  Engine.render_entries font_size page_number_x gap toc_page_count
                        page_index entries page y link_targets = Raise e ->
  e = ZeroDivisionError.
Proof.
  induction entries as [|[[[level title] target_page] lines] rest IH];
    intros page y lts e Hrun; [discriminate|].
  rewrite render_entries_step in Hrun. cbv zeta in Hrun.
  destruct (Engine.render_lines _ _ _ _ _ _ _ _ _ _ _)
    as [[page1 y_end]|e1] eqn:Hlines.
  - cbn [mbind result_bind] in Hrun. eapply IH, Hrun.
  - cbn [mbind result_bind] in Hrun. inversion Hrun; subst.
    eapply render_lines_raises, Hlines.
Qed.

Lemma generate_loop_raises font_size page_width page_height toc_page_count
      page_number_x gap include_toc_title paginated :
  forall page_index toc_doc link_targets e,
  pack_pdfs_with_toc.generate_loop font_size page_width page_height
    toc_page_count page_number_x gap include_toc_title page_index paginated
    toc_doc link_targets = Raise e ->
  e = ZeroDivisionError.
Proof.
  induction paginated as [|entries rest IH]; intros idx doc lts e Hrun;
    [discriminate|].
  cbn [pack_pdfs_with_toc.generate_loop] in Hrun.
  destruct (include_toc_title && (idx =? 0)%nat);
    destruct (Engine.render_entries _ _ _ _ _ _ _ _ _)
      as [[[page y] lts1]|e1] eqn:Hpage;
    cbn [mbind result_bind] in Hrun;
    try (eapply IH, Hrun);
    inversion Hrun; subst; eapply render_entries_raises, Hpage.
Qed.

(** The links of the generated TOC pages always find their page. *)
Lemma assembled_links_return font_size page_width page_height toc_page_count
      page_number_x gap include_toc_title paginated toc_doc link_targets
      base T :
  pack_pdfs_with_toc.generate_loop font_size page_width page_height
    toc_page_count page_number_x gap include_toc_title 0%nat paginated
    Fitz.new [] = Ok (toc_doc, link_targets) ->
  exists linked,
    Engine.add_toc_hyperlinks
      (Fitz.insert_pdf (Fitz.insert_pdf Fitz.new toc_doc) base)
      link_targets T = Ok linked.
Proof.
  intros Hgen.
  apply generate_loop_shape
    in Hgen as (_ & pages & new & Hpages & Hlen & _ & Hnew & Hidx & _).
  apply add_toc_hyperlinks_ok. cbn in Hnew. subst link_targets.
  eapply Forall_impl; [exact Hidx|]. cbn beta. intros lt Hlt.
  cbn [Fitz.insert_pdf Fitz.new doc_pages app]. rewrite Hpages.
  cbn [Fitz.new doc_pages app]. rewrite length_app. lia.
Qed.

Lemma pack_pdfs_build_final_raises base font_size include_toc_title e :
  pack_pdfs_with_toc.build_final base font_size include_toc_title = Raise e ->
  e = ZeroDivisionError.
Proof.
  rewrite pack_pdfs_build_final_unfold.
  unfold pack_pdfs_with_toc.paginate_wrapped_entries.
  destruct (floordiv _ _) as [budget|e1] eqn:Hdiv.
  - cbn [mbind result_bind].
    match goal with
    | |- context [pack_pdfs_with_toc.generate_toc_pages ?p] =>
        set (paginated := p)
    end.
    unfold pack_pdfs_with_toc.generate_toc_pages.
    destruct (pack_pdfs_with_toc.generate_loop _ _ _ _ _ _ _ _ _ _ _)
      as [[toc_doc lts]|e2] eqn:Hgen.
    + cbn [mbind result_bind].
      destruct (assembled_links_return _ _ _ _ _ _ _ _ _ _ base
                  (len paginated) Hgen) as [linked Hlinked].
      match goal with
      | |- ?m ≫= _ = _ -> _ =>
          replace m with (Ok linked) by (symmetry; exact Hlinked)
      end.
      discriminate.
    + cbn [mbind result_bind]. intros H; inversion H; subst.
      eapply generate_loop_raises, Hgen.
  - cbn [mbind result_bind]. intros H; inversion H; subst.
    eapply floordiv_raises, Hdiv.
Qed.

Lemma TLF_build_final_raises base font_size e :
  TLF_Packager.build_final base font_size = Raise e ->
  e = ZeroDivisionError.
Proof.
  rewrite TLF_build_final_unfold.
  unfold TLF_Packager.paginate_wrapped_entries.
  destruct (floordiv _ _) as [budget|e1] eqn:Hdiv.
  - cbn [mbind result_bind].
    match goal with
    | |- context [TLF_Packager.generate_toc_pages ?p] =>
        set (paginated := p)
    end.
    unfold TLF_Packager.generate_toc_pages.
    rewrite TLF_generate_loop_eq.
    destruct (pack_pdfs_with_toc.generate_loop _ _ _ _ _ _ _ _ _ _ _)
      as [[toc_doc lts]|e2] eqn:Hgen.
    + cbn [mbind result_bind].
      destruct (assembled_links_return _ _ _ _ _ _ _ _ _ _ base
                  (len paginated) Hgen) as [linked Hlinked].
      match goal with
      | |- ?m ≫= _ = _ -> _ =>
          replace m with (Ok linked) by (symmetry; exact Hlinked)
      end.
      discriminate.
    + cbn [mbind result_bind]. intros H; inversion H; subst.
      eapply generate_loop_raises, Hgen.
  - cbn [mbind result_bind]. intros H; inversion H; subst.
    eapply floordiv_raises, Hdiv.
Qed.

End FailureFacts.



(** * The sort key *)

Section SortKeyFacts.
Import PyStr.

Lemma uint_all_digits d : all_digits (NilEmpty.string_of_uint d) = true.
Proof. induction d; cbn; auto. Qed.

Lemma int_from_uint_acc d : forall acc,
  int_from (Z.pos acc) (NilEmpty.string_of_uint d)
  = Z.pos (Pos.of_uint_acc d acc).
Proof.
  induction d; intros acc; cbn [NilEmpty.string_of_uint int_from Pos.of_uint_acc];
    [reflexivity|..]; rewrite <- IHd; f_equal; cbn; lia.
Qed.

Lemma int_from_uint d :
  int_from 0 (NilEmpty.string_of_uint d) = Z.of_N (Pos.of_uint d).
Proof.
  induction d; cbn [NilEmpty.string_of_uint int_from Pos.of_uint];
    [reflexivity|exact IHd|..];
    match goal with
    | |- int_from ?a _ = _ =>
        let v := eval vm_compute in a in change a with v
    end; rewrite int_from_uint_acc; reflexivity.
Qed.

(** A number that is not negative, written by [str], is a run of digits
    that [int] reads back. *)
Lemma str_digits n :
  0 <= n ->
  exists c rest,
    str n = String c rest /\ all_digits (str n) = true /\ int (str n) = n.
Proof.
  intros Hn. unfold str, int. destruct n as [|p|p]; [| |lia].
  - exists "0"%char, ""%string. repeat split.
  - cbn [Z.to_int NilZero.string_of_int]. unfold NilZero.string_of_uint.
    pose proof (Unsigned.to_uint_nonnil p) as Hnil.
    assert (Hs : NilZero.string_of_uint (Pos.to_uint p)
                 = NilEmpty.string_of_uint (Pos.to_uint p)).
    { unfold NilZero.string_of_uint.
      destruct (Pos.to_uint p); [contradiction|reflexivity..]. }
    fold (NilZero.string_of_uint (Pos.to_uint p)). rewrite Hs.
    assert (Hne : exists c rest,
               NilEmpty.string_of_uint (Pos.to_uint p) = String c rest).
    { destruct (Pos.to_uint p); [contradiction|cbn; eauto..]. }
    destruct Hne as (c & rest & Heq). exists c, rest.
    split; [exact Heq|]. split; [apply uint_all_digits|].
    rewrite int_from_uint, DecimalPos.Unsigned.of_to. reflexivity.
Qed.

Lemma digit_not_dot c : is_digit c = true -> Ascii.eqb c "." = false.
Proof.
  intros Hc. destruct (Ascii.eqb_spec c "."%char) as [->|]; [|reflexivity].
  discriminate.
Qed.

Lemma number_prefix_digits d rest :
  all_digits d = true ->
  number_prefix (d +:+ rest) = d +:+ number_prefix rest.
Proof.
  induction d as [|c d IH]; intros Hd; [reflexivity|].
  cbn [all_digits] in Hd. apply andb_true_iff in Hd as [Hc Hd].
  rewrite !app_String. cbn [number_prefix]. rewrite Hc, IH by exact Hd.
  reflexivity.
Qed.

Lemma number_prefix_dot c d rest :
  all_digits (String c d) = true ->
  number_prefix ("." +:+ String c d +:+ rest)
  = "." +:+ String c d +:+ number_prefix rest.
Proof.
  intros Hd. cbn [all_digits] in Hd. apply andb_true_iff in Hd as [Hc Hd].
  change ("." +:+ String c d +:+ rest)
    with (String "." (String c (d +:+ rest))).
  cbn [number_prefix]. change (is_digit ".") with false.
  change (Ascii.eqb "." ".") with true. cbn iota. rewrite Hc.
  rewrite number_prefix_digits by exact Hd. reflexivity.
Qed.

Lemma number_prefix_ends suffix :
  number_ends suffix = true -> number_prefix suffix = "".
Proof.
  destruct suffix as [|c rest]; [reflexivity|]. cbn [number_ends number_prefix].
  intros H. apply andb_true_iff in H as [Hc Hdot].
  apply negb_true_iff in Hc. rewrite Hc.
  destruct (Ascii.eqb c "."); [|reflexivity]. cbn [negb orb] in Hdot.
  destruct rest as [|d rest]; [reflexivity|].
  apply negb_true_iff in Hdot. rewrite Hdot. reflexivity.
Qed.

Lemma dotted_cons n m ns :
  dotted (n :: m :: ns) = str n +:+ "." +:+ dotted (m :: ns).
Proof. reflexivity. Qed.

(** The pattern takes the whole of a dotted number, and stops there. *)
Lemma number_prefix_dotted ns : forall suffix,
  ns <> [] -> Forall (fun n => 0 <= n) ns -> number_ends suffix = true ->
  number_prefix (dotted ns +:+ suffix) = dotted ns.
Proof.
  induction ns as [|n ns IH]; intros suffix Hne Hpos Hend; [contradiction|].
  inversion Hpos as [|? ? Hn Hrest]; subst.
  destruct (str_digits n Hn) as (c & d & Hstr & Hdigits & _).
  destruct ns as [|m ns].
  - unfold dotted. cbn [map String.concat].
    rewrite number_prefix_digits by exact Hdigits.
    rewrite number_prefix_ends by exact Hend. apply app_empty_r.
  - rewrite dotted_cons, !app_assoc_str.
    rewrite number_prefix_digits by exact Hdigits. f_equal.
    inversion Hrest as [|? ? Hm _]; subst.
    destruct (str_digits m Hm) as (cm & dm & Hstrm & Hdigitsm & _).
    assert (Hnext : exists tail, dotted (m :: ns) = String cm dm +:+ tail).
    { destruct ns as [|k ns].
      - exists ""%string. unfold dotted. cbn [map String.concat].
        rewrite Hstrm, app_empty_r. reflexivity.
      - eexists. rewrite dotted_cons, Hstrm. reflexivity. }
    destruct Hnext as [tail Htail].
    specialize (IH suffix ltac:(discriminate) Hrest Hend).
    rewrite Htail in IH |- *. rewrite app_assoc_str in IH |- *.
    rewrite Hstrm in Hdigitsm.
    rewrite number_prefix_digits in IH by exact Hdigitsm.
    rewrite number_prefix_dot by exact Hdigitsm.
    apply String.app_inj in IH. rewrite IH. reflexivity.
Qed.

Lemma search_number_skip prefix s :
  has_digit prefix = false ->
  search_number (prefix +:+ s) = search_number s.
Proof.
  induction prefix as [|c prefix IH]; intros Hp; [reflexivity|].
  cbn [has_digit] in Hp. apply orb_false_iff in Hp as [Hc Hp].
  rewrite app_String. cbn [search_number]. rewrite Hc. apply IH, Hp.
Qed.

Lemma search_number_none s : has_digit s = false -> search_number s = None.
Proof.
  induction s as [|c s IH]; intros Hs; [reflexivity|].
  cbn [has_digit] in Hs. apply orb_false_iff in Hs as [Hc Hs].
  cbn [search_number]. rewrite Hc. apply IH, Hs.
Qed.

Lemma split_dots_digits d : forall piece rest,
  all_digits d = true ->
  split_dots piece (d +:+ rest) = split_dots (piece +:+ d) rest.
Proof.
  induction d as [|c d IH]; intros piece rest Hd;
    [rewrite app_empty_r; reflexivity|].
  cbn [all_digits] in Hd. apply andb_true_iff in Hd as [Hc Hd].
  rewrite app_String. cbn [split_dots]. rewrite (digit_not_dot c Hc).
  rewrite IH by exact Hd. rewrite app_assoc_str. reflexivity.
Qed.

Lemma split_dots_dotted ns :
  ns <> [] -> Forall (fun n => 0 <= n) ns ->
  split_dots "" (dotted ns) = map str ns.
Proof.
  induction ns as [|n ns IH]; intros Hne Hpos; [contradiction|].
  inversion Hpos as [|? ? Hn Hrest]; subst.
  destruct (str_digits n Hn) as (c & d & _ & Hdigits & _).
  destruct ns as [|m ns].
  - unfold dotted. cbn [map String.concat].
    rewrite <- (app_empty_r (str n)) at 1.
    rewrite split_dots_digits by exact Hdigits. reflexivity.
  - rewrite dotted_cons, split_dots_digits by exact Hdigits.
    change ("." +:+ dotted (m :: ns)) with (String "." (dotted (m :: ns))).
    cbn [split_dots]. change (Ascii.eqb "." ".") with true. cbn iota.
    rewrite IH by (discriminate || exact Hrest). reflexivity.
Qed.

End SortKeyFacts.



(** * The order of the merge *)

Section SortedFacts.
Context {A : Type}.
Variable key : A -> list Z.

Lemma key_lt_asym a : forall b, key_lt a b = true -> key_lt b a = false.
Proof.
  induction a as [|x a IH]; intros [|y b] H; try reflexivity;
    try discriminate.
  cbn [key_lt] in *.
  destruct (Z.ltb_spec x y), (Z.ltb_spec y x); try lia; try reflexivity;
    try discriminate.
  apply IH, H.
Qed.

Lemma insert_by_perm x l : Permutation (insert_by key x l) (x :: l).
Proof.
  induction l as [|y l IH]; [reflexivity|]. cbn [insert_by].
  destruct (key_lt (key x) (key y)); [reflexivity|].
  rewrite IH. apply perm_swap.
Qed.

Lemma sorted_acc_perm l : forall acc,
  Permutation (fold_left (fun acc x => insert_by key x acc) l acc)
              (acc ++ l).
Proof.
  induction l as [|x l IH]; intros acc; [rewrite app_nil_r; reflexivity|].
  cbn [fold_left]. rewrite IH, insert_by_perm.
  rewrite (Permutation_middle acc l x). reflexivity.
Qed.

Lemma sorted_perm l : Permutation (sorted key l) l.
Proof. unfold sorted. rewrite sorted_acc_perm. reflexivity. Qed.

Local Abbreviation ordered :=
  (Sorted (fun x y => key_le (key x) (key y))).

Lemma insert_by_hd x y l :
  key_le (key y) (key x) ->
  HdRel (fun x y => key_le (key x) (key y)) y l ->
  HdRel (fun x y => key_le (key x) (key y)) y (insert_by key x l).
Proof.
  intros Hyx Hhd. destruct l as [|z l]; [constructor; exact Hyx|].
  cbn [insert_by]. destruct (key_lt (key x) (key z));
    constructor; [exact Hyx|]. inversion Hhd; assumption.
Qed.

Lemma insert_by_ordered x l : ordered l -> ordered (insert_by key x l).
Proof.
  induction l as [|y l IH]; intros Hl; [repeat constructor|].
  cbn [insert_by]. inversion Hl as [|? ? Hrest Hhd]; subst.
  destruct (key_lt (key x) (key y)) eqn:Hlt.
  - constructor; [exact Hl|]. constructor.
    unfold key_le. apply key_lt_asym, Hlt.
  - constructor; [apply IH, Hrest|].
    apply insert_by_hd; [exact Hlt|exact Hhd].
Qed.

Lemma sorted_acc_ordered l : forall acc,
  ordered acc ->
  ordered (fold_left (fun acc x => insert_by key x acc) l acc).
Proof.
  induction l as [|x l IH]; intros acc Hacc; [exact Hacc|].
  cbn [fold_left]. apply IH, insert_by_ordered, Hacc.
Qed.

Lemma sorted_ordered l : ordered (sorted key l).
Proof. apply sorted_acc_ordered. constructor. Qed.

End SortedFacts.

(** * From the fragments to the final document *)

Section DeliverFacts.
Context {fitz : TextMeasurer}.
Import PyStr.

Lemma links_of_inv T page_index link_targets l :
  In l (links_of T page_index link_targets) ->
  exists rect target_page,
    l = mkLink rect (T + target_page)
    /\ In (page_index, rect, target_page) link_targets.
Proof.
  induction link_targets as [|[[i r] t] rest IH]; [intros []|].
  rewrite links_of_cons. destruct (Nat.eqb_spec i page_index) as [->|Hne].
  - intros [<-|Hin].
    + exists r, t. split; [reflexivity|left; reflexivity].
    + destruct (IH Hin) as (rect & target & Hl & Hin').
      exists rect, target. split; [exact Hl|right; exact Hin'].
  - intros Hin. destruct (IH Hin) as (rect & target & Hl & Hin').
    exists rect, target. split; [exact Hl|right; exact Hin'].
Qed.

(** A merged body, rebased behind its TOC, delivers the fragments. *)
Lemma delivered_intro T titles docs base final link_targets :
  is_merged_body titles docs base ->
  rebased T base final link_targets ->
  0 <= T ->
  Forall (fun lt : LinkTarget => (fst (fst lt) < Z.to_nat T)%nat)
         link_targets ->
  delivered T titles docs final.
Proof.
  intros (Hlen & Hrows & _ & Hpages & _)
         (Hlen' & Hshift & Hlinks & Hlinked & Hbody & Htargets) HT Hidx.
  assert (Hrow : forall i : nat,
             (i < length docs)%nat ->
             exists b idx rect,
               doc_toc base !! i = Some b
               /\ link_targets !! i
                  = Some (idx, rect, sum_pages (take i docs))).
  { intros i Hi. rewrite <- Hlen in Hi.
    destruct (lookup_lt_is_Some_2 _ _ Hi) as [b Hb].
    pose proof (f_equal (@length Z) Htargets) as Hsame.
    rewrite !length_map in Hsame. rewrite <- Hsame in Hi.
    destruct (lookup_lt_is_Some_2 _ _ Hi) as [[[idx rect] target] Hlt].
    pose proof (map_lookup_Some snd _ _ _ Hlt) as H1.
    pose proof (map_lookup_Some bookmark_page0 _ _ _ Hb) as H2.
    rewrite <- Htargets in H2.
    assert (Htarget : Some target = Some (bookmark_page0 b))
      by (etransitivity; [symmetry; exact H1|exact H2]).
    inversion Htarget as [Ht].
    destruct (Hrows i b Hb) as (_ & _ & Hsum).
    exists b, idx, rect. split; [exact Hb|].
    rewrite <- Hsum, <- Ht. exact Hlt. }
  split; [exact HT|]. split; [|split; [|split; [|split]]].
  - intros i page Hi. apply Hbody. rewrite Hpages. exact Hi.
  - congruence.
  - intros i b' Hb'.
    assert (Hi : (i < length (doc_toc base))%nat).
    { rewrite <- Hlen'. eapply lookup_lt_Some, Hb'. }
    destruct (lookup_lt_is_Some_2 _ _ Hi) as [b Hb].
    destruct (Hshift i b Hb) as (b'' & Hb'' & Hfst & Hpage).
    assert (Hsame : Some b' = Some b'')
      by (etransitivity; [symmetry; exact Hb'|exact Hb'']).
    inversion Hsame; subst b''.
    destruct (Hrows i b Hb) as (Hlvl & Htitle & Hsum).
    rewrite Hfst. split; [exact Hlvl|]. split; [exact Htitle|]. lia.
  - intros i Hi. destruct (Hrow i Hi) as (b & idx & rect & _ & Hlt).
    assert (Hin : In (idx, rect, sum_pages (take i docs)) link_targets).
    { apply list_elem_of_In. eapply list_elem_of_lookup_2, Hlt. }
    destruct (Hlinked _ _ _ Hin) as (page & Hpage & Hlink).
    exists idx, page, rect. split; [|split; assumption].
    eapply List.Forall_forall in Hidx; [|exact Hin]. exact Hidx.
  - intros j page l Hj Hpage Hin.
    rewrite (Hlinks j page Hj Hpage) in Hin.
    apply links_of_inv in Hin as (rect & target & -> & Hin).
    apply list_elem_of_In, list_elem_of_lookup_1 in Hin as [i Hi].
    assert (Hlt : (i < length docs)%nat).
    { rewrite <- Hlen, <- (length_map bookmark_page0), <- Htargets,
        length_map. eapply lookup_lt_Some, Hi. }
    exists i. split; [exact Hlt|].
    destruct (Hrow i Hlt) as (_ & idx & rect' & _ & Hi').
    assert (Hsame : Some (j, rect, target)
                    = Some (idx, rect', sum_pages (take i docs)))
      by (etransitivity; [symmetry; exact Hi|exact Hi']).
    inversion Hsame. reflexivity.
Qed.

Lemma TLF_add_toc_and_links_run base font_size final T w
      bookmarked_pdf final_pdf :
  TLF_Packager.build_final base font_size = Ok (final, T) ->
  Fitz.open w bookmarked_pdf = Ok base ->
  TLF_Packager.add_toc_and_links bookmarked_pdf final_pdf font_size w
  = (Fitz.remove (Fitz.save w final final_pdf) bookmarked_pdf, Ok tt).
Proof.
  intros Hbuild Hopen. unfold TLF_Packager.add_toc_and_links.
  rewrite Hopen, Hbuild. reflexivity.
Qed.

Lemma pack_pdfs_add_toc_and_links_run base font_size include_toc_title
      final T w bookmarked_pdf final_pdf :
  pack_pdfs_with_toc.build_final base font_size include_toc_title
  = Ok (final, T) ->
  Fitz.open w bookmarked_pdf = Ok base ->
  bookmarked_pdf <> final_pdf ->
  pack_pdfs_with_toc.add_toc_and_links bookmarked_pdf final_pdf font_size
                                       include_toc_title w
  = (Fitz.remove (Fitz.save w final final_pdf) bookmarked_pdf, Ok tt).
Proof.
  intros Hbuild Hopen Hne. unfold pack_pdfs_with_toc.add_toc_and_links.
  rewrite Hopen, Hbuild.
  rewrite bool_decide_eq_true_2.
  - destruct (String.eqb_spec bookmarked_pdf final_pdf); [contradiction|].
    reflexivity.
  - cbn [Fitz.save files]. rewrite lookup_insert_ne by congruence.
    unfold Fitz.open in Hopen.
    destruct (files w !! bookmarked_pdf); [eauto|discriminate].
Qed.

(** The link targets of the generated pages are on TOC pages. *)
Lemma generated_targets_on_toc font_size page_width page_height
      toc_page_count page_number_x gap include_toc_title paginated toc_doc
      link_targets :
  pack_pdfs_with_toc.generate_loop font_size page_width page_height
    toc_page_count page_number_x gap include_toc_title 0%nat paginated
    Fitz.new [] = Ok (toc_doc, link_targets) ->
  Forall (fun lt : LinkTarget =>
            (fst (fst lt) < Z.to_nat (len paginated))%nat) link_targets.
Proof.
  intros Hgen.
  apply generate_loop_shape
    in Hgen as (_ & pages & new & _ & _ & _ & Hnew & Hidx & _).
  cbn in Hnew. subst link_targets.
  eapply Forall_impl; [exact Hidx|]. cbn beta. intros lt Hlt.
  unfold len. lia.
Qed.

Lemma eight_spaced : ~ (8 * 1.5 == 0)%Q.
Proof. intros H. vm_compute in H. discriminate. Qed.

(** A body that is on disk is packed behind its TOC. *)
Lemma pack_pdfs_packs titles docs base include_toc_title w
      bookmarked_pdf final_pdf :
  ~ (get_text_length "." 8 == 0)%Q ->
  is_merged_body titles docs base ->
  Fitz.open w bookmarked_pdf = Ok base ->
  bookmarked_pdf <> final_pdf ->
  exists final T,
    pack_pdfs_with_toc.add_toc_and_links bookmarked_pdf final_pdf 8
                                         include_toc_title w
    = (Fitz.remove (Fitz.save w final final_pdf) bookmarked_pdf, Ok tt)
    /\ delivered T titles docs final.
Proof.
  intros Hdot Hmerged Hopen Hne.
  destruct (pack_pdfs_build_final_rebased base 8 include_toc_title
              eight_spaced Hdot)
    as (final & T & paginated & toc_doc & lts & Hbuild & _ & HT & Hgen & Hreb).
  exists final, T. split.
  - eapply pack_pdfs_add_toc_and_links_run; eassumption.
  - eapply delivered_intro; [exact Hmerged|exact Hreb| |].
    + subst T. unfold len. lia.
    + subst T. unfold pack_pdfs_with_toc.generate_toc_pages in Hgen.
      eapply generated_targets_on_toc, Hgen.
Qed.

Lemma TLF_packs titles docs base w bookmarked_pdf final_pdf :
  ~ (get_text_length "." 8 == 0)%Q ->
  is_merged_body titles docs base ->
  Fitz.open w bookmarked_pdf = Ok base ->
  exists final T,
    TLF_Packager.add_toc_and_links bookmarked_pdf final_pdf 8 w
    = (Fitz.remove (Fitz.save w final final_pdf) bookmarked_pdf, Ok tt)
    /\ delivered T titles docs final.
Proof.
  intros Hdot Hmerged Hopen.
  destruct (TLF_build_final_rebased base 8 eight_spaced Hdot)
    as (final & T & paginated & toc_doc & lts & Hbuild & _ & HT & Hgen & Hreb).
  exists final, T. split.
  - eapply TLF_add_toc_and_links_run; eassumption.
  - eapply delivered_intro; [exact Hmerged|exact Hreb| |].
    + subst T. unfold len. lia.
    + subst T. unfold TLF_Packager.generate_toc_pages in Hgen.
      rewrite TLF_generate_loop_eq in Hgen.
      eapply generated_targets_on_toc, Hgen.
Qed.

End DeliverFacts.

Lemma all_open (w : World) (entries : list pack_pdfs_with_toc.Entry) :
  Forall (fun entry => is_Some (files w !! pack_pdfs_with_toc.e_pdf entry))
         entries ->
  exists docs,
    Forall2 (fun entry doc =>
               Fitz.open w (pack_pdfs_with_toc.e_pdf entry) = Ok doc)
            entries docs.
Proof.
  induction 1 as [|entry entries [doc Hdoc] _ [docs IH]];
    [exists []; constructor|].
  exists (doc :: docs). constructor; [|exact IH].
  unfold Fitz.open. rewrite Hdoc. reflexivity.
Qed.




